(** * Synthetic lease generators: field schema and value dependencies

    A shallow embedding of the two generator scripts

    - [phase2_high_field_extraction_at_scale/00_generate_complex_leases.py]
      (nine section generators, the merge loop of [generate_complex_lease]
      and the batch driver [main]), and
    - [phase1_doc_intelligence/00_generate_leases.py] (the artifact naming of
      the risk-level generators),

    followed by the properties of the field catalog that the specification
    states.

    Modelling conventions.

    - Python [int] is [Z]; Python [float] is Rocq's primitive binary64
      [float], so [*], [/], [+] round exactly as in CPython.
    - Python [str] is [string] (a byte string; the few non-ASCII characters of
      the source appear as their UTF-8 bytes).
    - A [dict] is an association list in insertion order with unique keys;
      [d[k] = v] replaces in place or appends, [d[k]] raises [KeyError].
    - The process-wide random generator, the wall clock, the files written
      and the lines printed form the [world] that every statement threads;
      exceptions are explicit outcomes.
    - The [random] module is not part of the repository: it is an interface
      ([RandomSource]) with the contract its documentation states. *)

From Stdlib Require Import ZArith QArith Qround String Ascii List Bool Lia.
From Stdlib Require Import DecimalString.
From Stdlib Require DecimalZ DecimalPos.
From Stdlib Require Import PrimFloat FloatOps Uint63.
Import ListNotations.

#[local] Set Warnings "-inexact-float".
#[local] Open Scope string_scope.
#[local] Open Scope Z_scope.

(* ================================================================== *)
(** * Python built-ins used by the generators                          *)
(* ================================================================== *)

(** ** Integers as text *)

(** [str(n)] for an [int]. *)
Definition str_of_int (n : Z) : string :=
  NilZero.string_of_int (Z.to_int n).

Fixpoint zeros (k : nat) : string :=
  match k with O => "" | S k' => String "0" (zeros k') end.

(** [s.zfill(width)] for a digit string. *)
Definition zfill_nat (width : nat) (s : string) : string :=
  zeros (width - String.length s) ++ s.

(** [format(n, '0{width}d')]: the sign counts in the width, zeros go after
    it. *)
Definition fmt_0d (width : nat) (n : Z) : string :=
  if n <? 0
  then "-" ++ zfill_nat (width - 1) (str_of_int (- n))
  else zfill_nat width (str_of_int n).

(** [f"{n:03d}"]. *)
Definition fmt_03d (n : Z) : string := fmt_0d 3 n.

(** Thousands separators over a digit string, from the right. *)
Fixpoint group3 (rev_digits : list ascii) (k : nat) (acc : string) : string :=
  match rev_digits with
  | [] => acc
  | c :: rest =>
      match k with
      | 3%nat => group3 rest 1 (String c (String "," acc))
      | _ => group3 rest (S k) (String c acc)
      end
  end.

Definition commas (digits : string) : string :=
  group3 (rev (list_ascii_of_string digits)) 0 "".

(** [f"{n:,}"] for an [int]. *)
Definition fmt_comma (n : Z) : string :=
  if n <? 0 then "-" ++ commas (str_of_int (- n)) else commas (str_of_int n).

(** [s * k]. *)
Fixpoint str_repeat (s : string) (k : nat) : string :=
  match k with O => "" | S k' => s ++ str_repeat s k' end.

Definition newline : string := String (ascii_of_nat 10) "".

(** [needle in haystack] for strings. *)
Definition str_contains (needle haystack : string) : bool :=
  match String.index 0 needle haystack with Some _ => true | None => false end.

(** [s.startswith(p)]. *)
Definition startswith (p s : string) : bool := String.prefix p s.

(** [s.endswith(p)]. *)
Definition endswith (p s : string) : bool :=
  (String.length p <=? String.length s)%nat
  && String.eqb (String.substring (String.length s - String.length p)
                                  (String.length p) s) p.

(** ** Floats *)

Module PyFloat.

(** [frshiftexp x = (m, se)] with [|m|] in [[0.5, 1)] and
    [x = m * 2^(se - shift)]; [normfr_mantissa m = |m| * 2^53].  Hence
    [|x| = mantissa * 2^(se - 2154)], where [2154 = shift + 53]. *)
Definition bias : int := 2154%uint63.

(** The rational number a finite float denotes. *)
Definition exact (x : float) : Q :=
  let (m, se) := frshiftexp x in
  let mant := Uint63.to_Z (normfr_mantissa m) in
  let e := Uint63.to_Z se - Uint63.to_Z bias in
  let n := if (x <? 0)%float then - mant else mant in
  if 0 <=? e then inject_Z (n * 2 ^ e) else Qmake n (Z.to_pos (2 ^ (- e))).

(** [a <= b] on finite floats, as numbers. *)
Definition le (a b : float) : Prop :=
  is_finite a = true /\ is_finite b = true /\ (exact a <= exact b)%Q.

Definition leb (a b : float) : bool :=
  is_finite a && is_finite b && Qle_bool (exact a) (exact b).

(** [float(n)] for an [int] below [2^63] in magnitude (the conversion
    rounds to nearest, as CPython's does). *)
Definition of_Z (n : Z) : float :=
  if n <? 0 then (- of_uint63 (Uint63.of_Z (- n)))%float
  else of_uint63 (Uint63.of_Z n).

(** Magnitude of [x] truncated towards zero. *)
Definition trunc_mag (x : float) : Z :=
  let (m, se) := frshiftexp x in
  let mant := normfr_mantissa m in
  if (se <=? bias)%uint63
  then Uint63.to_Z (Uint63.lsr mant (Uint63.sub bias se))
  else Uint63.to_Z mant * 2 ^ (Uint63.to_Z se - Uint63.to_Z bias).

Definition truncate (x : float) : Z :=
  if (x <? 0)%float then - trunc_mag x else trunc_mag x.

(** Nearest integer to a rational, ties to even. *)
Definition round_half_even (q : Q) : Z :=
  let n := Qnum q in
  let d := Z.pos (Qden q) in
  let f := n / d in
  let twice_rem := 2 * (n - f * d) in
  if twice_rem <? d then f
  else if d <? twice_rem then f + 1
  else if Z.even f then f else f + 1.

(** [x] in hundredths, correctly rounded from its exact value. *)
Definition to_cents (x : float) : Z := round_half_even (exact x * 100).

(** [round(x, 2)].  CPython prints the exact value of [x] to two decimals
    (round-half-even on the exact binary value) and reads the result
    back, which gives the float nearest to [cents / 100]; for
    [|cents| < 2^53] that is the IEEE quotient of two exact floats.
    Non-finite values are returned unchanged, and a zero result keeps the
    sign of [x]. *)
Definition round2 (x : float) : float :=
  if is_finite x then
    let c := to_cents x in
    if c =? 0 then (if get_sign x then neg_zero else zero)
    else (of_Z c / 100)%float
  else x.

(** [f"{x:,.2f}"]. *)
Definition fmt_comma_2f (x : float) : string :=
  let c := to_cents x in
  let a := Z.abs c in
  (if get_sign x then "-" else "")
    ++ commas (str_of_int (a / 100)) ++ "." ++ fmt_0d 2 (a mod 100).

End PyFloat.

(** ** Dates: [datetime], [timedelta(days=...)], [relativedelta(months=...)] *)

Record datetime := mk_datetime {
  dt_year : Z;
  dt_month : Z;
  dt_day : Z;
  dt_micros : Z  (** time of day, in microseconds *)
}.

Module Calendar.

Definition is_leap (y : Z) : bool :=
  ((y mod 4 =? 0) && negb (y mod 100 =? 0)) || (y mod 400 =? 0).

Definition days_in_month (y m : Z) : Z :=
  if m =? 2 then (if is_leap y then 29 else 28)
  else if (m =? 4) || (m =? 6) || (m =? 9) || (m =? 11) then 30 else 31.

(** Days of the year before the first of month [m], in a common year. *)
Definition days_before_month_common (m : Z) : Z :=
  nth (Z.to_nat m) [0; 0; 31; 59; 90; 120; 151; 181; 212; 243; 273; 304; 334] 0.

Definition days_before_month (y m : Z) : Z :=
  days_before_month_common m + (if (2 <? m) && is_leap y then 1 else 0).

Definition days_before_year (y : Z) : Z :=
  let p := y - 1 in p * 365 + p / 4 - p / 100 + p / 400.

(** Proleptic Gregorian ordinal, 0001-01-01 being day 1. *)
Definition ymd2ord (y m d : Z) : Z :=
  days_before_year y + days_before_month y m + d.

Definition ord2ymd (ordinal : Z) : Z * Z * Z :=
  let n := ordinal - 1 in
  let n400 := n / 146097 in let n := n mod 146097 in
  let n100 := n / 36524 in let n := n mod 36524 in
  let n4 := n / 1461 in let n := n mod 1461 in
  let n1 := n / 365 in let n := n mod 365 in
  let year := n400 * 400 + 1 + n100 * 100 + n4 * 4 + n1 in
  if (n1 =? 4) || (n100 =? 4) then (year - 1, 12, 31)
  else
    let leapyear := (n1 =? 3) && (negb (n4 =? 24) || (n100 =? 3)) in
    let month := Z.shiftr (n + 50) 5 in
    let preceding :=
      days_before_month_common month
      + (if (2 <? month) && leapyear then 1 else 0) in
    if n <? preceding then
      let month := month - 1 in
      let dim :=
        (if month =? 2 then (if leapyear then 29 else 28)
         else days_in_month year month) in
      (year, month, n - (preceding - dim) + 1)
    else (year, month, n - preceding + 1).

(** [dt + timedelta(days=k)] (and [dt - timedelta(days=k)] as [- k]), for a
    result in the years 1 to 9999 that [datetime] has.  Beyond them Python
    raises [OverflowError], which this function does not show: the theorems
    that state the result of a run take clock readings that keep every
    date inside ([calendar_date]). *)
Definition add_days (dt : datetime) (k : Z) : datetime :=
  let '(y, m, d) :=
    ord2ymd (ymd2ord (dt_year dt) (dt_month dt) (dt_day dt) + k) in
  mk_datetime y m d (dt_micros dt).

(** [dt + relativedelta(months=n)] for [n >= 0]: dateutil folds the months
    into years and months, moves the month, then clamps the day to the
    length of the target month.  As for [add_days], the result is that of
    Python up to the year 9999; beyond it Python raises [ValueError]. *)
Definition add_months (dt : datetime) (n : Z) : datetime :=
  let years := n / 12 in
  let months := n mod 12 in
  let year := dt_year dt + years in
  let month := dt_month dt + months in
  let '(year, month) :=
    if 12 <? month then (year + 1, month - 12) else (year, month) in
  let day := Z.min (days_in_month year month) (dt_day dt) in
  mk_datetime year month day (dt_micros dt).

Definition month_name (m : Z) : string :=
  nth (Z.to_nat m)
    [""; "January"; "February"; "March"; "April"; "May"; "June"; "July";
     "August"; "September"; "October"; "November"; "December"] "".

(** [dt.strftime('%B %d, %Y')], C locale. *)
Definition strftime_B_d_Y (dt : datetime) : string :=
  month_name (dt_month dt) ++ " " ++ fmt_0d 2 (dt_day dt) ++ ", "
    ++ str_of_int (dt_year dt).

End Calendar.

(* ================================================================== *)
(** * Values, dictionaries, exceptions                                 *)
(* ================================================================== *)

(** The Python values that occur in a Document Record. *)
Inductive value :=
| VNone
| VInt (n : Z)
| VFloat (x : float)
| VStr (s : string)
| VDateTime (d : datetime).

Definition is_None (v : value) : bool :=
  match v with VNone => true | _ => false end.

(** A [dict]: insertion-ordered, one entry per key. *)
Definition dict := list (string * value).

Definition keys (d : dict) : list string := map fst d.

(** [len(d)]. *)
Definition len (d : dict) : Z := Z.of_nat (List.length d).

Fixpoint dict_get (k : string) (d : dict) : option value :=
  match d with
  | [] => None
  | (k', v) :: rest => if String.eqb k k' then Some v else dict_get k rest
  end.

(** [d[k] = v]: an existing key keeps its position and takes the new value,
    a new key goes last. *)
Fixpoint dict_set (k : string) (v : value) (d : dict) : dict :=
  match d with
  | [] => [(k, v)]
  | (k', v') :: rest =>
      if String.eqb k k' then (k, v) :: rest else (k', v') :: dict_set k v rest
  end.

Inductive exn :=
| KeyError (k : string)
| ValueError
| IndexError
| TypeError
| OverflowError.

(** [int(x)] for a float. *)
Definition py_int (x : float) : exn + Z :=
  if is_nan x then inl ValueError
  else if is_infinity x then inl OverflowError
  else inr (PyFloat.truncate x).

(** [str(v)] as f-strings apply it.  The generators interpolate strings and
    integers only; the shortest-repr printing of floats and the ISO printing
    of datetimes are not modelled and show as a tag. *)
Definition py_str (v : value) : string :=
  match v with
  | VNone => "None"
  | VInt n => str_of_int n
  | VStr s => s
  | VFloat _ => "<float>"
  | VDateTime _ => "<datetime>"
  end.

(* ================================================================== *)
(** * The random source                                                *)
(* ================================================================== *)

(** The interface of Python's [random] module that the generators use, with
    the contract of its documentation: [_randbelow(n)] is in [[0, n)], and
    [uniform(a, b)] returns [N] with [a <= N <= b] when [a <= b].  The state
    is the hidden generator state; [rs_seed] is [random.seed(n)]. *)
Class RandomSource := {
  rng_state : Type;
  rs_seed : Z -> rng_state;
  rs_randbelow : Z -> rng_state -> Z * rng_state;
  rs_uniform : float -> float -> rng_state -> float * rng_state;
  rs_randbelow_range :
    forall n s, 0 < n -> 0 <= fst (rs_randbelow n s) < n;
  rs_uniform_range :
    forall a b s, PyFloat.le a b ->
      PyFloat.le a (fst (rs_uniform a b s))
      /\ PyFloat.le (fst (rs_uniform a b s)) b
}.

(* ================================================================== *)
(** * The world and the statement monad                                *)
(* ================================================================== *)

Section Monad.

Context {RS : RandomSource}.

(** Everything a run can observe or change. *)
Record world := mk_world {
  rng : rng_state;                    (** state of the [random] module *)
  clock : nat -> datetime;            (** the successive answers of [datetime.now()] *)
  clock_reads : nat;                  (** how many answers were consumed *)
  script_dir : string;                (** [os.path.dirname(__file__)] *)
  artifacts : list (string * dict);   (** documents written: path and the record rendered *)
  stdout : list string                (** lines printed, oldest first *)
}.

Definition set_rng (s : rng_state) (w : world) : world :=
  mk_world s (clock w) (clock_reads w) (script_dir w) (artifacts w) (stdout w).

Inductive outcome (A : Type) :=
| Ok (a : A) (w : world)
| Raise (e : exn) (w : world).
Arguments Ok {A} a w.
Arguments Raise {A} e w.

Definition M (A : Type) : Type := world -> outcome A.

Definition ret {A} (a : A) : M A := fun w => Ok a w.

Definition bind {A B} (m : M A) (f : A -> M B) : M B :=
  fun w => match m w with
           | Ok a w' => f a w'
           | Raise e w' => Raise e w'
           end.

Definition raise {A} (e : exn) : M A := fun w => Raise e w.

Definition fmap {A B} (f : A -> B) (m : M A) : M B :=
  bind m (fun a => ret (f a)).

Definition lift {A} (r : exn + A) : M A :=
  match r with inl e => raise e | inr a => ret a end.

End Monad.

Arguments Ok {RS A} a w.
Arguments Raise {RS A} e w.

Declare Scope py_scope.
Delimit Scope py_scope with py.
Notation "x <- m ;; k" := (bind m (fun x => k))
  (at level 61, m at next level, right associativity) : py_scope.
Notation "' p <- m ;; k" := (bind m (fun p => k))
  (at level 61, p pattern, m at next level, right associativity) : py_scope.
Notation "m ;;; k" := (bind m (fun _ => k))
  (at level 61, right associativity) : py_scope.
Infix "<$>" := fmap (at level 60, right associativity) : py_scope.
#[local] Open Scope py_scope.

Section Primitives.

Context {RS : RandomSource}.

(** ** The [random] module *)

Definition randbelow (n : Z) : M Z :=
  fun w => let r := rs_randbelow n (rng w) in Ok (fst r) (set_rng (snd r) w).

(** [random.seed(n)]. *)
Definition random_seed (n : Z) : M unit :=
  fun w => Ok tt (set_rng (rs_seed n) w).

(** [random.randint(a, b)]: [randrange(a, b + 1)], which raises
    [ValueError] on an empty range. *)
Definition randint (a b : Z) : M Z :=
  let width := b + 1 - a in
  if 0 <? width then r <- randbelow width ;; ret (a + r)
  else raise ValueError.

(** [random.choice(seq)]: [seq[_randbelow(len(seq))]], [IndexError] on an
    empty sequence. *)
Definition choice {A} (seq : list A) : M A :=
  match seq with
  | [] => raise IndexError
  | x :: _ =>
      i <- randbelow (Z.of_nat (List.length seq)) ;;
      ret (nth (Z.to_nat i) seq x)
  end.

(** [random.uniform(a, b)]. *)
Definition uniform (a b : float) : M float :=
  fun w => let r := rs_uniform a b (rng w) in Ok (fst r) (set_rng (snd r) w).

(** ** Clock, output, dictionaries *)

(** [datetime.now()]. *)
Definition now : M datetime :=
  fun w => Ok (clock w (clock_reads w))
              (mk_world (rng w) (clock w) (S (clock_reads w)) (script_dir w)
                        (artifacts w) (stdout w)).

(** [print(line)]. *)
Definition print (line : string) : M unit :=
  fun w => Ok tt (mk_world (rng w) (clock w) (clock_reads w) (script_dir w)
                           (artifacts w) (stdout w ++ [line])%list).

(** [d[k]]. *)
Definition getitem (d : dict) (k : string) : M value :=
  match dict_get k d with
  | Some v => ret v
  | None => raise (KeyError k)
  end.


(** [v * x] for a float [x]: an [int] is converted, a [float] multiplied,
    anything else is a [TypeError]. *)
Definition mul_float (v : value) (x : float) : M float :=
  match v with
  | VInt n => ret (PyFloat.of_Z n * x)%float
  | VFloat y => ret (y * x)%float
  | _ => raise TypeError
  end.

(** [v > 0]: a number is compared, anything else is a [TypeError]. *)
Definition gt_zero (v : value) : M bool :=
  match v with
  | VInt n => ret (0 <? n)
  | VFloat x => ret (PrimFloat.ltb 0%float x)
  | _ => raise TypeError
  end.

(** [v / x] for a float [x]. *)
Definition div_float (v : value) (x : float) : M float :=
  match v with
  | VInt n => ret (PyFloat.of_Z n / x)%float
  | VFloat y => ret (y / x)%float
  | _ => raise TypeError
  end.

(** A dict display [{k1: e1, k2: e2, ...}]: the values are computed in
    order, each entry is stored as it is computed. *)
Fixpoint dict_display_from (acc : dict) (entries : list (string * M value))
  : M dict :=
  match entries with
  | [] => ret acc
  | (k, e) :: rest => v <- e ;; dict_display_from (dict_set k v acc) rest
  end.

Definition dict_display (entries : list (string * M value)) : M dict :=
  dict_display_from [] entries.

(** [for x in xs: ...] over a loop variable [s] that the body rebinds. *)
Fixpoint for_each {A S} (xs : list A) (body : A -> S -> M S) (s : S) : M S :=
  match xs with
  | [] => ret s
  | x :: rest => s' <- body x s ;; for_each rest body s'
  end.

(** [os.path.join(a, b)] of [posixpath]: an absolute [b] stands alone; an
    empty [a], or one that ends in a separator, takes [b] as it is;
    otherwise a separator comes between the two. *)
Definition os_path_join (a b : string) : string :=
  if startswith "/" b then b
  else if String.eqb a "" || endswith "/" a then a ++ b
  else a ++ "/" ++ b.

(** The module constant [OUTPUT_DIR]:
    [os.path.join(os.path.dirname(__file__), "leases")]. *)
Definition OUTPUT_DIR : M string :=
  fun w => Ok (os_path_join (script_dir w) "leases") w.

(** [doc.build(story)]: the document is written. *)
Definition doc_build (filepath : string) (record : dict) : M unit :=
  fun w => Ok tt (mk_world (rng w) (clock w) (clock_reads w) (script_dir w)
                           (artifacts w ++ [(filepath, record)])%list (stdout w)).

Definition str (s : string) : M value := ret (VStr s).
Definition int_ (n : Z) : M value := ret (VInt n).
Definition flt (x : float) : M value := ret (VFloat x).

End Primitives.

Notation "d .[ k ]" := (getitem d k) (at level 1, format "d .[ k ]") : py_scope.

Arguments uniform {RS} (a b)%_float.

(* ================================================================== *)
(** * Phase 2: complex leases with 351 extractable fields              *)
(* ================================================================== *)

Module Phase2.

Import Calendar.

(** ** Sample data pools *)

Definition MARKETS : list string :=
  ["Chicago"; "Dallas-Fort Worth"; "Atlanta"; "Inland Empire";
    "Northern New Jersey"; "Phoenix"; "Denver"; "Houston"; "Memphis";
    "Indianapolis"; "Columbus"; "Nashville"].

Definition TENANT_COMPANIES : list (string * string * string) :=
  [("Apex Distribution LLC", "Delaware", "Warehousing & Distribution");
   ("GlobalTech Fulfillment Inc.", "California", "E-Commerce Fulfillment");
   ("Midwest Logistics Partners", "Illinois", "Third-Party Logistics");
   ("SunBelt Supply Chain Co.", "Texas", "Cold Chain Logistics");
   ("Pacific Freight Solutions", "Nevada", "Freight Consolidation");
   ("Eastern Seaboard Warehousing", "New Jersey", "Bulk Storage");
   ("Heartland Manufacturing Corp.", "Ohio", "Light Manufacturing");
   ("Southern Cross Logistics Ltd.", "Georgia", "Cross-Dock Operations")].

Definition PROPERTY_ADDRESSES : list (string * string * string * string * string) :=
  [("1500 Industrial Parkway", "Romeoville", "IL", "60446", "Will");
   ("8200 Commerce Drive", "Irving", "TX", "75063", "Dallas");
   ("3400 Logistics Boulevard", "McDonough", "GA", "30253", "Henry");
   ("12000 Distribution Way", "Ontario", "CA", "91761", "San Bernardino");
   ("500 Terminal Road", "Elizabeth", "NJ", "07201", "Union");
   ("7800 Warehouse Lane", "Phoenix", "AZ", "85043", "Maricopa");
   ("2200 Crossdock Circle", "Memphis", "TN", "38118", "Shelby");
   ("9100 Fulfillment Drive", "Plainfield", "IN", "46168", "Hendricks")].

Definition INSURANCE_CARRIERS : list string :=
  ["Hartford Financial Services"; "Zurich Insurance Group"; "Chubb Limited";
    "Liberty Mutual"; "Travelers Companies"].

Definition GUARANTOR_NAMES : list string :=
  ["John R. Whitfield"; "Margaret A. Chen"; "Robert S. Patel";
    "Susan K. Yamamoto"; "David L. Morrison"; "Patricia M. O'Brien"].

Definition LAW_FIRMS : list string :=
  ["Baker McKenzie LLP"; "Jones Day"; "Kirkland & Ellis LLP";
    "DLA Piper LLP"; "Latham & Watkins LLP"].

(** The field references [d['...']] of [build_lease_pdf], in the order the
    paragraphs evaluate them: those before the abatement paragraph 4.3,
    those of that paragraph, and those after it. *)
Definition template_fields_before_abatement : list string :=
  ["lease_id"; "execution_date"; "lease_execution_city"; "landlord_name";
    "landlord_state"; "landlord_entity_type"; "landlord_address";
    "tenant_name"; "tenant_state"; "tenant_entity_type";
    "tenant_business_type"; "tenant_address"; "property_address";
    "property_city"; "property_county"; "property_state"; "property_zip";
    "market"; "tax_parcel_id"; "property_county"; "building_year_built";
    "total_rentable_sqft"; "warehouse_sqft"; "office_sqft"; "land_acres";
    "clear_height_ft"; "dock_doors"; "drive_in_doors";
    "trailer_parking_spaces"; "auto_parking_spaces"; "lease_term_months";
    "lease_start_date"; "lease_end_date"; "rent_commencement_date";
    "annual_base_rent"; "monthly_base_rent"; "base_rent_psf";
    "rent_payment_day"; "rent_payment_method"; "rent_escalation_pct";
    "rent_escalation_type"; "yr1_annual_rent"; "yr2_annual_rent";
    "yr3_annual_rent"; "yr4_annual_rent"; "yr5_annual_rent"].

Definition abatement_fields : list string :=
  ["free_rent_months"; "free_rent_conditions"].

Definition template_fields_after_abatement : list string :=
  ["security_deposit_amount"; "security_deposit_months";
    "security_deposit_form"; "security_deposit_interest";
    "security_deposit_return_days"; "letter_of_credit_amount";
    "letter_of_credit_issuer_rating"; "letter_of_credit_expiry_months";
    "letter_of_credit_burndown"; "letter_of_credit_draw_conditions";
    "ti_allowance_psf"; "ti_allowance_total"; "ti_deadline_months";
    "ti_approval_required"; "ti_general_contractor";
    "ti_change_order_cap_pct"; "ti_unused_treatment"; "lease_type";
    "cam_psf_estimate"; "cam_annual_estimate"; "tax_psf_estimate";
    "tax_annual_estimate"; "insurance_psf_estimate";
    "insurance_annual_estimate"; "mgmt_fee_pct"; "base_year";
    "proration_method"; "late_payment_grace_days"; "late_payment_fee_pct";
    "interest_on_late_payment_pct"; "holdover_rent_multiplier";
    "holdover_rent_type"; "opex_cap_pct"; "opex_cap_type";
    "opex_base_year_amount"; "controllable_expense_cap_pct";
    "uncontrollable_expenses_list"; "opex_reconciliation_deadline_months";
    "opex_reconciliation_method"; "tenant_proportionate_share_pct";
    "common_area_definition"; "opex_gross_up_provision";
    "opex_gross_up_method"; "opex_audit_right"; "opex_audit_frequency";
    "opex_audit_notice_days"; "opex_audit_period_years";
    "opex_audit_cost_responsibility"; "opex_dispute_resolution";
    "tax_protest_right"; "tax_protest_cost_sharing"; "tax_abatement_sharing";
    "utility_responsibility"; "utility_types_covered";
    "hvac_maintenance_responsibility"; "hvac_contract_requirement";
    "snow_removal_responsibility"; "landscaping_responsibility";
    "janitorial_responsibility"; "pest_control_responsibility";
    "trash_removal_responsibility"; "recycling_requirements";
    "parking_lot_maintenance"; "roof_maintenance_responsibility";
    "capital_expenditure_treatment"; "capital_expenditure_threshold";
    "reserve_fund_contribution_psf"; "insurance_requirements_for_cam";
    "property_management_company"; "property_management_fee_pct";
    "administrative_overhead_pct"; "expense_exclusions"; "renewal_conditions";
    "renewal_option_count"; "renewal_option_term_months";
    "renewal_notice_months"; "renewal_rent_method";
    "renewal_fmv_determination"; "renewal_fmv_dispute_resolution";
    "renewal_ti_allowance"; "expansion_option"; "expansion_space_sqft";
    "expansion_notice_months"; "expansion_deadline_month";
    "expansion_rent_rate"; "expansion_ti_allowance"; "rofo_right";
    "rofo_space_description"; "rofo_notice_days"; "rofo_response_days";
    "rofo_matching_terms"; "rofr_right"; "rofr_space_description";
    "rofr_notice_days"; "purchase_option"; "purchase_option_price_method";
    "purchase_option_exercise_window"; "purchase_option_due_diligence_days";
    "purchase_option_closing_days"; "termination_option";
    "termination_option_effective_month"; "termination_notice_months";
    "termination_fee_months_rent"; "termination_fee_includes_unamortized_ti";
    "termination_fee_includes_commission"; "contraction_option";
    "contraction_min_sqft_retained"; "contraction_notice_months";
    "contraction_fee_type"; "relocation_right_landlord";
    "relocation_comparable_space"; "relocation_cost_responsibility";
    "must_take_space"; "must_take_space_sqft"; "must_take_deadline_month";
    "must_take_rent_rate"; "sublease_consent_required";
    "sublease_profit_sharing_pct"; "gl_coverage_per_occurrence";
    "gl_coverage_aggregate"; "gl_deductible_max";
    "property_insurance_coverage"; "property_insurance_includes_ti";
    "property_insurance_business_personal_property";
    "umbrella_excess_liability"; "workers_comp_coverage";
    "auto_liability_coverage"; "business_interruption_coverage_months";
    "environmental_liability_coverage"; "professional_liability_required";
    "cyber_liability_required"; "pollution_legal_liability";
    "builders_risk_during_ti"; "tenant_insurance_carrier_rating";
    "blanket_policy_acceptable"; "self_insurance_permitted";
    "landlord_additional_insured"; "landlord_lender_additional_insured";
    "insurance_certificate_delivery_days"; "insurance_renewal_notice_days";
    "insurance_review_frequency"; "insurance_adjustment_for_inflation";
    "waiver_of_subrogation"; "waiver_of_subrogation_scope";
    "indemnification_by_tenant"; "indemnification_by_landlord";
    "indemnification_survival_months"; "indemnification_cap";
    "mutual_waiver_of_consequential_damages"; "landlord_liability_cap";
    "tenant_liability_cap"; "hold_harmless_scope";
    "insurance_increase_due_to_tenant_use";
    "landlord_property_insurance_type";
    "landlord_property_insurance_deductible"; "earthquake_insurance";
    "flood_insurance"; "terrorism_insurance";
    "initial_buildout_responsibility"; "initial_buildout_deadline_days";
    "buildout_plan_approval_days"; "buildout_plan_resubmission_days";
    "construction_manager"; "construction_oversight_fee_pct";
    "prevailing_wage_required"; "construction_insurance_requirements";
    "construction_lien_waiver_required"; "construction_completion_guarantee";
    "alterations_threshold_no_approval"; "alterations_structural_consent";
    "alterations_cosmetic_consent"; "alterations_removal_at_expiration";
    "alterations_restoration_obligation"; "restoration_deposit_required";
    "restoration_cost_estimate"; "signage_right"; "signage_size_max_sqft";
    "signage_approval_required"; "signage_cost_responsibility";
    "signage_removal_at_expiration"; "telecom_riser_access";
    "telecom_provider_choice"; "telecom_equipment_rooftop";
    "rooftop_license_fee_monthly"; "generator_permitted";
    "generator_fuel_type"; "generator_noise_restrictions";
    "solar_panel_permitted"; "ev_charging_stations_permitted";
    "racking_system_approval"; "floor_load_capacity_psf";
    "mezzanine_permitted"; "hazmat_storage_modifications";
    "monetary_default_cure_days"; "non_monetary_default_cure_days";
    "non_monetary_extended_cure"; "notice_of_default_method";
    "notice_of_default_address_tenant"; "notice_of_default_address_landlord";
    "late_fee_percentage"; "late_fee_grace_period_days";
    "interest_on_past_due_rate"; "interest_calculation_method";
    "landlord_lien_on_property"; "landlord_lockout_right";
    "landlord_self_help_right"; "cross_default_provision";
    "cross_default_cure_period_days"; "acceleration_of_rent";
    "mitigation_of_damages"; "consequential_damages_waiver";
    "attorneys_fees_prevailing_party"; "attorneys_fees_cap"; "guarantor_name";
    "guarantor_relationship"; "guarantee_type"; "guarantee_amount_cap";
    "guarantee_burndown_schedule"; "guarantee_financial_reporting";
    "bankruptcy_provision"; "bankruptcy_adequate_assurance_days";
    "right_to_cure_by_lender"; "right_to_cure_by_guarantor";
    "surrender_condition"; "surrender_inspection_days_before";
    "holdover_provision"; "holdover_notice_to_vacate_days";
    "landlord_default_notice_days"; "landlord_default_cure_days";
    "rent_abatement_for_landlord_default"; "tenant_offset_right";
    "force_majeure_rent_abatement"; "dispute_resolution_method";
    "hazmat_permitted"; "hazmat_types_permitted";
    "hazmat_storage_requirements"; "hazmat_reporting_frequency";
    "hazmat_removal_at_expiration"; "phase_i_esa_date";
    "phase_i_esa_baseline"; "phase_ii_esa_required";
    "environmental_indemnification_by_tenant";
    "environmental_indemnification_by_landlord";
    "environmental_indemnification_survival_years";
    "environmental_remediation_responsibility";
    "environmental_remediation_standard"; "environmental_insurance_required";
    "asbestos_survey_completed"; "lead_paint_disclosure";
    "mold_prevention_responsibility"; "indoor_air_quality_standards";
    "stormwater_management_compliance"; "spcc_plan_required";
    "ada_compliance_responsibility"; "ada_compliance_cost_sharing";
    "fire_code_compliance"; "fire_sprinkler_system"; "fire_alarm_monitoring";
    "zoning_compliance_warranty_landlord"; "zoning_current_classification";
    "zoning_special_use_permit"; "building_code_compliance";
    "energy_code_compliance"; "sustainability_requirements";
    "noise_restrictions"; "operating_hours_restrictions";
    "truck_traffic_restrictions"; "odor_emission_restrictions";
    "governing_law_state"; "jurisdiction_venue"; "waiver_of_jury_trial";
    "force_majeure_definition"; "force_majeure_max_days";
    "force_majeure_rent_obligation"; "subordination_required";
    "subordination_non_disturbance"; "snda_form"; "attornment_obligation";
    "estoppel_certificate_delivery_days"; "estoppel_certificate_frequency";
    "estoppel_certificate_content"; "recording_of_lease";
    "recording_cost_responsibility"; "broker_landlord"; "broker_tenant";
    "broker_commission_responsibility"; "broker_commission_on_renewal";
    "quiet_enjoyment_covenant"; "access_by_landlord"; "landlord_access_hours";
    "parking_allocation"; "signage_on_building_directory";
    "assignment_consent_required"; "assignment_release_of_assignor";
    "transfer_fee"; "tenant_financial_reporting"; "notices_delivery_method";
    "notices_deemed_received"; "confidentiality_of_lease_terms";
    "entire_agreement_clause"; "amendment_requirements";
    "severability_clause"; "landlord_lender_name"; "exhibit_list";
    "landlord_name"; "tenant_name"].

Section Generators.

Context {RS : RandomSource}.

Definition generate_lease_id : M string :=
  year <- randint 2024 2026 ;;
  serial <- randint 10000 99999 ;;
  ret ("CX-" ++ str_of_int year ++ "-" ++ str_of_int serial).

Definition rand_dollar (low high : float) : M float :=
  u <- uniform low high ;; ret (PyFloat.round2 u).

Definition rand_pct (low high : float) : M float :=
  u <- uniform low high ;; ret (PyFloat.round2 u).

Definition rand_date_future (min_days max_days : Z) : M datetime :=
  today <- now ;;
  days <- randint min_days max_days ;;
  ret (add_days today days).

(** ** Data generators for each section *)

(** Section 1: Core Terms. *)
Definition gen_core_terms : M dict :=
  '(tenant, tenant_state, tenant_business) <- choice TENANT_COMPANIES ;;
  '(address, city, state, zipcode, county) <- choice PROPERTY_ADDRESSES ;;
  market <- choice MARKETS ;;

  start <- rand_date_future 30 120 ;;
  term_months <- choice [60; 84; 120; 156; 180] ;;
  let end_ := add_months start term_months in
  back <- randint 14 60 ;;
  let execution_date := add_days start (- back) in
  delay <- randint 0 3 ;;
  let rent_commence := add_months start delay in

  sqft <- randint 80000 500000 ;;
  per_acre <- uniform 15000 22000 ;;
  let land_acres := PyFloat.round2 (PyFloat.of_Z sqft / per_acre) in
  office_max <- lift (py_int (PyFloat.of_Z sqft * 0.05)) ;;
  office_sqft <- randint 2000 office_max ;;
  let warehouse_sqft := sqft - office_sqft in
  clear_height <- choice [32; 36; 40] ;;
  dock_doors <- randint 20 80 ;;
  drive_in_doors <- randint 2 6 ;;
  trailer_parking <- randint 40 150 ;;
  auto_parking <- randint 50 200 ;;
  building_year <- randint 2005 2024 ;;
  p1 <- randint 10 99 ;;
  p2 <- randint 100 999 ;;
  p3 <- randint 1000 9999 ;;
  let tax_parcel :=
    str_of_int p1 ++ "-" ++ str_of_int p2 ++ "-" ++ str_of_int p3 in

  dict_display [
    ("lease_id", VStr <$> generate_lease_id);
    ("execution_date", str (strftime_B_d_Y execution_date));
    ("landlord_name", str "Acme Industrial Real Estate, LLC");
    ("landlord_state", str "Delaware");
    ("landlord_entity_type", str "limited liability company");
    ("landlord_address",
       str "100 Corporate Center Drive, Suite 400, Wilmington, DE 19801");
    ("tenant_name", str tenant);
    ("tenant_state", str tenant_state);
    ("tenant_entity_type",
       str (if str_contains "Inc" tenant || str_contains "Corp" tenant
          then "corporation" else "limited liability company"));
    ("tenant_business_type", str tenant_business);
    ("tenant_address",
       n <- randint 100 9999 ;;
       street <- choice ["Commerce"; "Enterprise"; "Business"] ;;
       kind <- choice ["Blvd"; "Ave"; "Pkwy"] ;;
       str (str_of_int n ++ " " ++ street ++ " " ++ kind ++ ", " ++ city ++ ", "
              ++ state ++ " " ++ zipcode));
    ("property_address",
       str (address ++ ", " ++ city ++ ", " ++ state ++ " " ++ zipcode));
    ("property_city", str city);
    ("property_state", str state);
    ("property_zip", str zipcode);
    ("property_county", str county);
    ("market", str market);
    ("tax_parcel_id", str tax_parcel);
    ("total_rentable_sqft", int_ sqft);
    ("office_sqft", int_ office_sqft);
    ("warehouse_sqft", int_ warehouse_sqft);
    ("land_acres", flt land_acres);
    ("clear_height_ft", int_ clear_height);
    ("dock_doors", int_ dock_doors);
    ("drive_in_doors", int_ drive_in_doors);
    ("trailer_parking_spaces", int_ trailer_parking);
    ("auto_parking_spaces", int_ auto_parking);
    ("building_year_built", int_ building_year);
    ("lease_start_date", str (strftime_B_d_Y start));
    ("lease_end_date", str (strftime_B_d_Y end_));
    ("lease_term_months", int_ term_months);
    ("rent_commencement_date", str (strftime_B_d_Y rent_commence));
    ("lease_execution_city", str "Wilmington, DE");
    ("_start", ret (VDateTime start));
    ("_end", ret (VDateTime end_));
    ("_sqft", int_ sqft)
  ].

(** Section 2: Financial. *)
Definition gen_financial (core : dict) : M dict :=
  sqft <- core.["_sqft"] ;;
  base_rent_psf <- rand_dollar 4.50 9.00 ;;
  product <- mul_float sqft base_rent_psf ;;
  let annual_rent := PyFloat.round2 product in
  let monthly_rent := PyFloat.round2 (annual_rent / 12) in
  escalation_pct <- rand_pct 2.0 4.0 ;;
  escalation_type <-
    choice ["Annual Fixed Percentage"; "CPI-Based"; "Stepped"] ;;
  free_rent_months <- randint 0 6 ;;
  security_deposit_months <- randint 1 3 ;;
  let security_deposit :=
    PyFloat.round2 (monthly_rent * PyFloat.of_Z security_deposit_months) in
  lc_months <- randint 3 6 ;;
  let lc_amount := PyFloat.round2 (monthly_rent * PyFloat.of_Z lc_months) in
  lc_expiry_months <- randint 12 36 ;;
  lc_burndown <- choice ["Yes"; "No"] ;;

  ti_psf <- rand_dollar 15.00 65.00 ;;
  ti_product <- mul_float sqft ti_psf ;;
  let ti_total := PyFloat.round2 ti_product in
  ti_deadline_months <- randint 12 24 ;;
  ti_unused <- choice ["Rent credit"; "Forfeited"; "Cash payment"] ;;

  cam_psf <- rand_dollar 1.20 3.50 ;;
  tax_psf <- rand_dollar 0.80 2.50 ;;
  insurance_psf <- rand_dollar 0.25 0.75 ;;
  mgmt_fee_pct <- rand_pct 2.0 5.0 ;;

  let yr2_rent := PyFloat.round2 (annual_rent * (1 + escalation_pct / 100)) in
  let yr3_rent := PyFloat.round2 (yr2_rent * (1 + escalation_pct / 100)) in
  let yr4_rent := PyFloat.round2 (yr3_rent * (1 + escalation_pct / 100)) in
  let yr5_rent := PyFloat.round2 (yr4_rent * (1 + escalation_pct / 100)) in

  dict_display [
    ("base_rent_psf", flt base_rent_psf);
    ("annual_base_rent", flt annual_rent);
    ("monthly_base_rent", flt monthly_rent);
    ("rent_escalation_pct", flt escalation_pct);
    ("rent_escalation_type", str escalation_type);
    ("yr1_annual_rent", flt annual_rent);
    ("yr2_annual_rent", flt yr2_rent);
    ("yr3_annual_rent", flt yr3_rent);
    ("yr4_annual_rent", flt yr4_rent);
    ("yr5_annual_rent", flt yr5_rent);
    ("rent_payment_day", VInt <$> choice [1; 5; 10; 15]);
    ("rent_payment_method", VStr <$> choice ["Wire Transfer"; "ACH"; "Check"]);
    ("free_rent_months", int_ free_rent_months);
    ("free_rent_conditions",
       str (if 0 <? free_rent_months
          then "Applies to base rent only; NNN charges still payable"
          else "None"));
    ("security_deposit_amount", flt security_deposit);
    ("security_deposit_months", int_ security_deposit_months);
    ("security_deposit_form",
       VStr <$> choice ["Cash"; "Letter of Credit";
                        "Cash or Letter of Credit"]);
    ("security_deposit_return_days", VInt <$> choice [30; 45; 60]);
    ("security_deposit_interest",
       VStr <$> choice ["Yes, at money market rate"; "No"]);
    ("letter_of_credit_amount", flt lc_amount);
    ("letter_of_credit_issuer_rating",
       str "Minimum A-rated financial institution");
    ("letter_of_credit_expiry_months", int_ lc_expiry_months);
    ("letter_of_credit_burndown", str lc_burndown);
    ("letter_of_credit_draw_conditions",
       str "Monetary default uncured beyond notice period");
    ("ti_allowance_psf", flt ti_psf);
    ("ti_allowance_total", flt ti_total);
    ("ti_deadline_months", int_ ti_deadline_months);
    ("ti_unused_treatment", str ti_unused);
    ("ti_approval_required",
       VStr <$> choice ["Yes, Landlord approval for plans";
                        "No, Tenant discretion"]);
    ("ti_general_contractor",
       VStr <$> choice ["Tenant selection, Landlord approval";
                        "Landlord-designated"]);
    ("ti_change_order_cap_pct", VFloat <$> rand_pct 5.0 15.0);
    ("lease_type",
       VStr <$> choice ["Triple Net (NNN)"; "Modified Gross"; "Absolute Net"]);
    ("cam_psf_estimate", flt cam_psf);
    ("cam_annual_estimate",
       p <- mul_float sqft cam_psf ;; flt (PyFloat.round2 p));
    ("tax_psf_estimate", flt tax_psf);
    ("tax_annual_estimate",
       p <- mul_float sqft tax_psf ;; flt (PyFloat.round2 p));
    ("insurance_psf_estimate", flt insurance_psf);
    ("insurance_annual_estimate",
       p <- mul_float sqft insurance_psf ;; flt (PyFloat.round2 p));
    ("mgmt_fee_pct", flt mgmt_fee_pct);
    ("base_year", VInt <$> choice [2024; 2025; 2026]);
    ("proration_method",
       VStr <$> choice ["Rentable square footage"; "Usable square footage"]);
    ("late_payment_fee_pct", VFloat <$> rand_pct 3.0 5.0);
    ("late_payment_grace_days", VInt <$> choice [5; 7; 10]);
    ("interest_on_late_payment_pct", VFloat <$> rand_pct 8.0 18.0);
    ("holdover_rent_multiplier", VFloat <$> choice [1.5; 2.0]%float);
    ("holdover_rent_type", str "Percentage of then-current base rent")
  ].

(** Section 3: Operating Expenses. *)
Definition gen_operating_expenses (core : dict) : M dict :=
  sqft <- core.["_sqft"] ;;
  dict_display [
    ("opex_cap_pct", VFloat <$> rand_pct 3.0 7.0);
    ("opex_cap_type",
       VStr <$> choice ["Cumulative compounding"; "Non-cumulative annual";
                        "None"]);
    ("opex_base_year_amount",
       x <- rand_dollar 2.50 4.50 ;;
       p <- mul_float sqft x ;;
       flt (PyFloat.round2 p));
    ("opex_reconciliation_deadline_months", VInt <$> choice [3; 4; 6]);
    ("opex_reconciliation_method",
       VStr <$> choice ["Actual costs"; "Estimated with true-up"]);
    ("opex_audit_right", str "Yes");
    ("opex_audit_frequency",
       VStr <$> choice ["Once per year"; "Once per reconciliation period"]);
    ("opex_audit_notice_days", VInt <$> choice [30; 60; 90]);
    ("opex_audit_period_years", VInt <$> choice [2; 3]);
    ("opex_audit_cost_responsibility",
       VStr <$> choice ["Tenant bears cost unless overcharge exceeds 5%";
                        "Landlord bears cost if overcharge exceeds 3%"]);
    ("opex_dispute_resolution",
       VStr <$> choice ["Binding arbitration"; "Mediation then litigation"]);
    ("opex_gross_up_provision",
       VStr <$> choice ["Yes, to 95% occupancy"; "Yes, to 100% occupancy";
                        "No"]);
    ("opex_gross_up_method",
       str "Variable expenses adjusted as if building were 95% occupied");
    ("tax_protest_right",
       VStr <$> choice ["Tenant may protest, Landlord approval";
                        "Landlord protests only"]);
    ("tax_protest_cost_sharing",
       VStr <$> choice ["50/50"; "Pro rata"; "Tenant bears all costs"]);
    ("tax_abatement_sharing",
       VStr <$> choice ["Pro rata benefit to Tenant"; "Landlord retains"]);
    ("controllable_expense_cap_pct", VFloat <$> rand_pct 3.0 5.0);
    ("uncontrollable_expenses_list",
       str "Real estate taxes, insurance premiums, utilities, snow removal");
    ("utility_responsibility",
       VStr <$> choice ["Tenant direct-metered"; "Landlord submetered";
                        "Included in CAM"]);
    ("utility_types_covered", str "Electric, gas, water, sewer, telecom");
    ("hvac_maintenance_responsibility",
       VStr <$> choice ["Tenant"; "Landlord"; "Shared"]);
    ("hvac_contract_requirement",
       VStr <$> choice ["Required, vendor approved by Landlord";
                        "Recommended"]);
    ("snow_removal_responsibility",
       VStr <$> choice ["Landlord via CAM"; "Tenant direct"]);
    ("landscaping_responsibility",
       VStr <$> choice ["Landlord via CAM"; "Tenant direct"]);
    ("janitorial_responsibility", str "Tenant");
    ("pest_control_responsibility",
       VStr <$> choice ["Tenant"; "Landlord via CAM"]);
    ("trash_removal_responsibility",
       VStr <$> choice ["Tenant direct"; "Landlord via CAM"]);
    ("recycling_requirements",
       VStr <$> choice ["Mandatory per local ordinance"; "Voluntary"]);
    ("parking_lot_maintenance",
       VStr <$> choice ["Landlord via CAM"; "Tenant direct"]);
    ("roof_maintenance_responsibility",
       VStr <$> choice ["Landlord"; "Tenant for penetrations only"]);
    ("capital_expenditure_treatment",
       VStr <$> choice ["Amortized over useful life, pro rata to Tenant";
                        "Excluded from operating expenses"]);
    ("capital_expenditure_threshold",
       n <- choice [5000; 10000; 25000] ;; str ("$" ++ fmt_comma n));
    ("reserve_fund_contribution_psf", VFloat <$> rand_dollar 0.10 0.50);
    ("insurance_requirements_for_cam",
       str "Landlord maintains property policy; cost passed through");
    ("property_management_company",
       VStr <$> choice ["Acme Property Management LLC";
                        "Industrial Realty Management Corp."]);
    ("property_management_fee_pct", VFloat <$> rand_pct 2.0 5.0);
    ("administrative_overhead_pct", VFloat <$> rand_pct 3.0 10.0);
    ("expense_exclusions",
       str "Leasing commissions, capital improvements not benefiting Tenant, Landlord legal fees");
    ("tenant_proportionate_share_pct",
       u <- uniform 30.0 100.0 ;; flt (PyFloat.round2 u));
    ("common_area_definition",
       str "All areas outside the Premises used in common by tenants and their invitees")
  ].

(** Section 4: Options. *)
Definition gen_options (core : dict) : M dict :=
  term_months <- core.["lease_term_months"] ;;
  dict_display [
    ("renewal_option_count", VInt <$> choice [1; 2; 3]);
    ("renewal_option_term_months", VInt <$> choice [36; 60; 84]);
    ("renewal_notice_months", VInt <$> choice [6; 9; 12]);
    ("renewal_rent_method",
       VStr <$> choice ["Fair Market Value"; "95% of Fair Market Value";
                        "Fixed escalation from last year rent";
                        "CPI adjustment"]);
    ("renewal_fmv_determination",
       VStr <$> choice ["Mutual agreement, then broker determination";
                        "Three-broker average"; "Baseball arbitration"]);
    ("renewal_fmv_dispute_resolution",
       str "Each party selects broker; brokers select third; middle value prevails");
    ("renewal_ti_allowance",
       VStr <$> choice ["None"; "$5.00 PSF"; "$10.00 PSF"]);
    ("renewal_conditions", str "No uncured default at time of exercise");
    ("expansion_option", VStr <$> choice ["Yes"; "No"]);
    ("expansion_space_sqft", VInt <$> randint 20000 100000);
    ("expansion_notice_months", VInt <$> choice [6; 9; 12]);
    ("expansion_rent_rate",
       VStr <$> choice ["Same terms as Premises"; "Fair Market Value"]);
    ("expansion_deadline_month", VInt <$> choice [24; 36; 48]);
    ("expansion_ti_allowance",
       VStr <$> choice ["Pro rata of original TI"; "None"; "$10.00 PSF"]);
    ("rofo_right", VStr <$> choice ["Yes"; "No"]);
    ("rofo_space_description",
       str "Any contiguous space in the building or adjacent buildings");
    ("rofo_notice_days", VInt <$> choice [10; 15; 30]);
    ("rofo_response_days", VInt <$> choice [10; 15; 20]);
    ("rofo_matching_terms",
       VStr <$> choice ["Match third-party terms"; "95% of third-party terms"]);
    ("rofr_right", VStr <$> choice ["Yes"; "No"]);
    ("rofr_space_description", str "Building and adjacent parcels");
    ("rofr_notice_days", VInt <$> choice [10; 15; 30]);
    ("purchase_option", VStr <$> choice ["Yes"; "No"]);
    ("purchase_option_price_method",
       VStr <$> choice ["Fair Market Value at time of exercise";
                        "Fixed price of $X per square foot";
                        "Formula-based: NOI / cap rate"]);
    ("purchase_option_exercise_window",
       a <- choice [36; 48; 60] ;;
       b <- choice [72; 84; 96] ;;
       str ("Month " ++ str_of_int a ++ " through Month " ++ str_of_int b));
    ("purchase_option_due_diligence_days", VInt <$> choice [30; 45; 60]);
    ("purchase_option_closing_days", VInt <$> choice [60; 90; 120]);
    ("termination_option", VStr <$> choice ["Yes"; "No"]);
    ("termination_option_effective_month", VInt <$> choice [36; 48; 60]);
    ("termination_notice_months", VInt <$> choice [6; 9; 12]);
    ("termination_fee_months_rent", VInt <$> choice [3; 6; 9; 12]);
    ("termination_fee_includes_unamortized_ti", VStr <$> choice ["Yes"; "No"]);
    ("termination_fee_includes_commission", VStr <$> choice ["Yes"; "No"]);
    ("contraction_option", VStr <$> choice ["Yes"; "No"]);
    ("contraction_min_sqft_retained", VInt <$> randint 30000 80000);
    ("contraction_notice_months", VInt <$> choice [9; 12]);
    ("contraction_fee_type",
       VStr <$> choice ["Unamortized TI + commissions";
                        "Fixed fee per sqft released"]);
    ("relocation_right_landlord",
       VStr <$> choice ["Yes, with 90 days notice"; "No"]);
    ("relocation_comparable_space",
       str "Comparable size, location, and condition within Landlord portfolio");
    ("relocation_cost_responsibility",
       str "Landlord bears all relocation costs");
    ("must_take_space", VStr <$> choice ["Yes"; "No"]);
    ("must_take_space_sqft", VInt <$> randint 10000 50000);
    ("must_take_deadline_month", VInt <$> choice [12; 24; 36]);
    ("must_take_rent_rate", str "Same terms as initial Premises");
    ("sublease_consent_required",
       VStr <$> choice ["Yes, not unreasonably withheld";
                        "No, freely assignable"]);
    ("sublease_profit_sharing_pct", VFloat <$> rand_pct 0.0 50.0)
  ].

(** Section 5: Insurance & Liability. *)
Definition gen_insurance_liability : M dict :=
  carrier <- choice INSURANCE_CARRIERS ;;
  dict_display [
    ("gl_coverage_per_occurrence",
       n <- choice [1000000; 2000000; 5000000] ;; str ("$" ++ fmt_comma n));
    ("gl_coverage_aggregate",
       n <- choice [2000000; 5000000; 10000000] ;; str ("$" ++ fmt_comma n));
    ("gl_deductible_max",
       n <- choice [5000; 10000; 25000] ;; str ("$" ++ fmt_comma n));
    ("property_insurance_coverage",
       VStr <$> choice ["Replacement cost"; "Actual cash value"]);
    ("property_insurance_includes_ti", str "Yes");
    ("property_insurance_business_personal_property",
       str "Full replacement cost");
    ("umbrella_excess_liability",
       n <- choice [5000000; 10000000; 25000000] ;; str ("$" ++ fmt_comma n));
    ("workers_comp_coverage", str "Statutory limits");
    ("auto_liability_coverage",
       n <- choice [1000000; 2000000] ;; str ("$" ++ fmt_comma n));
    ("business_interruption_coverage_months", VInt <$> choice [6; 12; 18]);
    ("professional_liability_required", VStr <$> choice ["Yes"; "No"]);
    ("environmental_liability_coverage",
       n <- choice [1000000; 5000000] ;; str ("$" ++ fmt_comma n));
    ("tenant_insurance_carrier_rating", str "A.M. Best A- VII or better");
    ("landlord_additional_insured", str "Yes");
    ("landlord_lender_additional_insured", str "Yes, as required by Landlord");
    ("insurance_certificate_delivery_days", VInt <$> choice [10; 15; 30]);
    ("insurance_renewal_notice_days", VInt <$> choice [15; 30]);
    ("waiver_of_subrogation", str "Mutual");
    ("waiver_of_subrogation_scope", str "All property and casualty claims");
    ("indemnification_by_tenant",
       str "Tenant indemnifies Landlord for claims arising from Tenant use or occupancy");
    ("indemnification_by_landlord",
       str "Landlord indemnifies Tenant for claims arising from Landlord negligence");
    ("indemnification_survival_months", VInt <$> choice [12; 24; 36]);
    ("indemnification_cap",
       VStr <$> choice ["None"; "Limited to insurance proceeds"; "$5,000,000"]);
    ("mutual_waiver_of_consequential_damages", VStr <$> choice ["Yes"; "No"]);
    ("landlord_liability_cap",
       VStr <$> choice ["Landlord equity in property";
                        "Insurance proceeds only"; "None"]);
    ("tenant_liability_cap", VStr <$> choice ["None"; "Two years base rent"]);
    ("hold_harmless_scope",
       str "Each party for its own acts, omissions, and negligence");
    ("insurance_increase_due_to_tenant_use",
       str "Tenant reimburses premium increase");
    ("landlord_property_insurance_type",
       str "All-risk, replacement cost, including terrorism");
    ("landlord_property_insurance_deductible",
       n <- choice [25000; 50000; 100000] ;; str ("$" ++ fmt_comma n));
    ("earthquake_insurance",
       VStr <$> choice ["Included"; "Excluded"; "Optional at Tenant cost"]);
    ("flood_insurance",
       VStr <$> choice ["Included"; "Excluded — not in flood zone";
                        "Required per FEMA"]);
    ("terrorism_insurance", str "Included per TRIA");
    ("cyber_liability_required",
       VStr <$> choice ["Yes, $1,000,000 minimum"; "No"]);
    ("pollution_legal_liability", VStr <$> choice ["Required"; "Not required"]);
    ("builders_risk_during_ti",
       VStr <$> choice ["Tenant provides"; "Landlord provides"]);
    ("blanket_policy_acceptable",
       str "Yes, with dedicated limits per location");
    ("self_insurance_permitted",
       VStr <$> choice ["Yes, if net worth exceeds $500M";
                        "No, third-party coverage required"]);
    ("insurance_review_frequency",
       VStr <$> choice ["Annually"; "Every 3 years"]);
    ("insurance_adjustment_for_inflation",
       VStr <$> choice ["Yes, CPI-based"; "At Landlord discretion"])
  ].

(** Section 6: Construction & Alterations. *)
Definition gen_construction_alterations (core : dict) : M dict :=
  sqft <- core.["_sqft"] ;;
  dict_display [
    ("initial_buildout_responsibility",
       VStr <$> choice ["Tenant"; "Landlord per approved plans"]);
    ("initial_buildout_deadline_days", VInt <$> choice [180; 240; 365]);
    ("buildout_plan_approval_days", VInt <$> choice [15; 20; 30]);
    ("buildout_plan_resubmission_days", VInt <$> choice [10; 15]);
    ("construction_manager",
       VStr <$> choice ["Tenant-selected, Landlord-approved";
                        "Landlord-designated"]);
    ("construction_oversight_fee_pct", VFloat <$> rand_pct 2.0 5.0);
    ("prevailing_wage_required",
       VStr <$> choice ["Yes"; "No"; "Per local ordinance"]);
    ("construction_insurance_requirements",
       str "Builders risk + contractor GL per lease requirements");
    ("construction_lien_waiver_required",
       str "Yes, conditional and unconditional");
    ("construction_completion_guarantee",
       VStr <$> choice ["Performance bond"; "Letter of credit"; "None"]);
    ("alterations_threshold_no_approval",
       n <- choice [10000; 25000; 50000] ;; str ("$" ++ fmt_comma n));
    ("alterations_structural_consent",
       str "Required for any structural modifications");
    ("alterations_cosmetic_consent",
       VStr <$> choice ["Not required"; "Notice to Landlord only"]);
    ("alterations_removal_at_expiration",
       VStr <$> choice ["Landlord may require removal";
                        "All alterations become Landlord property"]);
    ("alterations_restoration_obligation",
       VStr <$> choice ["Yes, to shell condition"; "Negotiated at lease end"]);
    ("restoration_deposit_required", VStr <$> choice ["Yes"; "No"]);
    ("restoration_cost_estimate",
       x <- rand_dollar 1.00 3.00 ;;
       p <- mul_float sqft x ;;
       str ("$" ++ PyFloat.fmt_comma_2f (PyFloat.round2 p)));
    ("signage_right",
       VStr <$> choice ["Building-mounted and monument"; "Monument only";
                        "Suite entry only"]);
    ("signage_size_max_sqft", VInt <$> choice [50; 100; 200]);
    ("signage_approval_required",
       str "Yes, design and placement subject to Landlord approval");
    ("signage_cost_responsibility", str "Tenant");
    ("signage_removal_at_expiration", str "Tenant removes and restores");
    ("telecom_riser_access",
       VStr <$> choice ["Dedicated riser"; "Shared riser"]);
    ("telecom_provider_choice",
       str "Tenant selects, Landlord approval not unreasonably withheld");
    ("telecom_equipment_rooftop",
       VStr <$> choice ["Permitted with license"; "Not permitted"]);
    ("rooftop_license_fee_monthly",
       n <- choice [500; 1000; 1500] ;; str ("$" ++ fmt_comma n));
    ("generator_permitted", VStr <$> choice ["Yes, pad-mounted"; "No"]);
    ("generator_fuel_type", VStr <$> choice ["Diesel"; "Natural gas"]);
    ("generator_noise_restrictions",
       str "Must comply with local noise ordinance");
    ("solar_panel_permitted",
       VStr <$> choice ["Yes, with Landlord approval"; "No"]);
    ("ev_charging_stations_permitted", VStr <$> choice ["Yes"; "No"]);
    ("racking_system_approval",
       VStr <$> choice ["Required for systems over 20 feet"; "Not required"]);
    ("floor_load_capacity_psf", VInt <$> choice [250; 300; 500]);
    ("mezzanine_permitted",
       VStr <$> choice ["Yes, with structural review"; "No"]);
    ("hazmat_storage_modifications",
       str "Subject to Environmental section requirements")
  ].

(** Section 7: Default & Remedies. *)
Definition gen_default_remedies : M dict :=
  dict_display [
    ("monetary_default_cure_days", VInt <$> choice [5; 7; 10]);
    ("non_monetary_default_cure_days", VInt <$> choice [30; 45; 60]);
    ("non_monetary_extended_cure",
       VStr <$> choice ["Additional 30 days if diligently pursuing cure";
                        "Up to 90 days total with Landlord approval"]);
    ("notice_of_default_method",
       str "Certified mail, return receipt requested, and email");
    ("notice_of_default_address_tenant",
       str "Premises address and corporate headquarters");
    ("notice_of_default_address_landlord",
       str "Acme Industrial Real Estate, LLC, 100 Corporate Center Dr, Suite 400, Wilmington, DE 19801");
    ("late_fee_percentage", VFloat <$> rand_pct 3.0 5.0);
    ("late_fee_grace_period_days", VInt <$> choice [5; 7; 10]);
    ("interest_on_past_due_rate", VFloat <$> rand_pct 8.0 18.0);
    ("interest_calculation_method",
       VStr <$> choice ["Simple interest"; "Compounding monthly"]);
    ("landlord_lien_on_property",
       VStr <$> choice ["Yes, contractual lien"; "Waived"]);
    ("landlord_lockout_right",
       VStr <$> choice ["Yes, after default and cure period"; "No"]);
    ("landlord_self_help_right",
       str "Yes, for emergency repairs with reasonable notice");
    ("cross_default_provision",
       VStr <$> choice ["Yes, with all Landlord affiliates"; "No"]);
    ("cross_default_cure_period_days", VInt <$> choice [10; 15; 30]);
    ("acceleration_of_rent",
       VStr <$> choice ["Landlord may accelerate all remaining rent upon uncured default";
                        "Limited to 12 months rent"]);
    ("mitigation_of_damages",
       str "Landlord shall use commercially reasonable efforts to mitigate");
    ("consequential_damages_waiver",
       VStr <$> choice ["Mutual waiver"; "No waiver"]);
    ("attorneys_fees_prevailing_party", str "Yes");
    ("attorneys_fees_cap", VStr <$> choice ["None"; "$50,000"; "$100,000"]);
    ("guarantor_name", VStr <$> choice GUARANTOR_NAMES);
    ("guarantor_relationship",
       VStr <$> choice ["CEO"; "Principal Owner"; "President"]);
    ("guarantee_type",
       VStr <$> choice ["Full recourse"; "Limited - declining over time";
                        "Good-guy guarantee"]);
    ("guarantee_amount_cap",
       VStr <$> choice ["Unlimited"; "24 months rent"; "12 months rent + TI"]);
    ("guarantee_burndown_schedule",
       VStr <$> choice ["Reduces 25% per year";
                        "Reduces upon meeting revenue thresholds";
                        "No burndown"]);
    ("guarantee_financial_reporting",
       VStr <$> choice ["Annual personal financial statement"; "Quarterly"]);
    ("bankruptcy_provision",
       str "Default upon voluntary filing; involuntary filing cured within 60 days");
    ("bankruptcy_adequate_assurance_days", VInt <$> choice [30; 60]);
    ("right_to_cure_by_lender",
       VStr <$> choice ["Yes, additional 30 days"; "No"]);
    ("right_to_cure_by_guarantor",
       VStr <$> choice ["Yes, additional 15 days"; "No"]);
    ("surrender_condition",
       VStr <$> choice ["Broom clean, good condition"; "Shell condition"]);
    ("surrender_inspection_days_before", VInt <$> choice [30; 60; 90]);
    ("holdover_provision", str "Month-to-month at holdover rent multiplier");
    ("holdover_notice_to_vacate_days", VInt <$> choice [30; 60]);
    ("landlord_default_notice_days", VInt <$> choice [30; 45; 60]);
    ("landlord_default_cure_days", VInt <$> choice [30; 60; 90]);
    ("rent_abatement_for_landlord_default",
       VStr <$> choice ["Yes, after notice and cure"; "No"]);
    ("tenant_offset_right",
       VStr <$> choice ["Yes, for uncured Landlord defaults"; "No"]);
    ("force_majeure_rent_abatement", VStr <$> choice ["Yes"; "No"]);
    ("dispute_resolution_method",
       VStr <$> choice ["Binding arbitration"; "Litigation";
                        "Mediation then arbitration"])
  ].

(** Section 8: Environmental & Compliance. *)
Definition gen_environmental_compliance : M dict :=
  dict_display [
    ("hazmat_permitted",
       VStr <$> choice ["Limited to ordinary business quantities";
                        "Prohibited"; "With Landlord approval"]);
    ("hazmat_types_permitted",
       str "Cleaning supplies, forklift fuel, office chemicals in de minimis quantities");
    ("hazmat_storage_requirements",
       str "Secondary containment, MSDS on-site, compliant with RCRA");
    ("hazmat_reporting_frequency",
       VStr <$> choice ["Quarterly"; "Annually"; "Upon change"]);
    ("hazmat_removal_at_expiration",
       str "Tenant shall remove all hazardous materials and certify removal");
    ("phase_i_esa_baseline",
       VStr <$> choice ["Completed by Landlord, shared with Tenant";
                        "Tenant may conduct at own cost"]);
    ("phase_i_esa_date",
       d <- rand_date_future (-365) (-30) ;; str (strftime_B_d_Y d));
    ("phase_ii_esa_required",
       VStr <$> choice ["If Phase I recommends"; "Not required"]);
    ("environmental_indemnification_by_tenant",
       str "For contamination caused by Tenant during lease term");
    ("environmental_indemnification_by_landlord",
       str "For pre-existing contamination");
    ("environmental_indemnification_survival_years",
       VInt <$> choice [3; 5; 10]);
    ("environmental_remediation_responsibility",
       VStr <$> choice ["Landlord for pre-existing, Tenant for Tenant-caused";
                        "Tenant for all during lease term"]);
    ("environmental_remediation_standard",
       VStr <$> choice ["Industrial use standard";
                        "Residential use standard (higher)"]);
    ("environmental_insurance_required", VStr <$> choice ["Yes"; "No"]);
    ("asbestos_survey_completed",
       VStr <$> choice ["Yes, no ACM found"; "Yes, ACM managed in place";
                        "Not applicable"]);
    ("lead_paint_disclosure",
       VStr <$> choice ["Not applicable — built after 1978";
                        "Disclosure provided"]);
    ("mold_prevention_responsibility",
       str "Tenant shall maintain HVAC and report water intrusion within 24 hours");
    ("indoor_air_quality_standards",
       VStr <$> choice ["ASHRAE 62.1 compliance"; "Not specified"]);
    ("stormwater_management_compliance",
       str "Tenant shall comply with NPDES permit requirements");
    ("spcc_plan_required",
       VStr <$> choice ["Yes, if oil storage exceeds 1,320 gallons";
                        "Not applicable"]);
    ("ada_compliance_responsibility",
       VStr <$> choice ["Landlord for base building, Tenant for Premises";
                        "Tenant for all within Premises"]);
    ("ada_compliance_cost_sharing",
       VStr <$> choice ["Tenant 100%"; "Shared pro rata"]);
    ("fire_code_compliance",
       str "Tenant shall maintain fire suppression and comply with NFPA standards");
    ("fire_sprinkler_system",
       VStr <$> choice ["ESFR"; "In-rack required"; "Wet system adequate"]);
    ("fire_alarm_monitoring",
       str "Required, Tenant-contracted with approved monitoring company");
    ("zoning_compliance_warranty_landlord",
       str "Landlord warrants current zoning permits industrial use");
    ("zoning_current_classification",
       VStr <$> choice ["I-1 Light Industrial"; "I-2 Heavy Industrial";
                        "M-1 Manufacturing"]);
    ("zoning_special_use_permit",
       VStr <$> choice ["Not required"; "Required for cold storage";
                        "Required for hazmat"]);
    ("building_code_compliance",
       str "Tenant improvements shall comply with current building code");
    ("energy_code_compliance",
       VStr <$> choice ["ASHRAE 90.1"; "Local energy code";
                        "LEED Silver equivalent"]);
    ("sustainability_requirements",
       VStr <$> choice ["LED lighting, recycling program required";
                        "None specified";
                        "LEED certification maintenance required"]);
    ("noise_restrictions",
       str "Comply with local noise ordinance; no outdoor operations 10PM-6AM");
    ("operating_hours_restrictions",
       VStr <$> choice ["24/7 permitted"; "6AM-10PM only"; "No restrictions"]);
    ("truck_traffic_restrictions",
       VStr <$> choice ["Designated routes only"; "No restrictions";
                        "Peak hours restricted 7-9AM, 4-6PM"]);
    ("odor_emission_restrictions",
       str "No odors detectable beyond property line")
  ].

(** Section 9: Miscellaneous. *)
Definition gen_miscellaneous (core : dict) : M dict :=
  law_firm <- choice LAW_FIRMS ;;
  dict_display [
    ("governing_law_state", core.["property_state"]);
    ("jurisdiction_venue",
       county <- core.["property_county"] ;;
       state <- core.["property_state"] ;;
       str (py_str county ++ " County, " ++ py_str state));
    ("force_majeure_definition",
       str "Acts of God, war, terrorism, pandemic, government orders, labor strikes, supply chain disruption");
    ("force_majeure_max_days", VInt <$> choice [180; 270; 365]);
    ("force_majeure_rent_obligation",
       VStr <$> choice ["Continues"; "Abated after 30 days"]);
    ("subordination_required", str "Yes, to existing and future mortgages");
    ("subordination_non_disturbance",
       str "Landlord shall deliver SNDA from lender within 30 days of lease execution");
    ("snda_form", VStr <$> choice ["Lender standard form"; "Negotiated form"]);
    ("attornment_obligation",
       str "Tenant shall attorn to any successor landlord");
    ("estoppel_certificate_delivery_days", VInt <$> choice [10; 15; 20]);
    ("estoppel_certificate_frequency",
       VStr <$> choice ["Upon request"; "Maximum twice annually"]);
    ("estoppel_certificate_content",
       str "Lease terms, rent, defaults, commencement date, expiration date");
    ("recording_of_lease",
       VStr <$> choice ["Memorandum of lease to be recorded"; "Not recorded"]);
    ("recording_cost_responsibility",
       VStr <$> choice ["Tenant"; "Landlord"; "Shared equally"]);
    ("broker_landlord",
       VStr <$> choice ["CBRE"; "JLL"; "Cushman & Wakefield"; "Colliers";
                        "Newmark"]);
    ("broker_tenant",
       VStr <$> choice ["Prologis Advisory"; "Lee & Associates"; "NAI Global";
                        "Marcus & Millichap"]);
    ("broker_commission_responsibility", str "Landlord per separate agreement");
    ("broker_commission_on_renewal",
       VStr <$> choice ["Yes, reduced rate"; "No"]);
    ("quiet_enjoyment_covenant",
       str "Landlord covenants Tenant shall peacefully hold and enjoy the Premises");
    ("access_by_landlord",
       str "Reasonable prior notice (24 hours), except emergencies");
    ("landlord_access_hours",
       VStr <$> choice ["Business hours only";
                        "Any reasonable time with notice"]);
    ("signage_on_building_directory",
       VStr <$> choice ["Included"; "Not applicable"]);
    ("parking_allocation",
       auto <- core.["auto_parking_spaces"] ;;
       trailer <- core.["trailer_parking_spaces"] ;;
       str (py_str auto ++ " auto spaces, " ++ py_str trailer ++ " trailer spaces"));
    ("confidentiality_of_lease_terms",
       VStr <$> choice ["Mutual confidentiality"; "Not confidential"]);
    ("entire_agreement_clause",
       str "This Lease constitutes the entire agreement; supersedes all prior negotiations");
    ("amendment_requirements", str "Written instrument signed by both parties");
    ("severability_clause",
       str "Standard — invalid provisions severed without affecting remainder");
    ("waiver_of_jury_trial", VStr <$> choice ["Mutual waiver"; "No waiver"]);
    ("notices_delivery_method",
       str "Certified mail, nationally recognized overnight courier, and email");
    ("notices_deemed_received",
       VStr <$> choice ["3 business days after mailing";
                        "Next business day for overnight courier"]);
    ("assignment_consent_required",
       VStr <$> choice ["Yes, not unreasonably withheld"; "Freely assignable"]);
    ("assignment_release_of_assignor",
       VStr <$> choice ["Yes, upon Landlord approval";
                        "No, assignor remains liable"]);
    ("transfer_fee", VStr <$> choice ["None"; "$5,000 administrative fee"]);
    ("tenant_financial_reporting",
       VStr <$> choice ["Annual audited statements"; "Quarterly unaudited"]);
    ("landlord_lender_name",
       VStr <$> choice ["JPMorgan Chase"; "Wells Fargo"; "Bank of America";
                        "Goldman Sachs"]);
    ("exhibit_list",
       str "A (Floor Plan), B (Work Letter), C (Rules & Regulations), D (SNDA Form), E (Guaranty)")
  ].

(** ** PDF builder *)

(** [build_lease_pdf] lays the record out as legal prose with reportlab.
    The page layout is outside the model: rendering is represented by what
    it consumes and produces, namely a read of every referenced field (a
    [KeyError] if one is missing) and the document written at
    [OUTPUT_DIR/filename], recorded with the record it was rendered from.
    The abatement paragraph is a conditional expression: its test
    [d['free_rent_months'] > 0] is evaluated first, and the two references
    of the paragraph only when it holds. *)
Fixpoint read_fields (d : dict) (fields : list string) : M unit :=
  match fields with
  | [] => ret tt
  | k :: rest => _ <- d.[k] ;; read_fields d rest
  end.

Definition build_lease_pdf (data : dict) (filename : string) : M string :=
  dir <- OUTPUT_DIR ;;
  let filepath := os_path_join dir filename in
  read_fields data template_fields_before_abatement ;;;
  free_rent_months <- data.["free_rent_months"] ;;
  abated <- gt_zero free_rent_months ;;
  (if abated : bool then read_fields data abatement_fields else ret tt) ;;;
  read_fields data template_fields_after_abatement ;;;
  doc_build filepath data ;;;
  ret filepath.

(** ** Assembly of one document *)

(** The merge loop: every section in order, every item in order, helper
    keys (leading underscore) skipped. *)
Definition merge_section (data section : dict) : dict :=
  fold_left
    (fun data kv =>
       if negb (startswith "_" (fst kv)) then dict_set (fst kv) (snd kv) data
       else data)
    section data.

Definition merge_sections (sections : list dict) : dict :=
  fold_left merge_section sections [].

(** Generate one complex lease PDF with 351 fields. *)
Definition generate_complex_lease (num : Z) : M (string * Z) :=
  core <- gen_core_terms ;;
  financial <- gen_financial core ;;
  opex <- gen_operating_expenses core ;;
  options <- gen_options core ;;
  insurance <- gen_insurance_liability ;;
  construction <- gen_construction_alterations core ;;
  default <- gen_default_remedies ;;
  environmental <- gen_environmental_compliance ;;
  miscellaneous <- gen_miscellaneous core ;;

  let data :=
    merge_sections [core; financial; opex; options; insurance;
                    construction; default; environmental; miscellaneous] in

  let filename := "complex_lease_" ++ fmt_03d num ++ ".pdf" in
  filepath <- build_lease_pdf data filename ;;

  ret (filename, len data).

(** ** Batch driver *)

(** The number of passes [main] reports for [total_fields] fields at 100
    questions a call: its expression [(total_fields + 99) // 100]. *)
Definition minimum_passes (total_fields : Z) : Z := (total_fields + 99) / 100.

Definition main : M unit :=
  print (str_repeat "=" 60) ;;;
  print "Complex Lease Generator — Phase 2" ;;;
  print (str_repeat "=" 60) ;;;

  random_seed 42 ;;;

  total_fields <-
    for_each [1; 2; 3]
      (fun i _ =>
         '(filename, field_count) <- generate_complex_lease i ;;
         print ("  Generated: " ++ filename ++ " (" ++ str_of_int field_count
                  ++ " fields)") ;;;
         ret field_count)
      0 ;;

  dir <- OUTPUT_DIR ;;
  print (newline ++ "Total extractable fields per lease: "
           ++ str_of_int total_fields) ;;;
  print "AI_EXTRACT limit: 100 questions/call" ;;;
  print ("Minimum passes needed: "
           ++ str_of_int (minimum_passes total_fields)) ;;;
  print (newline ++ "Output directory: " ++ dir) ;;;
  print (str_repeat "=" 60).

End Generators.

End Phase2.

(* ================================================================== *)
(** * Phase 1: leases of three risk levels and one Spanish lease       *)
(* ================================================================== *)

Module Phase1.

Import Calendar.

Definition MARKETS : list string :=
  ["Chicago"; "Dallas"; "Atlanta"; "Los Angeles"; "New Jersey"; "Phoenix";
   "Denver"].

Definition TENANT_COMPANIES : list (string * string) :=
  [("Apex Distribution LLC", "Delaware");
   ("GlobalTech Fulfillment Inc.", "California");
   ("Midwest Logistics Partners", "Illinois");
   ("SunBelt Supply Chain Co.", "Texas");
   ("Pacific Freight Solutions", "Nevada");
   ("Eastern Seaboard Warehousing", "New Jersey")].

Definition PROPERTY_ADDRESSES : list (string * string * string * string) :=
  [("1500 Industrial Parkway", "Romeoville", "IL", "60446");
   ("8200 Commerce Drive", "Irving", "TX", "75063");
   ("3400 Logistics Boulevard", "McDonough", "GA", "30253");
   ("12000 Distribution Way", "Ontario", "CA", "91761");
   ("500 Terminal Road", "Elizabeth", "NJ", "07201");
   ("7800 Warehouse Lane", "Phoenix", "AZ", "85043")].

Section Generators.

Context {RS : RandomSource}.

(** Generate a realistic lease ID. *)
Definition generate_lease_id : M string :=
  year <- randint 2023 2025 ;;
  serial <- randint 10000 99999 ;;
  ret ("LNK-" ++ str_of_int year ++ "-" ++ str_of_int serial).

(** The three risk-level generators sample their terms, lay the document
    out and write it.  The layout is outside the model: the document
    written is recorded with the sampled values its paragraphs interpolate,
    under the names of the local variables. *)
Definition story (lease_id tenant tenant_state address city state zip_code
                  market : string) (start_date end_date : datetime)
                 (term_months sqft : Z) (rent_psf annual_rent : float)
  : dict :=
  [("lease_id", VStr lease_id); ("tenant", VStr tenant);
   ("tenant_state", VStr tenant_state); ("address", VStr address);
   ("city", VStr city); ("state", VStr state); ("zip_code", VStr zip_code);
   ("market", VStr market);
   ("start_date", VStr (strftime_B_d_Y start_date));
   ("end_date", VStr (strftime_B_d_Y end_date));
   ("term_months", VInt term_months); ("sqft", VInt sqft);
   ("rent_psf", VFloat rent_psf); ("annual_rent", VFloat annual_rent)].

(** Generate a high-risk lease with unusual terms requiring legal review. *)
Definition generate_high_risk_lease (lease_num : Z) : M string :=
  lease_id <- generate_lease_id ;;
  '(tenant, tenant_state) <- choice TENANT_COMPANIES ;;
  '(address, city, state, zip_code) <- choice PROPERTY_ADDRESSES ;;
  market <- choice MARKETS ;;

  today <- now ;;
  days <- randint 30 90 ;;
  let start_date := add_days today days in
  term_months <- choice [36; 60; 84] ;;
  let end_date := add_months start_date term_months in

  sqft <- randint 150000 400000 ;;
  u <- uniform 4.50 7.50 ;;
  let rent_psf := PyFloat.round2 u in
  let annual_rent := (PyFloat.of_Z sqft * rent_psf)%float in

  let filename := "lease_high_risk_" ++ fmt_03d lease_num ++ ".pdf" in
  dir <- OUTPUT_DIR ;;
  let filepath := os_path_join dir filename in

  doc_build filepath
    (story lease_id tenant tenant_state address city state zip_code market
           start_date end_date term_months sqft rent_psf annual_rent) ;;;
  print ("Generated HIGH RISK lease: " ++ filename) ;;;
  ret filename.

(** Generate a medium-risk lease with terms that warrant review. *)
Definition generate_medium_risk_lease (lease_num : Z) : M string :=
  lease_id <- generate_lease_id ;;
  '(tenant, tenant_state) <- choice TENANT_COMPANIES ;;
  '(address, city, state, zip_code) <- choice PROPERTY_ADDRESSES ;;
  market <- choice MARKETS ;;

  today <- now ;;
  days <- randint 30 90 ;;
  let start_date := add_days today days in
  term_months <- choice [60; 84; 120] ;;
  let end_date := add_months start_date term_months in

  sqft <- randint 100000 300000 ;;
  u <- uniform 5.00 8.00 ;;
  let rent_psf := PyFloat.round2 u in
  let annual_rent := (PyFloat.of_Z sqft * rent_psf)%float in
  let ti_allowance := 55 in
  let security_deposit := (annual_rent / 12)%float in

  let filename := "lease_medium_risk_" ++ fmt_03d lease_num ++ ".pdf" in
  dir <- OUTPUT_DIR ;;
  let filepath := os_path_join dir filename in

  doc_build filepath
    (story lease_id tenant tenant_state address city state zip_code market
           start_date end_date term_months sqft rent_psf annual_rent
       ++ [("security_deposit", VFloat security_deposit);
           ("ti_allowance", VInt ti_allowance)])%list ;;;
  print ("Generated MEDIUM RISK lease: " ++ filename) ;;;
  ret filename.

(** Generate a low-risk lease with standard market terms. *)
Definition generate_low_risk_lease (lease_num : Z) : M string :=
  lease_id <- generate_lease_id ;;
  '(tenant, tenant_state) <- choice TENANT_COMPANIES ;;
  '(address, city, state, zip_code) <- choice PROPERTY_ADDRESSES ;;
  market <- choice MARKETS ;;

  today <- now ;;
  days <- randint 30 90 ;;
  let start_date := add_days today days in
  term_months <- choice [60; 84; 120] ;;
  let end_date := add_months start_date term_months in

  sqft <- randint 75000 250000 ;;
  u <- uniform 5.50 8.50 ;;
  let rent_psf := PyFloat.round2 u in
  let annual_rent := (PyFloat.of_Z sqft * rent_psf)%float in
  let monthly_rent := (annual_rent / 12)%float in
  let security_deposit := (monthly_rent * 2)%float in
  let ti_allowance := 25 in
  u' <- uniform 1.50 2.50 ;;
  let cam_psf := PyFloat.round2 u' in

  let filename := "lease_standard_" ++ fmt_03d lease_num ++ ".pdf" in
  dir <- OUTPUT_DIR ;;
  let filepath := os_path_join dir filename in

  doc_build filepath
    (story lease_id tenant tenant_state address city state zip_code market
           start_date end_date term_months sqft rent_psf annual_rent
       ++ [("security_deposit", VFloat security_deposit);
           ("ti_allowance", VInt ti_allowance);
           ("cam_psf", VFloat cam_psf)])%list ;;;
  print ("Generated LOW RISK (standard) lease: " ++ filename) ;;;
  ret filename.

(** Generate a Spanish-language lease for a Miami tenant. *)
Definition generate_spanish_lease_miami : M string :=
  let lease_id := "LNK-2024-78543" in
  let tenant := "Distribuidora Caribe, S.A." in
  let tenant_state := "Florida" in
  let address := "9500 NW 112th Avenue" in
  let city := "Miami" in
  let state := "FL" in
  let zip_code := "33178" in
  let market := "Miami" in

  today <- now ;;
  let start_date := add_days today 45 in
  let term_months := 60 in
  let end_date := add_months start_date term_months in

  let sqft := 185000 in
  let rent_psf := 7.25%float in
  let annual_rent := (PyFloat.of_Z sqft * rent_psf)%float in
  let monthly_rent := (annual_rent / 12)%float in
  let security_deposit := (monthly_rent * 2)%float in
  let ti_allowance := 25 in
  let cam_psf := 2.10%float in

  let filename := "lease_spanish_miami_001.pdf" in
  dir <- OUTPUT_DIR ;;
  let filepath := os_path_join dir filename in

  doc_build filepath
    (story lease_id tenant tenant_state address city state zip_code market
           start_date end_date term_months sqft rent_psf annual_rent
       ++ [("security_deposit", VFloat security_deposit);
           ("ti_allowance", VInt ti_allowance);
           ("cam_psf", VFloat cam_psf)])%list ;;;
  print ("Generated SPANISH (Miami) lease: " ++ filename) ;;;
  ret filename.

(** Generate all synthetic lease documents. *)
Definition main : M (list string) :=
  print (str_repeat "=" 60) ;;;
  print "Generating Synthetic Industrial Lease Documents" ;;;
  print (str_repeat "=" 60) ;;;
  print "" ;;;

  let generated_files := [] in

  print "Generating HIGH RISK leases..." ;;;
  generated_files <-
    for_each [1; 2]
      (fun i files =>
         f <- generate_high_risk_lease i ;; ret (files ++ [f])%list)
      generated_files ;;
  print "" ;;;

  print "Generating MEDIUM RISK leases..." ;;;
  generated_files <-
    for_each [1; 2]
      (fun i files =>
         f <- generate_medium_risk_lease i ;; ret (files ++ [f])%list)
      generated_files ;;
  print "" ;;;

  print "Generating LOW RISK (standard) leases..." ;;;
  generated_files <-
    for_each [1; 2]
      (fun i files =>
         f <- generate_low_risk_lease i ;; ret (files ++ [f])%list)
      generated_files ;;
  print "" ;;;

  print "Generating SPANISH (Miami) lease..." ;;;
  f <- generate_spanish_lease_miami ;;
  let generated_files := (generated_files ++ [f])%list in
  print "" ;;;

  dir <- OUTPUT_DIR ;;
  print (str_repeat "=" 60) ;;;
  print ("Generated " ++ str_of_int (Z.of_nat (List.length generated_files))
           ++ " lease documents in: " ++ dir) ;;;
  print (str_repeat "=" 60) ;;;
  for_each generated_files (fun f _ => print ("  - " ++ f)) tt ;;;

  ret generated_files.

End Generators.

End Phase1.

(* ================================================================== *)
(** * The field catalog                                                *)
(* ================================================================== *)

(** The field names each section generator declares, in the order of its
    dict display. *)

Definition core_fields : list string :=
  ["lease_id"; "execution_date"; "landlord_name"; "landlord_state";
    "landlord_entity_type"; "landlord_address"; "tenant_name"; "tenant_state";
    "tenant_entity_type"; "tenant_business_type"; "tenant_address";
    "property_address"; "property_city"; "property_state"; "property_zip";
    "property_county"; "market"; "tax_parcel_id"; "total_rentable_sqft";
    "office_sqft"; "warehouse_sqft"; "land_acres"; "clear_height_ft";
    "dock_doors"; "drive_in_doors"; "trailer_parking_spaces";
    "auto_parking_spaces"; "building_year_built"; "lease_start_date";
    "lease_end_date"; "lease_term_months"; "rent_commencement_date";
    "lease_execution_city"; "_start"; "_end"; "_sqft"].

Definition financial_fields : list string :=
  ["base_rent_psf"; "annual_base_rent"; "monthly_base_rent";
    "rent_escalation_pct"; "rent_escalation_type"; "yr1_annual_rent";
    "yr2_annual_rent"; "yr3_annual_rent"; "yr4_annual_rent";
    "yr5_annual_rent"; "rent_payment_day"; "rent_payment_method";
    "free_rent_months"; "free_rent_conditions"; "security_deposit_amount";
    "security_deposit_months"; "security_deposit_form";
    "security_deposit_return_days"; "security_deposit_interest";
    "letter_of_credit_amount"; "letter_of_credit_issuer_rating";
    "letter_of_credit_expiry_months"; "letter_of_credit_burndown";
    "letter_of_credit_draw_conditions"; "ti_allowance_psf";
    "ti_allowance_total"; "ti_deadline_months"; "ti_unused_treatment";
    "ti_approval_required"; "ti_general_contractor";
    "ti_change_order_cap_pct"; "lease_type"; "cam_psf_estimate";
    "cam_annual_estimate"; "tax_psf_estimate"; "tax_annual_estimate";
    "insurance_psf_estimate"; "insurance_annual_estimate"; "mgmt_fee_pct";
    "base_year"; "proration_method"; "late_payment_fee_pct";
    "late_payment_grace_days"; "interest_on_late_payment_pct";
    "holdover_rent_multiplier"; "holdover_rent_type"].

Definition opex_fields : list string :=
  ["opex_cap_pct"; "opex_cap_type"; "opex_base_year_amount";
    "opex_reconciliation_deadline_months"; "opex_reconciliation_method";
    "opex_audit_right"; "opex_audit_frequency"; "opex_audit_notice_days";
    "opex_audit_period_years"; "opex_audit_cost_responsibility";
    "opex_dispute_resolution"; "opex_gross_up_provision";
    "opex_gross_up_method"; "tax_protest_right"; "tax_protest_cost_sharing";
    "tax_abatement_sharing"; "controllable_expense_cap_pct";
    "uncontrollable_expenses_list"; "utility_responsibility";
    "utility_types_covered"; "hvac_maintenance_responsibility";
    "hvac_contract_requirement"; "snow_removal_responsibility";
    "landscaping_responsibility"; "janitorial_responsibility";
    "pest_control_responsibility"; "trash_removal_responsibility";
    "recycling_requirements"; "parking_lot_maintenance";
    "roof_maintenance_responsibility"; "capital_expenditure_treatment";
    "capital_expenditure_threshold"; "reserve_fund_contribution_psf";
    "insurance_requirements_for_cam"; "property_management_company";
    "property_management_fee_pct"; "administrative_overhead_pct";
    "expense_exclusions"; "tenant_proportionate_share_pct";
    "common_area_definition"].

Definition options_fields : list string :=
  ["renewal_option_count"; "renewal_option_term_months";
    "renewal_notice_months"; "renewal_rent_method";
    "renewal_fmv_determination"; "renewal_fmv_dispute_resolution";
    "renewal_ti_allowance"; "renewal_conditions"; "expansion_option";
    "expansion_space_sqft"; "expansion_notice_months"; "expansion_rent_rate";
    "expansion_deadline_month"; "expansion_ti_allowance"; "rofo_right";
    "rofo_space_description"; "rofo_notice_days"; "rofo_response_days";
    "rofo_matching_terms"; "rofr_right"; "rofr_space_description";
    "rofr_notice_days"; "purchase_option"; "purchase_option_price_method";
    "purchase_option_exercise_window"; "purchase_option_due_diligence_days";
    "purchase_option_closing_days"; "termination_option";
    "termination_option_effective_month"; "termination_notice_months";
    "termination_fee_months_rent"; "termination_fee_includes_unamortized_ti";
    "termination_fee_includes_commission"; "contraction_option";
    "contraction_min_sqft_retained"; "contraction_notice_months";
    "contraction_fee_type"; "relocation_right_landlord";
    "relocation_comparable_space"; "relocation_cost_responsibility";
    "must_take_space"; "must_take_space_sqft"; "must_take_deadline_month";
    "must_take_rent_rate"; "sublease_consent_required";
    "sublease_profit_sharing_pct"].

Definition insurance_fields : list string :=
  ["gl_coverage_per_occurrence"; "gl_coverage_aggregate";
    "gl_deductible_max"; "property_insurance_coverage";
    "property_insurance_includes_ti";
    "property_insurance_business_personal_property";
    "umbrella_excess_liability"; "workers_comp_coverage";
    "auto_liability_coverage"; "business_interruption_coverage_months";
    "professional_liability_required"; "environmental_liability_coverage";
    "tenant_insurance_carrier_rating"; "landlord_additional_insured";
    "landlord_lender_additional_insured";
    "insurance_certificate_delivery_days"; "insurance_renewal_notice_days";
    "waiver_of_subrogation"; "waiver_of_subrogation_scope";
    "indemnification_by_tenant"; "indemnification_by_landlord";
    "indemnification_survival_months"; "indemnification_cap";
    "mutual_waiver_of_consequential_damages"; "landlord_liability_cap";
    "tenant_liability_cap"; "hold_harmless_scope";
    "insurance_increase_due_to_tenant_use";
    "landlord_property_insurance_type";
    "landlord_property_insurance_deductible"; "earthquake_insurance";
    "flood_insurance"; "terrorism_insurance"; "cyber_liability_required";
    "pollution_legal_liability"; "builders_risk_during_ti";
    "blanket_policy_acceptable"; "self_insurance_permitted";
    "insurance_review_frequency"; "insurance_adjustment_for_inflation"].

Definition construction_fields : list string :=
  ["initial_buildout_responsibility"; "initial_buildout_deadline_days";
    "buildout_plan_approval_days"; "buildout_plan_resubmission_days";
    "construction_manager"; "construction_oversight_fee_pct";
    "prevailing_wage_required"; "construction_insurance_requirements";
    "construction_lien_waiver_required"; "construction_completion_guarantee";
    "alterations_threshold_no_approval"; "alterations_structural_consent";
    "alterations_cosmetic_consent"; "alterations_removal_at_expiration";
    "alterations_restoration_obligation"; "restoration_deposit_required";
    "restoration_cost_estimate"; "signage_right"; "signage_size_max_sqft";
    "signage_approval_required"; "signage_cost_responsibility";
    "signage_removal_at_expiration"; "telecom_riser_access";
    "telecom_provider_choice"; "telecom_equipment_rooftop";
    "rooftop_license_fee_monthly"; "generator_permitted";
    "generator_fuel_type"; "generator_noise_restrictions";
    "solar_panel_permitted"; "ev_charging_stations_permitted";
    "racking_system_approval"; "floor_load_capacity_psf";
    "mezzanine_permitted"; "hazmat_storage_modifications"].

Definition default_fields : list string :=
  ["monetary_default_cure_days"; "non_monetary_default_cure_days";
    "non_monetary_extended_cure"; "notice_of_default_method";
    "notice_of_default_address_tenant"; "notice_of_default_address_landlord";
    "late_fee_percentage"; "late_fee_grace_period_days";
    "interest_on_past_due_rate"; "interest_calculation_method";
    "landlord_lien_on_property"; "landlord_lockout_right";
    "landlord_self_help_right"; "cross_default_provision";
    "cross_default_cure_period_days"; "acceleration_of_rent";
    "mitigation_of_damages"; "consequential_damages_waiver";
    "attorneys_fees_prevailing_party"; "attorneys_fees_cap"; "guarantor_name";
    "guarantor_relationship"; "guarantee_type"; "guarantee_amount_cap";
    "guarantee_burndown_schedule"; "guarantee_financial_reporting";
    "bankruptcy_provision"; "bankruptcy_adequate_assurance_days";
    "right_to_cure_by_lender"; "right_to_cure_by_guarantor";
    "surrender_condition"; "surrender_inspection_days_before";
    "holdover_provision"; "holdover_notice_to_vacate_days";
    "landlord_default_notice_days"; "landlord_default_cure_days";
    "rent_abatement_for_landlord_default"; "tenant_offset_right";
    "force_majeure_rent_abatement"; "dispute_resolution_method"].

Definition environmental_fields : list string :=
  ["hazmat_permitted"; "hazmat_types_permitted";
    "hazmat_storage_requirements"; "hazmat_reporting_frequency";
    "hazmat_removal_at_expiration"; "phase_i_esa_baseline";
    "phase_i_esa_date"; "phase_ii_esa_required";
    "environmental_indemnification_by_tenant";
    "environmental_indemnification_by_landlord";
    "environmental_indemnification_survival_years";
    "environmental_remediation_responsibility";
    "environmental_remediation_standard"; "environmental_insurance_required";
    "asbestos_survey_completed"; "lead_paint_disclosure";
    "mold_prevention_responsibility"; "indoor_air_quality_standards";
    "stormwater_management_compliance"; "spcc_plan_required";
    "ada_compliance_responsibility"; "ada_compliance_cost_sharing";
    "fire_code_compliance"; "fire_sprinkler_system"; "fire_alarm_monitoring";
    "zoning_compliance_warranty_landlord"; "zoning_current_classification";
    "zoning_special_use_permit"; "building_code_compliance";
    "energy_code_compliance"; "sustainability_requirements";
    "noise_restrictions"; "operating_hours_restrictions";
    "truck_traffic_restrictions"; "odor_emission_restrictions"].

Definition miscellaneous_fields : list string :=
  ["governing_law_state"; "jurisdiction_venue"; "force_majeure_definition";
    "force_majeure_max_days"; "force_majeure_rent_obligation";
    "subordination_required"; "subordination_non_disturbance"; "snda_form";
    "attornment_obligation"; "estoppel_certificate_delivery_days";
    "estoppel_certificate_frequency"; "estoppel_certificate_content";
    "recording_of_lease"; "recording_cost_responsibility"; "broker_landlord";
    "broker_tenant"; "broker_commission_responsibility";
    "broker_commission_on_renewal"; "quiet_enjoyment_covenant";
    "access_by_landlord"; "landlord_access_hours";
    "signage_on_building_directory"; "parking_allocation";
    "confidentiality_of_lease_terms"; "entire_agreement_clause";
    "amendment_requirements"; "severability_clause"; "waiver_of_jury_trial";
    "notices_delivery_method"; "notices_deemed_received";
    "assignment_consent_required"; "assignment_release_of_assignor";
    "transfer_fee"; "tenant_financial_reporting"; "landlord_lender_name";
    "exhibit_list"].

Definition sections_fields : list (list string) :=
  [core_fields; financial_fields; opex_fields; options_fields;
   insurance_fields; construction_fields; default_fields;
   environmental_fields; miscellaneous_fields].

(** The helper keys carry a leading underscore. *)
Definition is_public (k : string) : bool := negb (startswith "_" k).

Definition public_item (kv : string * value) : bool := is_public (fst kv).

(** The fields of a Document Record: every declared field that is not a
    helper key, in section order. *)
Definition record_fields : list string :=
  filter is_public (concat sections_fields).

(** The fields of a section that another section reads from [core]. *)
Definition consumed_fields : list string :=
  ["_sqft"; "lease_term_months"; "property_state"; "property_county";
   "auto_parking_spaces"; "trailer_parking_spaces"].

(** ** Numeric range fields *)

Inductive range :=
| IntRange (low high : Z)
| FloatRange (low high : float).

Definition in_range (r : range) (v : value) : Prop :=
  match r, v with
  | IntRange low high, VInt n => low <= n <= high
  | FloatRange low high, VFloat x => PyFloat.le low x /\ PyFloat.le x high
  | _, _ => False
  end.

(** The fields sampled from a numeric range with constant bounds: the
    arguments of [random.randint], [rand_dollar], [rand_pct] and
    [round(random.uniform(..), 2)] at the place each field is drawn.
    ([office_sqft] is drawn up to a bound that depends on the square
    footage and is stated apart.) *)
Definition numeric_ranges : list (string * range) :=
  [("total_rentable_sqft", IntRange 80000 500000);
   ("dock_doors", IntRange 20 80);
   ("drive_in_doors", IntRange 2 6);
   ("trailer_parking_spaces", IntRange 40 150);
   ("auto_parking_spaces", IntRange 50 200);
   ("building_year_built", IntRange 2005 2024);
   ("base_rent_psf", FloatRange 4.50 9.00);
   ("rent_escalation_pct", FloatRange 2.0 4.0);
   ("free_rent_months", IntRange 0 6);
   ("security_deposit_months", IntRange 1 3);
   ("letter_of_credit_expiry_months", IntRange 12 36);
   ("ti_allowance_psf", FloatRange 15.00 65.00);
   ("ti_deadline_months", IntRange 12 24);
   ("ti_change_order_cap_pct", FloatRange 5.0 15.0);
   ("cam_psf_estimate", FloatRange 1.20 3.50);
   ("tax_psf_estimate", FloatRange 0.80 2.50);
   ("insurance_psf_estimate", FloatRange 0.25 0.75);
   ("mgmt_fee_pct", FloatRange 2.0 5.0);
   ("late_payment_fee_pct", FloatRange 3.0 5.0);
   ("interest_on_late_payment_pct", FloatRange 8.0 18.0);
   ("opex_cap_pct", FloatRange 3.0 7.0);
   ("controllable_expense_cap_pct", FloatRange 3.0 5.0);
   ("reserve_fund_contribution_psf", FloatRange 0.10 0.50);
   ("property_management_fee_pct", FloatRange 2.0 5.0);
   ("administrative_overhead_pct", FloatRange 3.0 10.0);
   ("tenant_proportionate_share_pct", FloatRange 30.0 100.0);
   ("expansion_space_sqft", IntRange 20000 100000);
   ("contraction_min_sqft_retained", IntRange 30000 80000);
   ("must_take_space_sqft", IntRange 10000 50000);
   ("sublease_profit_sharing_pct", FloatRange 0.0 50.0);
   ("construction_oversight_fee_pct", FloatRange 2.0 5.0);
   ("late_fee_percentage", FloatRange 3.0 5.0);
   ("interest_on_past_due_rate", FloatRange 8.0 18.0)].

Fixpoint assoc {A} (k : string) (l : list (string * A)) : option A :=
  match l with
  | [] => None
  | (k', a) :: rest => if String.eqb k k' then Some a else assoc k rest
  end.

Definition range_ok (k : string) (v : value) : Prop :=
  match assoc k numeric_ranges with
  | Some r => in_range r v
  | None => True
  end.

(** What holds of every field of every section: a value that is not
    [None], inside the declared range when the field has one. *)
Definition field_ok (k : string) (v : value) : Prop :=
  is_None v = false /\ range_ok k v.

(** ** Computed fields

    The values the specification gives the computed fields, as functions of
    the sampled ones. *)

(** The area fields of Core Terms. *)
Definition core_pins (sqft office_sqft : Z) : dict :=
  [("total_rentable_sqft", VInt sqft);
   ("office_sqft", VInt office_sqft);
   ("warehouse_sqft", VInt (sqft - office_sqft));
   ("_sqft", VInt sqft)].

(** A year's rent from the year before:
    [round(prior * (1 + escalation_pct / 100), 2)]. *)
Definition escalate (escalation_pct prior : float) : float :=
  PyFloat.round2 (prior * (1 + escalation_pct / 100)).

(** The rent schedule of Financial, from the square footage, the base rent
    per square foot and the escalation percentage. *)
Definition rent_schedule (sqft : Z) (base_rent_psf escalation_pct : float)
  : dict :=
  let annual := PyFloat.round2 (PyFloat.of_Z sqft * base_rent_psf) in
  let yr2 := escalate escalation_pct annual in
  let yr3 := escalate escalation_pct yr2 in
  let yr4 := escalate escalation_pct yr3 in
  let yr5 := escalate escalation_pct yr4 in
  [("base_rent_psf", VFloat base_rent_psf);
   ("rent_escalation_pct", VFloat escalation_pct);
   ("annual_base_rent", VFloat annual);
   ("yr1_annual_rent", VFloat annual);
   ("yr2_annual_rent", VFloat yr2);
   ("yr3_annual_rent", VFloat yr3);
   ("yr4_annual_rent", VFloat yr4);
   ("yr5_annual_rent", VFloat yr5)].

(** ** The duplicate-name contract, as the specification words it

    "No silent overwrite of an earlier section's value": merging a section
    leaves every public field the record already holds as it was. *)
Definition no_silent_overwrite : Prop :=
  forall (data section : dict) (k : string),
    is_public k = true -> In k (keys data) -> In k (keys section) ->
    dict_get k (Phase2.merge_section data section) = dict_get k data.

(** ** Checks by enumeration

    Bounded facts about floats are settled by running the float operations
    over every case. *)

(** [f] holds on [lo, lo + 1, ..., lo + n - 1]. *)
Fixpoint range_all (f : Z -> bool) (lo : Z) (n : nat) : bool :=
  match n with
  | O => true
  | S k => f lo && range_all f (lo + 1) k
  end.

(** The results [round(x, 2)] can take on a value of [c] hundredths. *)
Definition round2_results (c : Z) : list float :=
  if c =? 0 then [neg_zero; zero] else [(PyFloat.of_Z c / 100)%float].

(** [x] is finite and its exact value lies in [[el, eh]]. *)
Definition within (el eh : Q) (x : float) : bool :=
  is_finite x && Qle_bool el (PyFloat.exact x) && Qle_bool (PyFloat.exact x) eh.

(** Every amount of whole hundredths between the bounds rounds into the
    bounds. *)
Definition round2_stays_within (low high : float) : bool :=
  let el := PyFloat.exact low in
  let eh := PyFloat.exact high in
  let l := PyFloat.to_cents low in
  let h := PyFloat.to_cents high in
  is_finite low && is_finite high
  && range_all (fun c => forallb (within el eh) (round2_results c))
               l (Z.to_nat (h - l + 1)).

(** The float bounds of [numeric_ranges] and of the two amounts drawn
    inside a product. *)
Definition float_bounds : list (float * float) :=
  [(4.50, 9.00); (2.0, 4.0); (15.00, 65.00); (5.0, 15.0); (1.20, 3.50);
   (0.80, 2.50); (0.25, 0.75); (2.0, 5.0); (3.0, 5.0); (8.0, 18.0);
   (3.0, 7.0); (0.10, 0.50); (3.0, 10.0); (30.0, 100.0); (0.0, 50.0);
   (2.50, 4.50); (1.00, 3.00)]%float.

(** [f] holds on the [2^k] integers from [lo] on. *)
Fixpoint all_below (f : int -> bool) (k : nat) (lo : int) : bool :=
  match k with
  | O => f lo
  | S k' =>
      all_below f k' lo
      && all_below f k' (Uint63.add lo (Uint63.of_Z (2 ^ Z.of_nat k')))
  end.

(** [int(i * 0.05)] is the integer quotient [i // 20]: the product is a
    finite non-negative float below [2^53] whose truncation is [i / 20]. *)
Definition office_bound_check (i : int) : bool :=
  let x := (of_uint63 i * 0.05)%float in
  negb (is_nan x) && negb (is_infinity x) && negb (x <? 0)%float
  && (let (m, se) := frshiftexp x in
      (se <=? PyFloat.bias)%uint63
      && (Uint63.lsr (normfr_mantissa m) (Uint63.sub PyFloat.bias se)
          =? Uint63.div i 20)%uint63).

(** Distinct strings, decided. *)
Fixpoint distinct (l : list string) : bool :=
  match l with
  | [] => true
  | k :: rest => negb (existsb (String.eqb k) rest) && distinct rest
  end.

(** [ceil(n / d)] over the rationals. *)
Definition ceil_div (n d : Z) : Z := Qceiling (inject_Z n / inject_Z d).

(** The artifact name of a category label and a sequence number. *)
Definition artifact_name (label : string) (seq : Z) : string :=
  label ++ "_" ++ fmt_03d seq ++ ".pdf".

(* ================================================================== *)
(** * Specifications of statements                                     *)
(* ================================================================== *)

Section Specifications.

Context {RS : RandomSource}.

(** [w'] differs from [w] at most in the random state and in the number
    of clock readings taken. *)
Definition io_same (w w' : world) : Prop :=
  clock w' = clock w /\ script_dir w' = script_dir w
  /\ artifacts w' = artifacts w /\ stdout w' = stdout w.

(** [m] terminates without an exception from every world, touches nothing
    but the random state and the clock, and returns a value satisfying
    [Q]. *)
Definition sampler {A} (m : M A) (Q : A -> Prop) : Prop :=
  forall w, exists a w', m w = Ok a w' /\ io_same w w' /\ Q a.

(** [m] raises [e] from every world, having touched nothing but the random
    state and the clock. *)
Definition raises {A} (m : M A) (e : exn) : Prop :=
  forall w, exists w', m w = Raise e w' /\ io_same w w'.

(** A section as specified: the declared field names, in order, each with
    a value satisfying [P]. *)
Definition section_spec (fields : list string) (P : string -> value -> Prop)
                        (d : dict) : Prop :=
  keys d = fields /\ Forall (fun kv => P (fst kv) (snd kv)) d.

(** [v] is the value [pins] prescribes for [k], if it prescribes one. *)
Definition pinned (pins : dict) (k : string) (v : value) : Prop :=
  forall v0, dict_get k pins = Some v0 -> v = v0.

(** The number of days [gen_core_terms] adds to the clock reading for the
    lease start, as a function of the random state it starts from: the
    draw of [rand_date_future(30, 120)] after the three [random.choice]
    draws for tenant, property and market. *)
Definition start_offset (s : rng_state) : Z :=
  let s1 := snd (rs_randbelow (Z.of_nat (List.length Phase2.TENANT_COMPANIES)) s) in
  let s2 := snd (rs_randbelow (Z.of_nat (List.length Phase2.PROPERTY_ADDRESSES)) s1) in
  let s3 := snd (rs_randbelow (Z.of_nat (List.length Phase2.MARKETS)) s2) in
  30 + fst (rs_randbelow (120 + 1 - 30) s3).

(** The lease start date a document generated from world [w] shows. *)
Definition lease_start_shown (w : world) : value :=
  VStr (Calendar.strftime_B_d_Y
          (Calendar.add_days (clock w (clock_reads w)) (start_offset (rng w)))).

(** A section as specified, with field values in range and the values of
    [pins] where it has them. *)
Definition section_ok (fields : list string) (pins : dict) (d : dict) : Prop :=
  section_spec fields (fun k v => field_ok k v /\ pinned pins k v) d.

(** The world after one document: one more artifact, nothing printed. *)
Definition wrote (w w' : world) (filename : string) (data : dict) : Prop :=
  clock w' = clock w /\ script_dir w' = script_dir w
  /\ stdout w' = stdout w
  /\ artifacts w'
     = (artifacts w
        ++ [(os_path_join (os_path_join (script_dir w) "leases") filename,
             data)])%list.

End Specifications.

(** A Document Record as the specification describes it: the catalog's
    field names in order, every value present and in range, the area and
    rent fields computed from the sampled square footage, rate and
    escalation. *)
Definition record_ok (sqft office_sqft : Z) (base_rent_psf escalation_pct : float)
                     (data : dict) : Prop :=
  keys data = record_fields
  /\ Forall (fun kv => field_ok (fst kv) (snd kv)) data
  /\ (forall k v, is_public k = true ->
                  dict_get k (core_pins sqft office_sqft) = Some v ->
                  dict_get k data = Some v)
  /\ (forall k v, dict_get k (rent_schedule sqft base_rent_psf escalation_pct)
                  = Some v ->
                  dict_get k data = Some v)
  /\ 80000 <= sqft <= 500000
  /\ 2000 <= office_sqft <= sqft / 20
  /\ py_int (PyFloat.of_Z sqft * 0.05)%float = inr (sqft / 20).

Definition record_valid (data : dict) : Prop :=
  exists sqft office_sqft base_rent_psf escalation_pct,
    record_ok sqft office_sqft base_rent_psf escalation_pct data.

(** What Phase 2's [main] prints, given the directory of the script. *)
Definition summary_lines (dir : string) : list string :=
  [str_repeat "=" 60;
   "Complex Lease Generator — Phase 2";
   str_repeat "=" 60;
   "  Generated: complex_lease_001.pdf (351 fields)";
   "  Generated: complex_lease_002.pdf (351 fields)";
   "  Generated: complex_lease_003.pdf (351 fields)";
   newline ++ "Total extractable fields per lease: 351";
   "AI_EXTRACT limit: 100 questions/call";
   "Minimum passes needed: 4";
   newline ++ "Output directory: " ++ os_path_join dir "leases";
   str_repeat "=" 60].

(** Where Phase 2 writes document [seq]. *)
Definition complex_lease_path (dir : string) (seq : Z) : string :=
  os_path_join (os_path_join dir "leases") (artifact_name "complex_lease" seq).

(* ================================================================== *)
(** * A concrete random source                                         *)
(* ================================================================== *)

(** A linear congruential generator, to run the programs on: it satisfies
    the [RandomSource] contract, with [uniform] answering one of the two
    end points. *)
Module Lcg.

Definition step (s : Z) : Z := (s * 1103515245 + 12345) mod 2147483648.

Definition randbelow (n s : Z) : Z * Z := ((s / 65536) mod n, step s).

Definition uniform (a b : float) (s : Z) : float * Z :=
  (if Z.even (s / 65536) then a else b, step s).

Definition source : RandomSource :=
  {| rng_state := Z;
     rs_seed := fun n => n;
     rs_randbelow := randbelow;
     rs_uniform := uniform;
     rs_randbelow_range := fun n s Hn => Z.mod_pos_bound (s / 65536) n Hn;
     rs_uniform_range := fun a b s Hab =>
       match Hab with
       | conj Ha (conj Hb Hle) =>
           if Z.even (s / 65536) as e
             return (PyFloat.le a (if e then a else b)
                     /\ PyFloat.le (if e then a else b) b)
           then conj (conj Ha (conj Ha (Qle_refl _))) Hab
           else conj Hab (conj Hb (conj Hb (Qle_refl _)))
       end |}.

(** A run started on the given day at noon, from an empty output
    directory. *)
Definition world_on (year month day : Z) : @world source :=
  mk_world (RS := source) 1
    (fun _ => mk_datetime year month day 43200000000) 0 "/srv/demo" [] [].

End Lcg.

(** The lease start date of the first record a run of [main] writes. *)
Definition first_start_date (out : outcome (RS := Lcg.source) unit)
  : option value :=
  match out with
  | Ok _ w =>
      match artifacts w with
      | (_, data) :: _ => dict_get "lease_start_date" data
      | [] => None
      end
  | Raise _ _ => None
  end.

(* ================================================================== *)
(** * Further specifications                                           *)
(* ================================================================== *)

(** The number a string of decimal digits denotes, with an optional minus
    sign in front; leading zeros do not count. *)
Definition decimal_value (s : string) : option Z :=
  match s with
  | String c s' =>
      if Ascii.eqb c "-"
      then option_map (fun d => - Z.of_uint d) (NilEmpty.uint_of_string s')
      else option_map Z.of_uint (NilEmpty.uint_of_string s)
  | EmptyString => Some 0
  end.

(** [v] has the shape [shapes] gives for [k], if it gives one. *)
Definition shaped (shapes : list (string * (value -> Prop)))
                  (k : string) (v : value) : Prop :=
  match assoc k shapes with
  | Some holds => holds v
  | None => True
  end.

(** The nine sections of one document. *)
Record sections := mk_sections {
  s_core : dict;
  s_financial : dict;
  s_opex : dict;
  s_options : dict;
  s_insurance : dict;
  s_construction : dict;
  s_default : dict;
  s_environmental : dict;
  s_miscellaneous : dict
}.

(** In the order of the merge loop. *)
Definition section_list (s : sections) : list dict :=
  [s_core s; s_financial s; s_opex s; s_options s; s_insurance s;
   s_construction s; s_default s; s_environmental s; s_miscellaneous s].

Section Runs.

Context {RS : RandomSource}.

(** [m], started in [w], returns normally, with a result and a final world
    that satisfy [Q]. *)
Definition returns {A} (m : M A) (w : world) (Q : A -> world -> Prop) : Prop :=
  exists a w', m w = Ok a w' /\ Q a w'.

(** The nine generators, called in the order of [generate_complex_lease]
    from the world [w], return the sections [s] and leave the world
    [w9]. *)
Definition generated (w : world) (s : sections) (w9 : world) : Prop :=
  exists w1 w2 w3 w4 w5 w6 w7 w8,
    Phase2.gen_core_terms w = Ok (s_core s) w1
    /\ Phase2.gen_financial (s_core s) w1 = Ok (s_financial s) w2
    /\ Phase2.gen_operating_expenses (s_core s) w2 = Ok (s_opex s) w3
    /\ Phase2.gen_options (s_core s) w3 = Ok (s_options s) w4
    /\ Phase2.gen_insurance_liability w4 = Ok (s_insurance s) w5
    /\ Phase2.gen_construction_alterations (s_core s) w5
       = Ok (s_construction s) w6
    /\ Phase2.gen_default_remedies w6 = Ok (s_default s) w7
    /\ Phase2.gen_environmental_compliance w7 = Ok (s_environmental s) w8
    /\ Phase2.gen_miscellaneous (s_core s) w8 = Ok (s_miscellaneous s) w9.

End Runs.

Section Outputs.

Context {RS : RandomSource}.

(** What a run leaves behind, the random state and the clock position
    apart: the documents [files] written to the output directory, in
    order, and the [lines] printed. *)
Definition emitted (w w' : world) (files lines : list string) : Prop :=
  clock w' = clock w /\ script_dir w' = script_dir w
  /\ map fst (artifacts w')
     = (map fst (artifacts w)
        ++ map (os_path_join (os_path_join (script_dir w) "leases")) files)%list
  /\ stdout w' = (stdout w ++ lines)%list.

End Outputs.

(** The documents of Phase 1, in the order [main] generates them. *)
Definition phase1_documents : list string :=
  ["lease_high_risk_001.pdf"; "lease_high_risk_002.pdf";
   "lease_medium_risk_001.pdf"; "lease_medium_risk_002.pdf";
   "lease_standard_001.pdf"; "lease_standard_002.pdf";
   "lease_spanish_miami_001.pdf"].

(** What Phase 1's [main] prints, given the directory of the script. *)
Definition phase1_lines (dir : string) : list string :=
  ([str_repeat "=" 60;
    "Generating Synthetic Industrial Lease Documents";
    str_repeat "=" 60;
    "";
    "Generating HIGH RISK leases...";
    "Generated HIGH RISK lease: lease_high_risk_001.pdf";
    "Generated HIGH RISK lease: lease_high_risk_002.pdf";
    "";
    "Generating MEDIUM RISK leases...";
    "Generated MEDIUM RISK lease: lease_medium_risk_001.pdf";
    "Generated MEDIUM RISK lease: lease_medium_risk_002.pdf";
    "";
    "Generating LOW RISK (standard) leases...";
    "Generated LOW RISK (standard) lease: lease_standard_001.pdf";
    "Generated LOW RISK (standard) lease: lease_standard_002.pdf";
    "";
    "Generating SPANISH (Miami) lease...";
    "Generated SPANISH (Miami) lease: lease_spanish_miami_001.pdf";
    "";
    str_repeat "=" 60;
    ("Generated 7 lease documents in: " ++ os_path_join dir "leases")%string;
    str_repeat "=" 60]
   ++ map (fun f => ("  - " ++ f)%string) phase1_documents)%list.

(** ** Sections as functions of what they draw

    What the fields of a section hold, given the values the generator drew
    before it built the section. *)

(** Core Terms: the parties, the property, the dates and the identifiers.
    The lease starts at [start]; the term, the days between execution and
    start, and the months until rent commences are [term_months], [back]
    and [delay]. *)
Definition core_shape
    (tenant tenant_state tenant_business : string)
    (address city state zipcode county market : string)
    (start : datetime) (term_months back delay : Z)
    (trailer_parking auto_parking p1 p2 p3 : Z)
  : list (string * (value -> Prop)) :=
  [("lease_id",
    fun v => exists year serial,
      2024 <= year <= 2026 /\ 10000 <= serial <= 99999
      /\ v = VStr ("CX-" ++ str_of_int year ++ "-" ++ str_of_int serial));
   ("execution_date",
    eq (VStr (Calendar.strftime_B_d_Y (Calendar.add_days start (- back)))));
   ("tenant_name", eq (VStr tenant));
   ("tenant_state", eq (VStr tenant_state));
   ("tenant_entity_type",
    eq (VStr (if str_contains "Inc" tenant || str_contains "Corp" tenant
              then "corporation" else "limited liability company")));
   ("tenant_business_type", eq (VStr tenant_business));
   ("tenant_address",
    fun v => exists n street kind,
      100 <= n <= 9999
      /\ In street ["Commerce"; "Enterprise"; "Business"]
      /\ In kind ["Blvd"; "Ave"; "Pkwy"]
      /\ v = VStr (str_of_int n ++ " " ++ street ++ " " ++ kind ++ ", "
                     ++ city ++ ", " ++ state ++ " " ++ zipcode));
   ("property_address",
    eq (VStr (address ++ ", " ++ city ++ ", " ++ state ++ " " ++ zipcode)));
   ("property_city", eq (VStr city));
   ("property_state", eq (VStr state));
   ("property_zip", eq (VStr zipcode));
   ("property_county", eq (VStr county));
   ("market", eq (VStr market));
   ("tax_parcel_id",
    eq (VStr (str_of_int p1 ++ "-" ++ str_of_int p2 ++ "-" ++ str_of_int p3)));
   ("trailer_parking_spaces", eq (VInt trailer_parking));
   ("auto_parking_spaces", eq (VInt auto_parking));
   ("lease_start_date", eq (VStr (Calendar.strftime_B_d_Y start)));
   ("lease_end_date",
    eq (VStr (Calendar.strftime_B_d_Y (Calendar.add_months start term_months))));
   ("lease_term_months", eq (VInt term_months));
   ("rent_commencement_date",
    eq (VStr (Calendar.strftime_B_d_Y (Calendar.add_months start delay))));
   ("_start", eq (VDateTime start));
   ("_end", eq (VDateTime (Calendar.add_months start term_months)))].

(** Financial: the amounts computed from the square footage, the rates per
    square foot and the monthly rent. *)
Definition financial_shape
    (sqft : Z) (base_rent_psf : float)
    (free_rent_months security_deposit_months lc_months : Z)
    (ti_psf cam_psf tax_psf insurance_psf : float)
  : list (string * (value -> Prop)) :=
  let per_sqft (rate : float) := PyFloat.round2 (PyFloat.of_Z sqft * rate)%float in
  let annual := per_sqft base_rent_psf in
  let monthly := PyFloat.round2 (annual / 12)%float in
  [("base_rent_psf", eq (VFloat base_rent_psf));
   ("annual_base_rent", eq (VFloat annual));
   ("monthly_base_rent", eq (VFloat monthly));
   ("free_rent_months", eq (VInt free_rent_months));
   ("free_rent_conditions",
    eq (VStr (if 0 <? free_rent_months
              then "Applies to base rent only; NNN charges still payable"
              else "None")));
   ("security_deposit_months", eq (VInt security_deposit_months));
   ("security_deposit_amount",
    eq (VFloat (PyFloat.round2
                  (monthly * PyFloat.of_Z security_deposit_months)%float)));
   ("letter_of_credit_amount",
    eq (VFloat (PyFloat.round2 (monthly * PyFloat.of_Z lc_months)%float)));
   ("ti_allowance_psf", eq (VFloat ti_psf));
   ("ti_allowance_total", eq (VFloat (per_sqft ti_psf)));
   ("cam_psf_estimate", eq (VFloat cam_psf));
   ("cam_annual_estimate", eq (VFloat (per_sqft cam_psf)));
   ("tax_psf_estimate", eq (VFloat tax_psf));
   ("tax_annual_estimate", eq (VFloat (per_sqft tax_psf)));
   ("insurance_psf_estimate", eq (VFloat insurance_psf));
   ("insurance_annual_estimate", eq (VFloat (per_sqft insurance_psf)))].

(** Miscellaneous: the fields copied from the core record. *)
Definition miscellaneous_shape (state county : string) (auto trailer : Z)
  : list (string * (value -> Prop)) :=
  [("governing_law_state", eq (VStr state));
   ("jurisdiction_venue", eq (VStr (county ++ " County, " ++ state)));
   ("parking_allocation",
    eq (VStr (str_of_int auto ++ " auto spaces, " ++ str_of_int trailer
                ++ " trailer spaces")))].

(** ** Dates as day numbers *)

(** The proleptic Gregorian ordinal of the date of [d]
    ([datetime.toordinal]). *)
Definition ordinal (d : datetime) : Z :=
  Calendar.ymd2ord (dt_year d) (dt_month d) (dt_day d).

(** A date the calendar has, in a year for which the dates a lease is
    given stay inside the range of [datetime]. *)
Definition calendar_date (d : datetime) : Prop :=
  2 <= dt_year d <= 9900
  /\ 1 <= dt_month d <= 12
  /\ 1 <= dt_day d <= Calendar.days_in_month (dt_year d) (dt_month d).

(** [ord2ymd] answers a date of the calendar for the day number [n], and
    [ymd2ord] takes it back to [n]. *)
Definition day_number_checked (n : Z) : bool :=
  let '(y, m, d) := Calendar.ord2ymd n in
  (Calendar.ymd2ord y m d =? n) && (1 <=? m) && (m <=? 12) && (1 <=? d)
  && (d <=? Calendar.days_in_month y m).

(** ** Two runs compared *)

(** Two clock readings on the same calendar day. *)
Definition same_day (d1 d2 : datetime) : Prop :=
  dt_year d1 = dt_year d2 /\ dt_month d1 = dt_month d2
  /\ dt_day d1 = dt_day d2.

(** Two dicts with the same keys in the same order and the same values,
    the values under the keys [but] apart. *)
Definition same_fields (but : list string) (d1 d2 : dict) : Prop :=
  Forall2 (fun kv1 kv2 =>
             fst kv1 = fst kv2 /\ (In (fst kv1) but \/ snd kv1 = snd kv2))
          d1 d2.

(** The same, by lookup. *)
Definition same_but (but : list string) (d1 d2 : dict) : Prop :=
  keys d1 = keys d2
  /\ forall k, ~ In k but -> dict_get k d1 = dict_get k d2.

(** The helper entries of the core section that hold a [datetime]. *)
Definition helper_dates : list string := ["_start"; "_end"].

(** The fields of a record that are dates. *)
Definition date_fields : list string :=
  ["execution_date"; "lease_start_date"; "lease_end_date";
   "rent_commencement_date"; "phase_i_esa_date"].

Section Reruns.

Context {RS : RandomSource}.

(** How the readings of the two clocks relate, and the fields in which
    the records written may differ. *)
Variable D : datetime -> datetime -> Prop.
Variable but : list string.

(** Two worlds with the same random state, directory and lines printed,
    the same documents up to the fields [but], and clocks whose coming
    readings are related by [D]. *)
Definition alike (w1 w2 : world) : Prop :=
  rng w1 = rng w2 /\ script_dir w1 = script_dir w2
  /\ Forall2 (fun a1 a2 => fst a1 = fst a2
                           /\ same_fields but (snd a1) (snd a2))
             (artifacts w1) (artifacts w2)
  /\ stdout w1 = stdout w2
  /\ forall i, D (clock w1 (clock_reads w1 + i)%nat)
                 (clock w2 (clock_reads w2 + i)%nat).

(** Started in worlds that are alike, [m1] and [m2] end alike: both return,
    with results related by [R], or both raise the same exception. *)
Definition agree {A} (m1 m2 : M A) (R : A -> A -> Prop) : Prop :=
  forall w1 w2, alike w1 w2 ->
    match m1 w1, m2 w2 with
    | Ok a1 w1', Ok a2 w2' => R a1 a2 /\ alike w1' w2'
    | Raise e1 w1', Raise e2 w2' => e1 = e2 /\ alike w1' w2'
    | _, _ => False
    end.

(** [m] does the same in both runs. *)
Definition steady {A} (m : M A) : Prop := agree m m eq.

End Reruns.

(* ================================================================== *)
(** * Checks of the built-ins on sample values                         *)
(* ================================================================== *)

#[local] Open Scope py_scope.
#[local] Open Scope list_scope.

Example fmt_03d_samples :
  (fmt_03d 1, fmt_03d 42, fmt_03d 999, fmt_03d 1000, fmt_03d (-5))
  = ("001", "042", "999", "1000", "-05")%string.
Proof. reflexivity. Qed.

Example fmt_comma_samples :
  (fmt_comma 5000, fmt_comma 25000000, fmt_comma 999, fmt_comma 0)
  = ("5,000", "25,000,000", "999", "0").
Proof. reflexivity. Qed.

Example round2_samples :
  (PyFloat.round2 2.675, PyFloat.round2 0.125, PyFloat.round2 1.005,
   PyFloat.round2 123456.785, PyFloat.round2 7.25)
  = (2.67, 0.12, 1.0, 123456.79, 7.25)%float.
Proof. vm_compute. reflexivity. Qed.

Example truncate_samples :
  (PyFloat.truncate 4000.05, PyFloat.truncate 0.5, PyFloat.truncate (-2.5),
   PyFloat.truncate 24999.95, PyFloat.truncate 0)
  = (4000, 0, -2, 24999, 0).
Proof. vm_compute. reflexivity. Qed.

Example fmt_comma_2f_samples :
  (PyFloat.fmt_comma_2f 1234567.891, PyFloat.fmt_comma_2f 0.5,
   PyFloat.fmt_comma_2f 250000)
  = ("1,234,567.89", "0.50", "250,000.00").
Proof. vm_compute. reflexivity. Qed.

Example calendar_samples :
  (Calendar.strftime_B_d_Y (Calendar.add_days (mk_datetime 2026 11 4 0) 120),
   Calendar.strftime_B_d_Y (Calendar.add_months (mk_datetime 2027 1 31 0) 1),
   Calendar.strftime_B_d_Y (Calendar.add_months (mk_datetime 2026 11 30 0) 156),
   Calendar.strftime_B_d_Y (Calendar.add_days (mk_datetime 2024 3 1 0) (-1)),
   Calendar.ymd2ord 2026 11 4)
  = ("March 04, 2027", "February 28, 2027", "November 30, 2039",
     "February 29, 2024", 739924).
Proof. vm_compute. reflexivity. Qed.


Example os_path_join_samples :
  (os_path_join "/srv/demo" "leases", os_path_join "" "leases",
   os_path_join "/" "leases", os_path_join "/srv/demo/" "leases",
   os_path_join "leases" "complex_lease_001.pdf",
   os_path_join "/srv/demo" "/tmp/leases")
  = ("/srv/demo/leases", "leases", "/leases", "/srv/demo/leases",
     "leases/complex_lease_001.pdf", "/tmp/leases").
Proof. reflexivity. Qed.

Example endswith_samples :
  (endswith "/" "/srv/demo/", endswith "/" "/srv/demo", endswith "/" "",
   endswith ".pdf" "complex_lease_001.pdf", endswith "" "leases")
  = (true, false, false, true, true).
Proof. reflexivity. Qed.

(* ================================================================== *)
(** * Rounding to hundredths                                           *)
(* ================================================================== *)

Lemma floor_mono (n1 n2 d1 d2 : Z) :
  0 < d1 -> 0 < d2 -> n1 * d2 <= n2 * d1 -> n1 / d1 <= n2 / d2.
Proof.
  intros H1 H2 H.
  pose proof (Z.mul_div_le n1 d1 H1) as L1.
  pose proof (Z.mul_succ_div_gt n2 d2 H2) as U2.
  assert (d1 * d2 * (n1 / d1) < d1 * d2 * Z.succ (n2 / d2)) by nia.
  assert (0 < d1 * d2) by nia.
  apply Z.lt_succ_r. nia.
Qed.

Lemma half_even_step_mono (n1 D1 n2 D2 f1 f2 : Z) :
  0 < D1 -> 0 < D2 -> n1 * D2 <= n2 * D1 ->
  D1 * f1 <= n1 < D1 * Z.succ f1 ->
  D2 * f2 <= n2 < D2 * Z.succ f2 ->
  f1 <= f2 ->
  (if 2 * (n1 - f1 * D1) <? D1 then f1
   else if D1 <? 2 * (n1 - f1 * D1) then f1 + 1
   else if Z.even f1 then f1 else f1 + 1)
  <= (if 2 * (n2 - f2 * D2) <? D2 then f2
      else if D2 <? 2 * (n2 - f2 * D2) then f2 + 1
      else if Z.even f2 then f2 else f2 + 1).
Proof.
  intros HD1 HD2 H B1 B2 Hf.
  assert (Hcase : f1 < f2 \/ f1 = f2) by lia.
  destruct Hcase as [Hlt | Heq].
  - repeat match goal with
           | |- context [if ?b then _ else _] => destruct b
           end; lia.
  - subst f2.
    destruct (Z.ltb_spec (2 * (n1 - f1 * D1)) D1);
      destruct (Z.ltb_spec D1 (2 * (n1 - f1 * D1)));
      destruct (Z.ltb_spec (2 * (n2 - f1 * D2)) D2);
      destruct (Z.ltb_spec D2 (2 * (n2 - f1 * D2)));
      destruct (Z.even f1); try lia; exfalso; nia.
Qed.

Lemma round_half_even_mono (q1 q2 : Q) :
  (q1 <= q2)%Q -> PyFloat.round_half_even q1 <= PyFloat.round_half_even q2.
Proof.
  destruct q1 as [n1 d1], q2 as [n2 d2]. unfold Qle, PyFloat.round_half_even.
  cbn [Qnum Qden]. intros H.
  apply half_even_step_mono; try reflexivity; try exact H.
  - split; [apply Z.mul_div_le | apply Z.mul_succ_div_gt]; reflexivity.
  - split; [apply Z.mul_div_le | apply Z.mul_succ_div_gt]; reflexivity.
  - apply floor_mono; try reflexivity. exact H.
Qed.

Lemma to_cents_mono (a b : float) :
  PyFloat.le a b -> PyFloat.to_cents a <= PyFloat.to_cents b.
Proof.
  intros (_ & _ & H). apply round_half_even_mono.
  apply Qmult_le_compat_r; [exact H | discriminate].
Qed.

Lemma range_all_sound (f : Z -> bool) (n : nat) :
  forall lo, range_all f lo n = true ->
  forall c, lo <= c < lo + Z.of_nat n -> f c = true.
Proof.
  induction n as [| n IH]; intros lo H c Hc.
  - lia.
  - cbn [range_all] in H. apply andb_prop in H as [H0 H1].
    destruct (Z.eq_dec c lo) as [-> | Hne]; [exact H0 |].
    apply (IH (lo + 1) H1). lia.
Qed.

Lemma leb_le (a b : float) : PyFloat.leb a b = true -> PyFloat.le a b.
Proof.
  unfold PyFloat.leb, PyFloat.le. intros H.
  apply andb_prop in H as [H Hq]. apply andb_prop in H as [Ha Hb].
  repeat split; auto. apply Qle_bool_iff. exact Hq.
Qed.

Lemma within_le (low high x : float) :
  is_finite low = true -> is_finite high = true ->
  within (PyFloat.exact low) (PyFloat.exact high) x = true ->
  PyFloat.le low x /\ PyFloat.le x high.
Proof.
  unfold within, PyFloat.le. intros Hl Hh H.
  apply andb_prop in H as [H H2]. apply andb_prop in H as [Hx H1].
  apply Qle_bool_iff in H1, H2. auto 10.
Qed.

(** [round(u, 2)] of a value between two bounds stays between them, when
    every hundredth between the bounds does. *)
Lemma round2_in_range (low high u : float) :
  round2_stays_within low high = true ->
  PyFloat.le low u -> PyFloat.le u high ->
  PyFloat.le low (PyFloat.round2 u) /\ PyFloat.le (PyFloat.round2 u) high.
Proof.
  intros Hall Hlo Hhi.
  pose proof (to_cents_mono _ _ Hlo) as Hc1.
  pose proof (to_cents_mono _ _ Hhi) as Hc2.
  unfold round2_stays_within in Hall. cbv zeta in Hall.
  apply andb_prop in Hall as [Hfin Hall]. apply andb_prop in Hfin as [Hfl Hfh].
  pose proof (range_all_sound _ _ _ Hall (PyFloat.to_cents u)) as Hc.
  cbv beta in Hc.
  assert (Hin : forallb (within (PyFloat.exact low) (PyFloat.exact high))
                        (round2_results (PyFloat.to_cents u)) = true).
  { apply Hc. lia. }
  clear Hc Hall. unfold round2_results in Hin.
  unfold PyFloat.round2.
  destruct Hlo as (_ & Hfin & _). rewrite Hfin.
  destruct (PyFloat.to_cents u =? 0).
  - cbn [forallb] in Hin.
    apply andb_prop in Hin as [Hn Hz]. apply andb_prop in Hz as [Hz _].
    destruct (get_sign u); apply within_le; assumption.
  - cbn [forallb] in Hin. apply andb_prop in Hin as [Hx _].
    apply within_le; assumption.
Qed.

Lemma float_bounds_ok :
  forallb (fun b => PyFloat.leb (fst b) (snd b)
                    && round2_stays_within (fst b) (snd b)) float_bounds
  = true.
Proof. vm_compute. reflexivity. Qed.

Lemma all_below_sound (f : int -> bool) (k : nat) :
  forall lo, all_below f k lo = true ->
  Uint63.to_Z lo + 2 ^ Z.of_nat k <= wB ->
  forall i, Uint63.to_Z lo <= Uint63.to_Z i < Uint63.to_Z lo + 2 ^ Z.of_nat k ->
  f i = true.
Proof.
  induction k as [| k IH]; intros lo H Hw i Hi.
  - change (2 ^ Z.of_nat 0) with 1 in Hi.
    assert (i = lo) as -> by (apply Uint63.to_Z_inj; lia).
    exact H.
  - cbn [all_below] in H. apply andb_prop in H as [H0 H1].
    rewrite Nat2Z.inj_succ, Z.pow_succ_r in Hw, Hi by lia.
    assert (Hp : 0 < 2 ^ Z.of_nat k) by (apply Z.pow_pos_nonneg; lia).
    pose proof (Uint63.to_Z_bounded lo) as Hlo.
    assert (Hstep : Uint63.to_Z (Uint63.add lo (Uint63.of_Z (2 ^ Z.of_nat k)))
                    = Uint63.to_Z lo + 2 ^ Z.of_nat k).
    { rewrite Uint63.add_spec, Uint63.of_Z_spec.
      rewrite (Z.mod_small (2 ^ Z.of_nat k)) by lia.
      apply Z.mod_small. lia. }
    destruct (Z.lt_ge_cases (Uint63.to_Z i)
                (Uint63.to_Z lo + 2 ^ Z.of_nat k)) as [Hl | Hr].
    + apply (IH lo H0); lia.
    + apply (IH _ H1); rewrite Hstep; lia.
Qed.

Lemma office_bound_check_sound (i : int) :
  office_bound_check i = true ->
  py_int (of_uint63 i * 0.05)%float = inr (Uint63.to_Z i / 20).
Proof.
  unfold office_bound_check, py_int, PyFloat.truncate, PyFloat.trunc_mag.
  set (x := (of_uint63 i * 0.05)%float).
  intros H.
  apply andb_prop in H as [H Hm]. apply andb_prop in H as [H Hneg].
  apply andb_prop in H as [Hnan Hinf].
  apply negb_true_iff in Hnan, Hinf, Hneg. rewrite Hnan, Hinf, Hneg.
  destruct (frshiftexp x) as [m se].
  apply andb_prop in Hm as [Hse Heq]. rewrite Hse.
  apply Uint63.eqb_spec in Heq. rewrite Heq, Uint63.div_spec.
  reflexivity.
Qed.

Lemma office_bound_checked : all_below office_bound_check 19 0%uint63 = true.
Proof. vm_compute. reflexivity. Qed.

(** [int(sqft * 0.05)] is [sqft // 20] for every square footage below
    [2^19 = 524288]. *)
Lemma office_bound (sqft : Z) :
  0 <= sqft < 524288 ->
  py_int (PyFloat.of_Z sqft * 0.05)%float = inr (sqft / 20).
Proof.
  intros H. unfold PyFloat.of_Z.
  destruct (Z.ltb_spec sqft 0) as [Hn | _]; [lia |].
  assert (Hz : Uint63.to_Z (Uint63.of_Z sqft) = sqft).
  { rewrite Uint63.of_Z_spec. apply Z.mod_small.
    change wB with 9223372036854775808. lia. }
  rewrite <- Hz at 2. apply office_bound_check_sound.
  apply (all_below_sound _ 19 0%uint63 office_bound_checked).
  - change wB with 9223372036854775808. cbn. lia.
  - rewrite Hz. change (Uint63.to_Z 0) with 0. cbn. lia.
Qed.

(* ================================================================== *)
(** * Dictionaries                                                     *)
(* ================================================================== *)

Lemma distinct_NoDup (l : list string) : distinct l = true -> NoDup l.
Proof.
  induction l as [| k l IH]; intros H; constructor.
  - cbn in H. apply andb_prop in H as [H _]. apply negb_true_iff in H.
    intros Hin. assert (existsb (String.eqb k) l = true) as E.
    { apply existsb_exists. exists k. split; [exact Hin | apply String.eqb_refl]. }
    congruence.
  - apply IH. cbn in H. apply andb_prop in H as [_ H]. exact H.
Qed.

Lemma keys_app (d1 d2 : dict) : keys (d1 ++ d2) = (keys d1 ++ keys d2)%list.
Proof. apply map_app. Qed.

Lemma dict_get_In (k : string) (v : value) (d : dict) :
  dict_get k d = Some v -> In (k, v) d.
Proof.
  induction d as [| [k' v'] d IH]; cbn; [discriminate |].
  destruct (String.eqb_spec k k') as [-> | Hne].
  - intros [= ->]. now left.
  - intros H. right. now apply IH.
Qed.

Lemma In_dict_get (k : string) (v : value) (d : dict) :
  NoDup (keys d) -> In (k, v) d -> dict_get k d = Some v.
Proof.
  induction d as [| [k' v'] d IH]; cbn; [tauto |].
  intros Hnd [[= -> ->] | Hin].
  - now rewrite String.eqb_refl.
  - inversion Hnd as [| ? ? Hk Hnd']; subst.
    destruct (String.eqb_spec k k') as [-> | Hne].
    + exfalso. apply Hk. change k' with (fst (k', v)). now apply in_map.
    + now apply IH.
Qed.

Lemma In_keys_dict_get (k : string) (d : dict) :
  In k (keys d) -> exists v, dict_get k d = Some v.
Proof.
  induction d as [| [k' v'] d IH]; cbn; [tauto |].
  intros H. destruct (String.eqb_spec k k') as [-> | Hne]; [eauto |].
  destruct H as [-> | H]; [congruence | auto].
Qed.

Lemma dict_set_fresh (k : string) (v : value) (d : dict) :
  ~ In k (keys d) -> dict_set k v d = (d ++ [(k, v)])%list.
Proof.
  induction d as [| [k' v'] d IH]; cbn; [reflexivity |].
  intros H. destruct (String.eqb_spec k k') as [-> | Hne]; [tauto |].
  rewrite IH; tauto.
Qed.

Lemma dict_get_set_same (k : string) (v : value) (d : dict) :
  dict_get k (dict_set k v d) = Some v.
Proof.
  induction d as [| [k' v'] d IH]; cbn.
  - now rewrite String.eqb_refl.
  - destruct (String.eqb_spec k k') as [-> | Hne]; cbn.
    + now rewrite String.eqb_refl.
    + destruct (String.eqb_spec k k'); [congruence | exact IH].
Qed.

(* ================================================================== *)
(** * Rules for [sampler]                                              *)
(* ================================================================== *)

Section Rules.

Context {RS : RandomSource}.

Lemma io_same_refl (w : world) : io_same w w.
Proof. repeat split. Qed.

Lemma io_same_trans (w1 w2 w3 : world) :
  io_same w1 w2 -> io_same w2 w3 -> io_same w1 w3.
Proof.
  unfold io_same. intros (A1 & B1 & C1 & D1) (A2 & B2 & C2 & D2).
  repeat split; congruence.
Qed.

Lemma sampler_ret {A} (a : A) (Q : A -> Prop) : Q a -> sampler (ret a) Q.
Proof. intros H w. exists a, w. auto using io_same_refl. Qed.

Lemma sampler_bind {A B} (m : M A) (f : A -> M B) (P : A -> Prop)
                   (Q : B -> Prop) :
  sampler m P -> (forall a, P a -> sampler (f a) Q) -> sampler (bind m f) Q.
Proof.
  intros Hm Hf w. destruct (Hm w) as (a & w1 & E1 & S1 & Pa).
  destruct (Hf a Pa w1) as (b & w2 & E2 & S2 & Qb).
  exists b, w2. unfold bind. rewrite E1.
  eauto using io_same_trans.
Qed.

Lemma sampler_weaken {A} (m : M A) (P Q : A -> Prop) :
  sampler m P -> (forall a, P a -> Q a) -> sampler m Q.
Proof.
  intros Hm HPQ w. destruct (Hm w) as (a & w1 & E1 & S1 & Pa). eauto 6.
Qed.

Lemma sampler_fmap {A B} (f : A -> B) (m : M A) (P : A -> Prop)
                   (Q : B -> Prop) :
  sampler m P -> (forall a, P a -> Q (f a)) -> sampler (fmap f m) Q.
Proof.
  intros Hm H. unfold fmap. eapply sampler_bind; [exact Hm |].
  intros a Pa. apply sampler_ret. auto.
Qed.

Lemma sampler_randbelow (n : Z) :
  0 < n -> sampler (randbelow n) (fun r => 0 <= r < n).
Proof.
  intros Hn w. eexists _, _. split; [reflexivity |].
  split; [repeat split |]. apply rs_randbelow_range. exact Hn.
Qed.

Lemma sampler_randint (a b : Z) :
  a <= b -> sampler (randint a b) (fun r => a <= r <= b).
Proof.
  intros Hab. unfold randint.
  destruct (Z.ltb_spec 0 (b + 1 - a)) as [Hw | Hw]; [| lia].
  eapply sampler_bind; [apply sampler_randbelow; exact Hw |].
  intros r Hr. apply sampler_ret. cbv beta. cbv beta in Hr. lia.
Qed.

Lemma sampler_choice {A} (seq : list A) :
  seq <> [] -> sampler (choice seq) (fun x => In x seq).
Proof.
  destruct seq as [| x rest]; [congruence |]. intros _. unfold choice.
  eapply sampler_bind.
  - apply sampler_randbelow. cbn [List.length]. lia.
  - intros i Hi. apply sampler_ret. cbv beta in Hi. apply nth_In. lia.
Qed.

Lemma sampler_uniform (a b : float) :
  PyFloat.le a b ->
  sampler (uniform a b) (fun u => PyFloat.le a u /\ PyFloat.le u b).
Proof.
  intros Hab w. eexists _, _. split; [reflexivity |].
  split; [repeat split |]. apply rs_uniform_range. exact Hab.
Qed.

Lemma sampler_now : sampler now (fun _ => True).
Proof. intros w. eexists _, _. split; [reflexivity |]. repeat split. Qed.

Lemma sampler_getitem (d : dict) (k : string) (v : value) :
  dict_get k d = Some v -> sampler (d.[k]) (fun x => x = v).
Proof. intros H. unfold getitem. rewrite H. now apply sampler_ret. Qed.

Lemma sampler_dict_display_from (P : string -> value -> Prop)
    (entries : list (string * M value)) :
  forall acc,
  NoDup (keys acc ++ map fst entries) ->
  Forall (fun e => sampler (snd e) (P (fst e))) entries ->
  Forall (fun kv => P (fst kv) (snd kv)) acc ->
  sampler (dict_display_from acc entries)
          (section_spec (keys acc ++ map fst entries) P).
Proof.
  induction entries as [| [k e] entries IH]; intros acc Hnd He Hacc.
  - cbn. apply sampler_ret. split; [now rewrite app_nil_r | exact Hacc].
  - cbn [dict_display_from map fst] in *.
    inversion He as [| ? ? Hk He']; subst. cbn [fst snd] in Hk.
    eapply sampler_bind; [exact Hk |]. intros v Pv.
    assert (Hfresh : ~ In k (keys acc)).
    { intros Hin. apply NoDup_remove_2 in Hnd. apply Hnd.
      apply in_or_app. now left. }
    rewrite (dict_set_fresh _ _ _ Hfresh).
    replace (keys acc ++ k :: map fst entries)%list
      with (keys (acc ++ [(k, v)]) ++ map fst entries)%list
      by (rewrite keys_app; cbn; now rewrite <- app_assoc).
    apply IH.
    + rewrite keys_app. cbn. now rewrite <- app_assoc.
    + exact He'.
    + apply Forall_app. split; [exact Hacc |]. now constructor.
Qed.

Lemma sampler_dict_display (P : string -> value -> Prop)
    (entries : list (string * M value)) (fields : list string) :
  map fst entries = fields ->
  distinct fields = true ->
  Forall (fun e => sampler (snd e) (P (fst e))) entries ->
  sampler (dict_display entries) (section_spec fields P).
Proof.
  intros <- Hd He.
  apply (sampler_dict_display_from P entries []); cbn;
    auto using distinct_NoDup.
Qed.

End Rules.

(* ================================================================== *)
(** * The section generators meet their specifications                 *)
(* ================================================================== *)

Section Sections.

Context {RS : RandomSource}.

Lemma sampler_ret_eq {A} (a : A) : sampler (ret a) (fun x => x = a).
Proof. now apply sampler_ret. Qed.

Lemma float_bounds_le (a b : float) :
  In (a, b) float_bounds -> PyFloat.le a b.
Proof.
  intros Hin. pose proof float_bounds_ok as H.
  rewrite forallb_forall in H. specialize (H _ Hin). cbn [fst snd] in H.
  apply andb_prop in H as [H _]. now apply leb_le.
Qed.

Lemma sampler_round_uniform (a b : float) :
  In (a, b) float_bounds ->
  sampler (uniform a b)
          (fun u => PyFloat.le a (PyFloat.round2 u)
                    /\ PyFloat.le (PyFloat.round2 u) b).
Proof.
  intros Hin. eapply sampler_weaken.
  - apply sampler_uniform. now apply float_bounds_le.
  - intros u [Hl Hh]. pose proof float_bounds_ok as H.
    rewrite forallb_forall in H. specialize (H _ Hin). cbn [fst snd] in H.
    apply andb_prop in H as [_ H]. now apply round2_in_range.
Qed.

Lemma sampler_rand_dollar (a b : float) :
  In (a, b) float_bounds ->
  sampler (Phase2.rand_dollar a b)
          (fun x => PyFloat.le a x /\ PyFloat.le x b).
Proof.
  intros Hin. unfold Phase2.rand_dollar. eapply sampler_bind.
  - now apply sampler_round_uniform.
  - intros u Hu. now apply sampler_ret.
Qed.

Lemma sampler_rand_pct (a b : float) :
  In (a, b) float_bounds ->
  sampler (Phase2.rand_pct a b)
          (fun x => PyFloat.le a x /\ PyFloat.le x b).
Proof. exact (sampler_rand_dollar a b). Qed.

Lemma sampler_rand_date_future (a b : Z) :
  a <= b -> sampler (Phase2.rand_date_future a b) (fun _ => True).
Proof.
  intros Hab. unfold Phase2.rand_date_future.
  eapply sampler_bind; [apply sampler_now |]. intros today _.
  eapply sampler_bind; [now apply sampler_randint |]. intros days _.
  now apply sampler_ret.
Qed.

Lemma sampler_generate_lease_id :
  sampler Phase2.generate_lease_id (fun _ => True).
Proof.
  unfold Phase2.generate_lease_id.
  eapply sampler_bind; [apply sampler_randint; lia |]. intros year _.
  eapply sampler_bind; [apply sampler_randint; lia |]. intros serial _.
  now apply sampler_ret.
Qed.

End Sections.

(** ** Symbolic execution of a generator *)

Ltac in_bounds :=
  solve [ cbv [float_bounds]; repeat first [ left; reflexivity | right ] ].

(** The specification of one statement, with the postcondition left open. *)
Ltac sampler_stmt :=
  lazymatch goal with
  | |- sampler (randint _ _) _ => apply sampler_randint; lia
  | |- sampler (choice _) _ =>
      apply sampler_choice;
      let H := fresh in
      intro H; apply (f_equal (@List.length _)) in H; discriminate H
  | |- sampler (uniform _ _) _ =>
      first [ apply sampler_round_uniform; in_bounds
            | apply sampler_uniform; apply leb_le; vm_compute; reflexivity ]
  | |- sampler (Phase2.rand_dollar _ _) _ => apply sampler_rand_dollar; in_bounds
  | |- sampler (Phase2.rand_pct _ _) _ => apply sampler_rand_pct; in_bounds
  | |- sampler (Phase2.rand_date_future _ _) _ =>
      apply sampler_rand_date_future; lia
  | |- sampler now _ => apply sampler_now
  | |- sampler Phase2.generate_lease_id _ => apply sampler_generate_lease_id
  | |- sampler (getitem _ _) _ => eapply sampler_getitem; eassumption
  | |- sampler (mul_float (VInt _) _) _ => apply sampler_ret_eq
  | |- sampler (ret _) _ => apply sampler_ret_eq
  end.

(** What is left to show of a field once its value is known. *)
Ltac field_goal :=
  cbv beta;
  split;
  [ split;
    [ first [ reflexivity | assumption ]
    | unfold range_ok;
      lazymatch goal with
      | |- match assoc ?k numeric_ranges with _ => _ end =>
          let r := eval vm_compute in (assoc k numeric_ranges) in
          change (assoc k numeric_ranges) with r; cbv beta iota;
          first [ exact I | assumption | cbn [in_range]; lia
                | cbn [in_range]; assumption ]
      end ]
  | let v0 := fresh "v0" in
    let E := fresh "E" in
    intros v0 E;
    cbv [dict_get String.eqb Ascii.eqb Bool.eqb rent_schedule core_pins
         escalate] in E;
    first [ discriminate E | injection E as <-; reflexivity ] ].

(** One dict entry: run its statements, then settle the field. *)
Ltac entry :=
  cbn [fst snd];
  lazymatch goal with
  | |- sampler (bind _ _) _ =>
      eapply sampler_bind;
      [ sampler_stmt
      | let x := fresh "x" in
        let Hx := fresh "Hx" in
        intros x Hx; cbv beta in Hx; try subst x; entry ]
  | |- sampler (fmap _ _) _ =>
      eapply sampler_fmap;
      [ sampler_stmt
      | let x := fresh "x" in
        let Hx := fresh "Hx" in
        intros x Hx; cbv beta in Hx; field_goal ]
  | |- sampler (str _) _ => apply sampler_ret; field_goal
  | |- sampler (int_ _) _ => apply sampler_ret; field_goal
  | |- sampler (flt _) _ => apply sampler_ret; field_goal
  | |- sampler (ret _) _ => apply sampler_ret; field_goal
  | |- sampler (getitem _ _) _ =>
      eapply sampler_weaken;
      [ eapply sampler_getitem; eassumption
      | let x := fresh "x" in intros x ->; field_goal ]
  end.

(** The dict display closing a generator. *)
Ltac display fields :=
  apply (sampler_dict_display _ _ fields);
  [ reflexivity
  | vm_compute; reflexivity
  | repeat (apply Forall_cons; [entry |]); apply Forall_nil ].

(** A statement before the display; its result is named [x]. *)
Ltac statement_as x Hx :=
  lazymatch goal with
  | |- sampler (bind _ _) _ =>
      eapply sampler_bind;
      [ sampler_stmt
      | intros x Hx; cbv beta in Hx;
        repeat match goal with
               | p : (_ * _)%type |- _ => destruct p
               end;
        cbv beta iota zeta ]
  end.

Ltac statement :=
  let x := fresh "x" in
  let Hx := fresh "Hx" in
  statement_as x Hx; try subst x.

Section SectionSpecs.

Context {RS : RandomSource}.

Lemma gen_core_terms_spec :
  sampler Phase2.gen_core_terms
    (fun core => exists sqft office_sqft,
       section_ok core_fields (core_pins sqft office_sqft) core
       /\ 80000 <= sqft <= 500000
       /\ 2000 <= office_sqft <= sqft / 20
       /\ py_int (PyFloat.of_Z sqft * 0.05)%float = inr (sqft / 20)).
Proof.
  unfold Phase2.gen_core_terms.
  do 7 statement.
  statement_as sqft Hsqft.
  statement.
  assert (Hmax : py_int (PyFloat.of_Z sqft * 0.05)%float = inr (sqft / 20))
    by (apply office_bound; lia).
  rewrite Hmax. cbn [lift].
  statement.
  assert (2000 <= sqft / 20) by (apply Z.div_le_lower_bound; lia).
  statement_as office_sqft Hoffice.
  do 9 statement.
  apply (sampler_weaken _
           (section_ok core_fields (core_pins sqft office_sqft))).
  - unfold section_ok. display core_fields.
  - intros core Hcore. exists sqft, office_sqft. auto.
Qed.

Lemma gen_financial_spec (core : dict) (sqft : Z) :
  dict_get "_sqft" core = Some (VInt sqft) ->
  sampler (Phase2.gen_financial core)
    (fun d => exists base_rent_psf escalation_pct,
       section_ok financial_fields
                  (rent_schedule sqft base_rent_psf escalation_pct) d).
Proof.
  intros Hsqft. unfold Phase2.gen_financial.
  statement.
  statement_as base_rent_psf Hpsf.
  statement.
  statement_as escalation_pct Hesc.
  do 14 statement.
  apply (sampler_weaken _
           (section_ok financial_fields
                       (rent_schedule sqft base_rent_psf escalation_pct))).
  - unfold section_ok. display financial_fields.
  - intros d Hd. exists base_rent_psf, escalation_pct. exact Hd.
Qed.

Lemma gen_operating_expenses_spec (core : dict) (sqft : Z) :
  dict_get "_sqft" core = Some (VInt sqft) ->
  sampler (Phase2.gen_operating_expenses core) (section_ok opex_fields []).
Proof.
  intros Hsqft. unfold Phase2.gen_operating_expenses, section_ok.
  statement. display opex_fields.
Qed.

Lemma gen_options_spec (core : dict) (term_months : value) :
  dict_get "lease_term_months" core = Some term_months ->
  sampler (Phase2.gen_options core) (section_ok options_fields []).
Proof.
  intros Hterm. unfold Phase2.gen_options, section_ok.
  statement. display options_fields.
Qed.

Lemma gen_insurance_liability_spec :
  sampler Phase2.gen_insurance_liability (section_ok insurance_fields []).
Proof.
  unfold Phase2.gen_insurance_liability, section_ok.
  statement. display insurance_fields.
Qed.

Lemma gen_construction_alterations_spec (core : dict) (sqft : Z) :
  dict_get "_sqft" core = Some (VInt sqft) ->
  sampler (Phase2.gen_construction_alterations core)
          (section_ok construction_fields []).
Proof.
  intros Hsqft. unfold Phase2.gen_construction_alterations, section_ok.
  statement. display construction_fields.
Qed.

Lemma gen_default_remedies_spec :
  sampler Phase2.gen_default_remedies (section_ok default_fields []).
Proof.
  unfold Phase2.gen_default_remedies, section_ok.
  display default_fields.
Qed.

Lemma gen_environmental_compliance_spec :
  sampler Phase2.gen_environmental_compliance
          (section_ok environmental_fields []).
Proof.
  unfold Phase2.gen_environmental_compliance, section_ok.
  display environmental_fields.
Qed.

Lemma gen_miscellaneous_spec (core : dict) (state county auto trailer : value) :
  dict_get "property_state" core = Some state ->
  dict_get "property_county" core = Some county ->
  dict_get "auto_parking_spaces" core = Some auto ->
  dict_get "trailer_parking_spaces" core = Some trailer ->
  is_None state = false ->
  sampler (Phase2.gen_miscellaneous core) (section_ok miscellaneous_fields []).
Proof.
  intros Hstate Hcounty Hauto Htrailer Hsome.
  unfold Phase2.gen_miscellaneous, section_ok.
  statement. display miscellaneous_fields.
Qed.

End SectionSpecs.

(* ================================================================== *)
(** * The merge loop                                                   *)
(* ================================================================== *)

Lemma keys_filter_public (d : dict) :
  keys (filter public_item d) = filter is_public (keys d).
Proof.
  unfold keys. induction d as [| [k v] d IH]; [reflexivity |].
  cbn [filter map fst]. unfold public_item at 1. cbn [fst].
  destruct (is_public k); cbn [map fst]; now rewrite IH.
Qed.

Lemma keys_concat (sections : list dict) :
  keys (concat sections) = concat (map keys sections).
Proof. unfold keys. apply concat_map. Qed.

(** Merging a section whose public names are new appends its public
    items. *)
Lemma merge_section_fresh (section : dict) :
  forall data,
  NoDup (keys data ++ filter is_public (keys section)) ->
  Phase2.merge_section data section = data ++ filter public_item section.
Proof.
  unfold Phase2.merge_section.
  induction section as [| [k v] section IH]; intros data Hnd.
  - cbn. now rewrite app_nil_r.
  - cbn [fold_left fst snd filter keys map] in *. unfold public_item at 1.
    unfold is_public in *. cbn [fst].
    destruct (negb (startswith "_" k)) eqn:Hp.
    + assert (Hfresh : ~ In k (keys data)).
      { intros Hin. apply NoDup_remove_2 in Hnd. apply Hnd.
        apply in_or_app. now left. }
      rewrite (dict_set_fresh _ _ _ Hfresh), IH.
      * now rewrite <- app_assoc.
      * rewrite keys_app. cbn. now rewrite <- app_assoc.
    + now apply IH.
Qed.

Lemma merge_sections_from (sections : list dict) :
  forall data,
  NoDup (keys data ++ filter is_public (concat (map keys sections))) ->
  fold_left Phase2.merge_section sections data
  = data ++ filter public_item (concat sections).
Proof.
  induction sections as [| s sections IH]; intros data Hnd.
  - cbn. now rewrite app_nil_r.
  - cbn [fold_left concat map] in *.
    rewrite filter_app in Hnd. rewrite app_assoc in Hnd.
    rewrite merge_section_fresh by (eapply NoDup_app_remove_r; exact Hnd).
    rewrite IH.
    + now rewrite filter_app, app_assoc.
    + now rewrite keys_app, keys_filter_public.
Qed.

(** When no public name is declared twice, the merged record is the public
    items of the sections, in order. *)
Lemma merge_sections_disjoint (sections : list dict) :
  NoDup (filter is_public (concat (map keys sections))) ->
  Phase2.merge_sections sections = filter public_item (concat sections).
Proof.
  intros Hnd. unfold Phase2.merge_sections.
  now rewrite merge_sections_from.
Qed.

(* ================================================================== *)
(** * One document                                                     *)
(* ================================================================== *)

Lemma section_ok_get (fields : list string) (pins d : dict)
                     (k : string) (v : value) :
  section_ok fields pins d ->
  In k fields -> dict_get k pins = Some v -> dict_get k d = Some v.
Proof.
  intros [Hk Hall] Hin Hpin. rewrite <- Hk in Hin.
  destruct (In_keys_dict_get _ _ Hin) as [v' Hv'].
  pose proof (dict_get_In _ _ _ Hv') as Hi.
  rewrite Forall_forall in Hall. destruct (Hall _ Hi) as [_ Hp].
  cbn [fst snd] in Hp. now rewrite (Hp v Hpin) in Hv'.
Qed.

Lemma section_ok_present (fields : list string) (pins d : dict) (k : string) :
  section_ok fields pins d -> In k fields ->
  exists v, dict_get k d = Some v /\ field_ok k v.
Proof.
  intros [Hk Hall] Hin. rewrite <- Hk in Hin.
  destruct (In_keys_dict_get _ _ Hin) as [v Hv]. exists v. split; [exact Hv |].
  rewrite Forall_forall in Hall.
  exact (proj1 (Hall _ (dict_get_In _ _ _ Hv))).
Qed.

Lemma section_ok_fields (fields : list string) (pins d : dict) :
  section_ok fields pins d ->
  Forall (fun kv => field_ok (fst kv) (snd kv)) d.
Proof.
  intros [_ Hall]. eapply Forall_impl; [| exact Hall]. now intros kv [H _].
Qed.

Section Document.

Context {RS : RandomSource}.

Lemma bind_Ok {A B} (m : M A) (f : A -> M B) (w w1 : world) (a : A) :
  m w = Ok a w1 -> bind m f w = f a w1.
Proof. intros E. unfold bind. now rewrite E. Qed.

Lemma bind_Ok_eq {A B} (m : M A) (f : A -> M B) (w w1 : world) (a : A)
                 (r : outcome B) :
  m w = Ok a w1 -> f a w1 = r -> bind m f w = r.
Proof. intros E <-. now apply bind_Ok. Qed.

Lemma bind_Raise {A B} (m : M A) (f : A -> M B) (w w1 : world) (e : exn) :
  m w = Raise e w1 -> bind m f w = Raise e w1.
Proof. intros E. unfold bind. now rewrite E. Qed.

Lemma read_fields_present (d : dict) (fields : list string) (w : world) :
  (forall k, In k fields -> In k (keys d)) ->
  Phase2.read_fields d fields w = Ok tt w.
Proof.
  induction fields as [| k fields IH]; intros H; [reflexivity |].
  cbn [Phase2.read_fields].
  destruct (In_keys_dict_get k d (H k (or_introl eq_refl))) as [v Hv].
  apply (bind_Ok_eq _ _ w w v).
  - unfold getitem. now rewrite Hv.
  - apply IH. intros k' Hk'. apply H. now right.
Qed.


Lemma pins_in_fields (pins : dict) (fields : list string) (k : string) (v : value) :
  forallb (fun kv => existsb (String.eqb (fst kv)) fields) pins = true ->
  dict_get k pins = Some v -> In k fields.
Proof.
  intros Hall Hget. apply dict_get_In in Hget.
  rewrite forallb_forall in Hall. specialize (Hall _ Hget). cbn [fst] in Hall.
  apply existsb_exists in Hall as (k' & Hin & E).
  apply String.eqb_eq in E. now subst.
Qed.

Lemma existsb_In (k : string) (l : list string) :
  existsb (String.eqb k) l = true -> In k l.
Proof.
  intros H. apply existsb_exists in H as (k' & Hin & E).
  apply String.eqb_eq in E. now subst.
Qed.

Lemma in_concat_of (d : dict) (sections : list dict) (kv : string * value) :
  In d sections -> In kv d -> In kv (concat sections).
Proof. intros Hd Hkv. apply in_concat. eauto. Qed.

(** A record with the fields of the catalog, the free-rent months a
    number in range: every reference of the template is answered, the
    abatement paragraph is chosen, and the document is written. *)
Lemma build_lease_pdf_of_record (data : dict) (filename : string)
                                (v : value) (w : world) :
  keys data = record_fields ->
  dict_get "free_rent_months" data = Some v ->
  field_ok "free_rent_months" v ->
  Phase2.build_lease_pdf data filename w
  = Ok (os_path_join (os_path_join (script_dir w) "leases") filename)
       (mk_world (rng w) (clock w) (clock_reads w) (script_dir w)
          (artifacts w
             ++ [(os_path_join (os_path_join (script_dir w) "leases")
                               filename, data)])
          (stdout w)).
Proof.
  intros Hdk Hv [_ Hr].
  assert (Hread : forall fields,
             forallb (fun k => existsb (String.eqb k) record_fields) fields
             = true ->
             Phase2.read_fields data fields w = Ok tt w).
  { intros fields Hsub. apply read_fields_present. intros k Hk. rewrite Hdk.
    rewrite forallb_forall in Hsub. apply existsb_In. now apply Hsub. }
  assert (Hn : exists n, v = VInt n).
  { unfold range_ok in Hr. cbn in Hr. destruct v; try contradiction. eauto. }
  destruct Hn as [n ->].
  unfold Phase2.build_lease_pdf.
  eapply bind_Ok_eq; [reflexivity |].
  eapply bind_Ok_eq; [apply Hread; vm_compute; reflexivity |].
  eapply bind_Ok_eq; [unfold getitem; rewrite Hv; reflexivity |].
  eapply bind_Ok_eq; [reflexivity |].
  eapply bind_Ok_eq.
  { destruct (0 <? n); [apply Hread; vm_compute |]; reflexivity. }
  eapply bind_Ok_eq; [apply Hread; vm_compute; reflexivity |].
  eapply bind_Ok_eq; reflexivity.
Qed.

End Document.

Section StartDate.

Context {RS : RandomSource}.

Lemma sampler_run {A} (m : M A) (Q : A -> Prop) (w : world) :
  sampler m Q -> exists a w', m w = Ok a w' /\ Q a.
Proof. intros H. destruct (H w) as (a & w' & E & _ & Qa). eauto. Qed.

Lemma bind_run {A B} (m : M A) (f : A -> M B) (w w1 : world) (a : A)
                (Q : B -> Prop) :
  m w = Ok a w1 ->
  (exists b w', f a w1 = Ok b w' /\ Q b) ->
  exists b w', bind m f w = Ok b w' /\ Q b.
Proof.
  intros E (b & w' & E' & Qb). exists b, w'. split; [| exact Qb].
  now apply (bind_Ok_eq _ _ _ _ _ _ E).
Qed.

(** The lease start date of Core Terms is the clock reading moved by
    [start_offset] days. *)
Lemma gen_core_terms_start (w : world) :
  exists core w',
    Phase2.gen_core_terms w = Ok core w'
    /\ dict_get "lease_start_date" core = Some (lease_start_shown w).
Proof.
  unfold Phase2.gen_core_terms, lease_start_shown, start_offset.
  cbv zeta.
  eapply bind_run; [reflexivity |].
  match goal with
  | |- context [nth ?i Phase2.TENANT_COMPANIES ?d] =>
      destruct (nth i Phase2.TENANT_COMPANIES d) as [[tenant tstate] tbusiness]
  end.
  eapply bind_run; [reflexivity |].
  match goal with
  | |- context [nth ?i Phase2.PROPERTY_ADDRESSES ?d] =>
      destruct (nth i Phase2.PROPERTY_ADDRESSES d)
        as [[[[address city] state] zipcode] county]
  end.
  eapply bind_run; [reflexivity |].
  eapply bind_run; [reflexivity |].
  cbn [rng set_rng clock clock_reads].
  match goal with
  | |- exists b w', ?K ?w0 = _ /\ _ = Some ?V =>
      apply (sampler_run K (fun core => dict_get "lease_start_date" core = Some V))
  end.
  do 3 statement.
  statement_as sqft Hsqft.
  statement.
  assert (Hmax : py_int (PyFloat.of_Z sqft * 0.05)%float = inr (sqft / 20))
    by (apply office_bound; lia).
  rewrite Hmax. cbn [lift].
  statement.
  assert (2000 <= sqft / 20) by (apply Z.div_le_lower_bound; lia).
  do 10 statement.
  match goal with
  | |- sampler _ (fun core => _ = Some ?V) =>
      apply (sampler_weaken _
               (section_ok core_fields [("lease_start_date", V)]))
  end.
  - unfold section_ok. display core_fields.
  - intros core Hcore.
    apply (section_ok_get _ _ _ _ _ Hcore); [| reflexivity].
    apply existsb_In. reflexivity.
Qed.

End StartDate.

Section Batch.

Context {RS : RandomSource}.

(** The embedded [generate_complex_lease], whose date arithmetic is total,
    returns from every world: it names its artifact after the sequence
    number, counts 351 fields and writes a record that meets [record_ok].
    The properties of runs below are stated for clocks that show calendar
    dates, where the embedded dates are those of [datetime]. *)
Lemma generate_complex_lease_spec (num : Z) (w : world) :
  exists data w',
    Phase2.generate_complex_lease num w
    = Ok (artifact_name "complex_lease" num, 351) w'
    /\ wrote w w' (artifact_name "complex_lease" num) data
    /\ record_valid data
    /\ dict_get "lease_start_date" data = Some (lease_start_shown w).
Proof.
  destruct (gen_core_terms_spec w)
    as (core & w1 & E1 & S1 & sqft & office & Hcore & Hsq & Hof & Hint).
  assert (Hsqft : dict_get "_sqft" core = Some (VInt sqft)).
  { apply (section_ok_get _ _ _ _ _ Hcore); [| reflexivity].
    apply existsb_In. reflexivity. }
  destruct (section_ok_present _ _ _ "lease_term_months" Hcore)
    as (term & Hterm & _); [apply existsb_In; reflexivity |].
  destruct (section_ok_present _ _ _ "property_state" Hcore)
    as (state & Hstate & [Hsome _]); [apply existsb_In; reflexivity |].
  destruct (section_ok_present _ _ _ "property_county" Hcore)
    as (county & Hcounty & _); [apply existsb_In; reflexivity |].
  destruct (section_ok_present _ _ _ "auto_parking_spaces" Hcore)
    as (auto & Hauto & _); [apply existsb_In; reflexivity |].
  destruct (section_ok_present _ _ _ "trailer_parking_spaces" Hcore)
    as (trailer & Htrailer & _); [apply existsb_In; reflexivity |].
  destruct (gen_financial_spec core sqft Hsqft w1)
    as (fin & w2 & E2 & S2 & psf & esc & Hfin).
  destruct (gen_operating_expenses_spec core sqft Hsqft w2)
    as (opex & w3 & E3 & S3 & Hopex).
  destruct (gen_options_spec core term Hterm w3)
    as (opts & w4 & E4 & S4 & Hopts).
  destruct (gen_insurance_liability_spec w4) as (ins & w5 & E5 & S5 & Hins).
  destruct (gen_construction_alterations_spec core sqft Hsqft w5)
    as (cons & w6 & E6 & S6 & Hcons).
  destruct (gen_default_remedies_spec w6) as (dflt & w7 & E7 & S7 & Hdflt).
  destruct (gen_environmental_compliance_spec w7)
    as (env & w8 & E8 & S8 & Henv).
  destruct (gen_miscellaneous_spec core state county auto trailer
              Hstate Hcounty Hauto Htrailer Hsome w8)
    as (misc & w9 & E9 & S9 & Hmisc).
  set (sections := [core; fin; opex; opts; ins; cons; dflt; env; misc]).
  assert (Hkeys : map keys sections = sections_fields).
  { unfold sections. cbn [map].
    rewrite (proj1 Hcore), (proj1 Hfin), (proj1 Hopex), (proj1 Hopts),
      (proj1 Hins), (proj1 Hcons), (proj1 Hdflt), (proj1 Henv),
      (proj1 Hmisc). reflexivity. }
  assert (Hnd : NoDup (filter is_public (concat sections_fields)))
    by (apply distinct_NoDup; vm_compute; reflexivity).
  assert (Hmerge : Phase2.merge_sections sections
                   = filter public_item (concat sections)).
  { apply merge_sections_disjoint. rewrite Hkeys. exact Hnd. }
  set (data := filter public_item (concat sections)) in *.
  assert (Hdk : keys data = record_fields).
  { unfold data, record_fields.
    now rewrite keys_filter_public, keys_concat, Hkeys. }
  assert (Hlen : len data = 351).
  { unfold len. rewrite <- (length_map fst).
    change (map fst data) with (keys data). rewrite Hdk. reflexivity. }
  assert (Hin : forall d k v, In d sections -> is_public k = true ->
                              dict_get k d = Some v ->
                              dict_get k data = Some v).
  { intros d k v Hd Hp Hg. apply In_dict_get; [now rewrite Hdk |].
    unfold data. apply filter_In. split; [| exact Hp].
    eapply in_concat_of; [exact Hd |]. now apply dict_get_In. }
  assert (Hw9 : io_same w w9).
  { repeat (eapply io_same_trans; [eassumption |]). apply io_same_refl. }
  destruct Hw9 as (Hc & Hs & Ha & Ho).
  destruct (section_ok_present _ _ _ "free_rent_months" Hfin)
    as (free & Hfree & Hfree_ok); [apply existsb_In; reflexivity |].
  assert (Hbuild : forall filename,
             Phase2.build_lease_pdf data filename w9
             = Ok (os_path_join (os_path_join (script_dir w9) "leases")
                                filename)
                  (mk_world (rng w9) (clock w9) (clock_reads w9)
                     (script_dir w9)
                     (artifacts w9
                        ++ [(os_path_join
                               (os_path_join (script_dir w9) "leases")
                               filename, data)])
                     (stdout w9))).
  { intros filename.
    apply (build_lease_pdf_of_record data filename free w9 Hdk);
      [| exact Hfree_ok].
    apply In_dict_get; [now rewrite Hdk |].
    unfold data. apply filter_In. split; [| reflexivity].
    eapply in_concat_of; [| apply dict_get_In; exact Hfree].
    unfold sections. cbn [In]. auto. }
  exists data. eexists. split; [| split; [| split]].
  - unfold Phase2.generate_complex_lease.
    eapply bind_Ok_eq; [exact E1 |]. eapply bind_Ok_eq; [exact E2 |].
    eapply bind_Ok_eq; [exact E3 |]. eapply bind_Ok_eq; [exact E4 |].
    eapply bind_Ok_eq; [exact E5 |]. eapply bind_Ok_eq; [exact E6 |].
    eapply bind_Ok_eq; [exact E7 |]. eapply bind_Ok_eq; [exact E8 |].
    eapply bind_Ok_eq; [exact E9 |]. cbv zeta.
    fold sections. rewrite Hmerge, Hlen.
    eapply bind_Ok_eq; [apply Hbuild |]. reflexivity.
  - unfold wrote. cbn [artifacts stdout clock script_dir].
    rewrite Hs, Ha. auto.
  - exists sqft, office, psf, esc. unfold record_ok.
    split; [exact Hdk |]. split; [| split; [| split]].
    + unfold data. apply Forall_forall. intros kv Hkv.
      apply filter_In in Hkv as [Hkv _]. apply in_concat in Hkv as (d & Hd & Hkv).
      assert (Hall : Forall (fun kv => field_ok (fst kv) (snd kv)) d).
      { unfold sections in Hd. cbn [In] in Hd.
        repeat (destruct Hd as [<- | Hd];
                [eapply section_ok_fields; eassumption |]).
        contradiction. }
      rewrite Forall_forall in Hall. now apply Hall.
    + intros k v Hp Hg. apply (Hin core); [now left | exact Hp |].
      apply (section_ok_get _ _ _ _ _ Hcore); [| exact Hg].
      apply (pins_in_fields (core_pins sqft office) core_fields k v);
        [reflexivity | exact Hg].
    + intros k v Hg.
      assert (Hk : In k financial_fields).
      { apply (pins_in_fields (rent_schedule sqft psf esc) financial_fields
                 k v); [reflexivity | exact Hg]. }
      apply (Hin fin); [right; now left | | ].
      * assert (Hall : forallb is_public financial_fields = true)
          by (vm_compute; reflexivity).
        rewrite forallb_forall in Hall. now apply Hall.
      * now apply (section_ok_get _ _ _ _ _ Hfin).
    + auto.
  - destruct (gen_core_terms_start w) as (core' & w1' & E1' & Hstart).
    rewrite E1 in E1'. injection E1' as <- <-.
    apply (Hin core); [now left | reflexivity | exact Hstart].
Qed.


(** The embedded batch: three documents written, the summary printed. *)
Lemma main_spec (w : world) :
  exists d1 d2 d3 w',
    Phase2.main w = Ok tt w'
    /\ artifacts w'
       = artifacts w
         ++ [(complex_lease_path (script_dir w) 1, d1);
             (complex_lease_path (script_dir w) 2, d2);
             (complex_lease_path (script_dir w) 3, d3)]
    /\ stdout w' = stdout w ++ summary_lines (script_dir w)
    /\ record_valid d1 /\ record_valid d2 /\ record_valid d3
    /\ dict_get "lease_start_date" d1
       = Some (VStr (Calendar.strftime_B_d_Y
                       (Calendar.add_days (clock w (clock_reads w))
                                          (start_offset (rs_seed 42))))).
Proof.
  unfold Phase2.main.
  set (w0 := mk_world (rs_seed 42) (clock w) (clock_reads w) (script_dir w)
               (artifacts w)
               (((stdout w ++ [str_repeat "=" 60])
                   ++ ["Complex Lease Generator — Phase 2"%string])
                  ++ [str_repeat "=" 60])).
  destruct (generate_complex_lease_spec 1 w0)
    as (d1 & w1 & E1 & (C1 & S1 & O1 & A1) & V1 & L1).
  set (w1p := mk_world (rng w1) (clock w1) (clock_reads w1) (script_dir w1)
                (artifacts w1)
                (stdout w1
                   ++ ["  Generated: complex_lease_001.pdf (351 fields)"%string])).
  destruct (generate_complex_lease_spec 2 w1p)
    as (d2 & w2 & E2 & (C2 & S2 & O2 & A2) & V2 & _).
  set (w2p := mk_world (rng w2) (clock w2) (clock_reads w2) (script_dir w2)
                (artifacts w2)
                (stdout w2
                   ++ ["  Generated: complex_lease_002.pdf (351 fields)"%string])).
  destruct (generate_complex_lease_spec 3 w2p)
    as (d3 & w3 & E3 & (C3 & S3 & O3 & A3) & V3 & _).
  exists d1, d2, d3. eexists.
  split; [| split; [| split; [| split; [| split; [| split]]]]];
    [| | | exact V1 | exact V2 | exact V3 | exact L1].
  - eapply bind_Ok_eq; [reflexivity |].
    eapply bind_Ok_eq; [reflexivity |].
    eapply bind_Ok_eq; [reflexivity |].
    eapply bind_Ok_eq; [reflexivity |].
    eapply bind_Ok_eq.
    { cbn [for_each].
      eapply bind_Ok_eq.
      { eapply bind_Ok_eq; [exact E1 |].
        eapply bind_Ok_eq; reflexivity. }
      eapply bind_Ok_eq.
      { eapply bind_Ok_eq; [exact E2 |].
        eapply bind_Ok_eq; reflexivity. }
      eapply bind_Ok_eq.
      { eapply bind_Ok_eq; [exact E3 |].
        eapply bind_Ok_eq; reflexivity. }
      reflexivity. }
    eapply bind_Ok_eq; [reflexivity |].
    eapply bind_Ok_eq; [reflexivity |].
    eapply bind_Ok_eq; [reflexivity |].
    eapply bind_Ok_eq; [reflexivity |].
    eapply bind_Ok_eq; [reflexivity |].
    reflexivity.
  - cbn [artifacts]. rewrite A3. cbn [artifacts script_dir w2p].
    rewrite A2. cbn [artifacts script_dir w1p]. rewrite A1, S2, S1.
    cbn [artifacts script_dir w0 w1p]. rewrite S1. cbn [script_dir w0].
    unfold complex_lease_path. now rewrite <- !app_assoc.
  - cbn [stdout script_dir]. rewrite S3, O3. cbn [stdout script_dir w2p].
    rewrite S2, O2. cbn [stdout script_dir w1p]. rewrite S1, O1.
    cbn [stdout script_dir w0]. unfold summary_lines.
    rewrite <- !app_assoc. reflexivity.
Qed.

End Batch.

(* ================================================================== *)
(** * Facts about a valid record                                       *)
(* ================================================================== *)

Lemma record_fields_distinct : NoDup record_fields.
Proof. apply distinct_NoDup. vm_compute. reflexivity. Qed.

Lemma record_len (data : dict) : record_valid data -> len data = 351.
Proof.
  intros (sqft & office & psf & esc & Hk & _).
  unfold len. rewrite <- (length_map fst).
  change (map fst data) with (keys data). rewrite Hk. reflexivity.
Qed.

Lemma record_field (data : dict) (k : string) :
  record_valid data -> In k record_fields ->
  exists v, dict_get k data = Some v /\ field_ok k v.
Proof.
  intros (sqft & office & psf & esc & Hk & Hall & _) Hin.
  rewrite <- Hk in Hin. destruct (In_keys_dict_get _ _ Hin) as [v Hv].
  exists v. split; [exact Hv |].
  rewrite Forall_forall in Hall. exact (Hall _ (dict_get_In _ _ _ Hv)).
Qed.

Lemma assoc_In {A} (l : list (string * A)) (k : string) (a : A) :
  NoDup (map fst l) -> In (k, a) l -> assoc k l = Some a.
Proof.
  induction l as [| [k' a'] l IH]; cbn; [tauto |].
  intros Hnd [[= -> ->] | Hin].
  - now rewrite String.eqb_refl.
  - inversion Hnd as [| ? ? Hk Hnd']; subst.
    destruct (String.eqb_spec k k') as [-> | Hne]; [| now apply IH].
    exfalso. apply Hk. change k' with (fst (k', a)). now apply in_map.
Qed.

Lemma ceil_div_100 (n : Z) : (n + 99) / 100 = ceil_div n 100.
Proof.
  unfold ceil_div, Qceiling, Qfloor, Qdiv, Qmult, Qinv, inject_Z.
  cbn [Qnum Qden Qopp]. rewrite Z.mul_1_r. cbn.
  pose proof (Z.div_mod (n + 99) 100 ltac:(lia)).
  pose proof (Z.mod_pos_bound (n + 99) 100 ltac:(lia)).
  pose proof (Z.div_mod (- n) 100 ltac:(lia)).
  pose proof (Z.mod_pos_bound (- n) 100 ltac:(lia)).
  lia.
Qed.

Lemma floor_of_five_percent (sqft : Z) :
  Qfloor ((5 # 100) * inject_Z sqft) = sqft / 20.
Proof.
  unfold Qfloor, Qmult, inject_Z. cbn [Qnum Qden].
  change (Z.pos (100 * 1)) with 100.
  pose proof (Z.div_mod (5 * sqft) 100 ltac:(lia)).
  pose proof (Z.mod_pos_bound (5 * sqft) 100 ltac:(lia)).
  pose proof (Z.div_mod sqft 20 ltac:(lia)).
  pose proof (Z.mod_pos_bound sqft 20 ltac:(lia)).
  lia.
Qed.

(* ================================================================== *)
(** * Properties of the generated records                              *)
(* ================================================================== *)

Section Properties.

Context {RS : RandomSource}.

(** C2. Started with a clock that shows calendar dates, whatever the random
    state, the Phase 2 batch seeds the generator, writes three documents
    whose records hold 351 fields each, and reports the passes that its
    expression [(total_fields + 99) // 100] gives for the fields of the
    last document, which are 4; for every count of fields that expression
    is [ceil(total_fields / 100)]. *)
Theorem batch_writes_three_records_of_351_fields (w : world) :
  (forall i : nat, calendar_date (clock w (clock_reads w + i))) ->
  exists d1 d2 d3 w',
    Phase2.main w = Ok tt w'
    /\ artifacts w'
       = artifacts w
         ++ [(complex_lease_path (script_dir w) 1, d1);
             (complex_lease_path (script_dir w) 2, d2);
             (complex_lease_path (script_dir w) 3, d3)]
    /\ len d1 = 351 /\ len d2 = 351 /\ len d3 = 351
    /\ stdout w' = stdout w ++ summary_lines (script_dir w)
    /\ In ("Minimum passes needed: "
             ++ str_of_int (Phase2.minimum_passes (len d3)))%string
          (summary_lines (script_dir w))
    /\ Phase2.minimum_passes 351 = 4
    /\ ceil_div 351 100 = 4
    /\ forall total_fields,
         Phase2.minimum_passes total_fields = ceil_div total_fields 100.
Proof.
  intros _.
  destruct (main_spec w) as (d1 & d2 & d3 & w' & E & A & O & V1 & V2 & V3 & _).
  exists d1, d2, d3, w'.
  rewrite (record_len _ V3).
  repeat split; auto using record_len; try apply ceil_div_100.
  unfold summary_lines. cbn [In]. auto 12.
Qed.

(** C5. In every record generated with a clock that shows calendar dates,
    the annual base rent is [round(total_rentable_sqft * base_rent_psf, 2)],
    year 1 equals it, and each of years 2 to 5 is the year before times
    [(1 + rent_escalation_pct / 100)], rounded to two decimals. *)
Theorem rent_schedule_follows_the_escalation (num : Z) (w : world) :
  (forall i : nat, calendar_date (clock w (clock_reads w + i))) ->
  exists data w' sqft psf esc yr1 yr2 yr3 yr4 yr5,
    Phase2.generate_complex_lease num w
    = Ok (artifact_name "complex_lease" num, 351) w'
    /\ wrote w w' (artifact_name "complex_lease" num) data
    /\ dict_get "total_rentable_sqft" data = Some (VInt sqft)
    /\ dict_get "base_rent_psf" data = Some (VFloat psf)
    /\ dict_get "rent_escalation_pct" data = Some (VFloat esc)
    /\ dict_get "annual_base_rent" data = Some (VFloat yr1)
    /\ dict_get "yr1_annual_rent" data = Some (VFloat yr1)
    /\ dict_get "yr2_annual_rent" data = Some (VFloat yr2)
    /\ dict_get "yr3_annual_rent" data = Some (VFloat yr3)
    /\ dict_get "yr4_annual_rent" data = Some (VFloat yr4)
    /\ dict_get "yr5_annual_rent" data = Some (VFloat yr5)
    /\ yr1 = PyFloat.round2 (PyFloat.of_Z sqft * psf)
    /\ yr2 = PyFloat.round2 (yr1 * (1 + esc / 100))
    /\ yr3 = PyFloat.round2 (yr2 * (1 + esc / 100))
    /\ yr4 = PyFloat.round2 (yr3 * (1 + esc / 100))
    /\ yr5 = PyFloat.round2 (yr4 * (1 + esc / 100)).
Proof.
  intros _.
  destruct (generate_complex_lease_spec num w)
    as (data & w' & E & W & (sqft & office & psf & esc & R) & _).
  destruct R as (_ & _ & Hcore & Hrent & _).
  exists data, w', sqft, psf, esc.
  eexists _, _, _, _, _.
  split; [exact E |]. split; [exact W |].
  split; [apply Hcore; reflexivity |].
  repeat (split; [apply Hrent; reflexivity |]).
  repeat split; reflexivity.
Qed.

(** C6. Any two documents, whatever their sequence numbers and the worlds
    they are generated in (the clocks showing calendar dates), have the
    same field names in the same order and the same count; every field of
    the catalog occurs once, with a value that is not [None]. *)
Theorem schema_is_the_same_for_every_document
    (num1 num2 : Z) (w1 w2 : world) :
  (forall i : nat, calendar_date (clock w1 (clock_reads w1 + i))) ->
  (forall i : nat, calendar_date (clock w2 (clock_reads w2 + i))) ->
  exists data1 data2 w1' w2' count,
    Phase2.generate_complex_lease num1 w1
    = Ok (artifact_name "complex_lease" num1, count) w1'
    /\ Phase2.generate_complex_lease num2 w2
       = Ok (artifact_name "complex_lease" num2, count) w2'
    /\ wrote w1 w1' (artifact_name "complex_lease" num1) data1
    /\ wrote w2 w2' (artifact_name "complex_lease" num2) data2
    /\ keys data1 = record_fields /\ keys data2 = record_fields
    /\ len data1 = count /\ len data2 = count
    /\ NoDup (keys data1) /\ NoDup (keys data2)
    /\ Forall (fun k => exists v, dict_get k data1 = Some v
                                  /\ is_None v = false) record_fields
    /\ Forall (fun k => exists v, dict_get k data2 = Some v
                                  /\ is_None v = false) record_fields.
Proof.
  intros _.
  destruct (generate_complex_lease_spec num1 w1)
    as (data1 & w1' & E1 & W1 & V1 & _).
  destruct (generate_complex_lease_spec num2 w2)
    as (data2 & w2' & E2 & W2 & V2 & _).
  exists data1, data2, w1', w2', 351.
  assert (K1 : keys data1 = record_fields)
    by (destruct V1 as (? & ? & ? & ? & K & _); exact K).
  assert (K2 : keys data2 = record_fields)
    by (destruct V2 as (? & ? & ? & ? & K & _); exact K).
  repeat (split; [first [ assumption | now apply record_len ] |]).
  split; [rewrite K1; apply record_fields_distinct |].
  split; [rewrite K2; apply record_fields_distinct |].
  split; apply Forall_forall; intros k Hk.
  - destruct (record_field data1 k V1 Hk) as (v & Hv & Hs & _). eauto.
  - destruct (record_field data2 k V2 Hk) as (v & Hv & Hs & _). eauto.
Qed.

(** C7. In every record generated with a clock that shows calendar dates,
    each field drawn from a numeric range holds a value inside the bounds
    given at its draw, both ends included:
    integers for the [randint] fields, amounts rounded to two decimals for
    the [rand_dollar], [rand_pct] and [round(uniform(..), 2)] fields; the
    office area lies between 2000 and [int(total_rentable_sqft * 0.05)]. *)
Theorem sampled_values_lie_within_their_bounds (num : Z) (w : world) :
  (forall i : nat, calendar_date (clock w (clock_reads w + i))) ->
  exists data w',
    Phase2.generate_complex_lease num w
    = Ok (artifact_name "complex_lease" num, 351) w'
    /\ wrote w w' (artifact_name "complex_lease" num) data
    /\ Forall (fun kr => exists v, dict_get (fst kr) data = Some v
                                   /\ in_range (snd kr) v) numeric_ranges
    /\ (exists sqft office_sqft office_max,
          dict_get "total_rentable_sqft" data = Some (VInt sqft)
          /\ dict_get "office_sqft" data = Some (VInt office_sqft)
          /\ py_int (PyFloat.of_Z sqft * 0.05)%float = inr office_max
          /\ 2000 <= office_sqft <= office_max)
    /\ Forall (fun b =>
                 sampler (Phase2.rand_dollar (fst b) (snd b))
                         (fun x => in_range (FloatRange (fst b) (snd b))
                                            (VFloat x))
                 /\ sampler (Phase2.rand_pct (fst b) (snd b))
                            (fun x => in_range (FloatRange (fst b) (snd b))
                                               (VFloat x)))
              float_bounds
    /\ forall (low : Z) (span : nat),
         sampler (randint low (low + Z.of_nat span))
                 (fun n => in_range (IntRange low (low + Z.of_nat span))
                                    (VInt n)).
Proof.
  intros _.
  destruct (generate_complex_lease_spec num w)
    as (data & w' & E & W & V & _).
  exists data, w'. split; [exact E |]. split; [exact W |].
  split; [| split; [| split]].
  - apply Forall_forall. intros [k r] Hin. cbn [fst snd].
    assert (Hk : In k record_fields).
    { assert (Hall : forallb (fun kr => existsb (String.eqb (fst kr))
                                                record_fields)
                             numeric_ranges = true)
        by (vm_compute; reflexivity).
      rewrite forallb_forall in Hall. apply existsb_In.
      exact (Hall _ Hin). }
    destruct (record_field data k V Hk) as (v & Hv & _ & Hr).
    exists v. split; [exact Hv |]. unfold range_ok in Hr.
    rewrite (assoc_In numeric_ranges k r) in Hr; [exact Hr | | exact Hin].
    apply distinct_NoDup. vm_compute. reflexivity.
  - destruct V as (sqft & office & psf & esc & _ & _ & Hcore & _ & _ & Hof & Hint).
    exists sqft, office, (sqft / 20).
    split; [apply Hcore; reflexivity |].
    split; [apply Hcore; reflexivity |]. auto.
  - apply Forall_forall. intros [low high] Hin. cbn [fst snd].
    split; [apply sampler_rand_dollar | apply sampler_rand_pct]; exact Hin.
  - intros low span. apply sampler_randint. lia.
Qed.

(** C9. In every Core Terms section, generated when the clock shows a
    calendar date, the office and warehouse areas add up to the total
    rentable area, and the office area is at least 2000 and at most
    [floor(0.05 * total_rentable_sqft)], which is what [int(sqft * 0.05)]
    evaluates to. *)
Theorem office_and_warehouse_split_the_total_area (w : world) :
  calendar_date (clock w (clock_reads w)) ->
  exists core w' sqft office_sqft warehouse_sqft,
    Phase2.gen_core_terms w = Ok core w'
    /\ dict_get "total_rentable_sqft" core = Some (VInt sqft)
    /\ dict_get "office_sqft" core = Some (VInt office_sqft)
    /\ dict_get "warehouse_sqft" core = Some (VInt warehouse_sqft)
    /\ office_sqft + warehouse_sqft = sqft
    /\ 2000 <= office_sqft <= Qfloor ((5 # 100) * inject_Z sqft)
    /\ py_int (PyFloat.of_Z sqft * 0.05)%float
       = inr (Qfloor ((5 # 100) * inject_Z sqft)).
Proof.
  intros _.
  destruct (gen_core_terms_spec w)
    as (core & w' & E & _ & sqft & office & Hcore & _ & Hof & Hint).
  exists core, w', sqft, office, (sqft - office).
  rewrite floor_of_five_percent.
  split; [exact E |].
  repeat (split;
          [apply (section_ok_get _ _ _ _ _ Hcore);
           [apply existsb_In; reflexivity | reflexivity] |]).
  repeat split; try lia. exact Hint.
Qed.

(** C10. With a clock that shows calendar dates, Core Terms emits the
    helper keys [_start], [_end] and [_sqft]; the merge drops them: no
    field name of a merged record begins with an underscore, and the 351
    fields counted do not include them. *)
Theorem helper_keys_never_reach_the_record (num : Z) (w : world) :
  (forall i : nat, calendar_date (clock w (clock_reads w + i))) ->
  exists core w1 data w',
    Phase2.gen_core_terms w = Ok core w1
    /\ In "_start"%string (keys core) /\ In "_end"%string (keys core)
    /\ In "_sqft"%string (keys core)
    /\ Phase2.generate_complex_lease num w
       = Ok (artifact_name "complex_lease" num, len data) w'
    /\ wrote w w' (artifact_name "complex_lease" num) data
    /\ Forall (fun k => startswith "_" k = false) (keys data)
    /\ dict_get "_start" data = None /\ dict_get "_end" data = None
    /\ dict_get "_sqft" data = None
    /\ len data = 351 /\ len core = 36.
Proof.
  intros _.
  destruct (gen_core_terms_spec w)
    as (core & w1 & E1 & _ & sqft & office & Hcore & _).
  destruct (generate_complex_lease_spec num w)
    as (data & w' & E & W & V & _).
  exists core, w1, data, w'.
  pose proof (record_len _ V) as Hlen.
  assert (K : keys data = record_fields)
    by (destruct V as (? & ? & ? & ? & K & _); exact K).
  assert (Hpub : Forall (fun k => startswith "_" k = false) record_fields).
  { apply Forall_forall. intros k Hk.
    assert (Hall : forallb is_public record_fields = true)
      by (vm_compute; reflexivity).
    rewrite forallb_forall in Hall. specialize (Hall _ Hk).
    unfold is_public in Hall. now apply negb_true_iff in Hall. }
  assert (Hnone : forall k, startswith "_" k = true -> dict_get k data = None).
  { intros k Hk. destruct (dict_get k data) as [v |] eqn:G; [| reflexivity].
    apply dict_get_In in G. apply (in_map fst) in G. cbn [fst] in G.
    change (map fst data) with (keys data) in G. rewrite K in G.
    rewrite Forall_forall in Hpub. rewrite (Hpub _ G) in Hk. discriminate. }
  split; [exact E1 |].
  rewrite (proj1 Hcore).
  do 3 (split; [apply existsb_In; reflexivity |]).
  split; [rewrite Hlen; exact E |]. split; [exact W |].
  split; [rewrite K; exact Hpub |].
  do 3 (split; [apply Hnone; reflexivity |]).
  split; [exact Hlen |].
  unfold len. rewrite <- (length_map fst).
  change (map fst core) with (keys core). rewrite (proj1 Hcore). reflexivity.
Qed.

End Properties.

(** The batch run on 4 November 2026. *)
Lemma batch_writes_three_records_of_351_fields_witness :
  let w := Lcg.world_on 2026 11 4 in
  (forall i : nat, calendar_date (clock w (clock_reads w + i)))
  /\ (exists d1 d2 d3 w',
      Phase2.main w = Ok tt w'
      /\ artifacts w'
         = artifacts w
           ++ [(complex_lease_path (script_dir w) 1, d1);
               (complex_lease_path (script_dir w) 2, d2);
               (complex_lease_path (script_dir w) 3, d3)]
      /\ len d1 = 351 /\ len d2 = 351 /\ len d3 = 351
      /\ stdout w' = stdout w ++ summary_lines (script_dir w)
      /\ In ("Minimum passes needed: "
               ++ str_of_int (Phase2.minimum_passes (len d3)))%string
            (summary_lines (script_dir w))
      /\ Phase2.minimum_passes 351 = 4
      /\ ceil_div 351 100 = 4
      /\ forall total_fields,
           Phase2.minimum_passes total_fields = ceil_div total_fields 100).
Proof.
  cbv zeta.
  split; [intros i; unfold calendar_date; cbn; lia |].
  apply (batch_writes_three_records_of_351_fields (RS := Lcg.source)
           (Lcg.world_on 2026 11 4));
    intros i; unfold calendar_date; cbn; lia.
Defined.

(** The rent schedule of a document generated on 4 November 2026. *)
Lemma rent_schedule_follows_the_escalation_witness :
  let num := 1 in
  let w := Lcg.world_on 2026 11 4 in
  (forall i : nat, calendar_date (clock w (clock_reads w + i)))
  /\ (exists data w' sqft psf esc yr1 yr2 yr3 yr4 yr5,
      Phase2.generate_complex_lease num w
      = Ok (artifact_name "complex_lease" num, 351) w'
      /\ wrote w w' (artifact_name "complex_lease" num) data
      /\ dict_get "total_rentable_sqft" data = Some (VInt sqft)
      /\ dict_get "base_rent_psf" data = Some (VFloat psf)
      /\ dict_get "rent_escalation_pct" data = Some (VFloat esc)
      /\ dict_get "annual_base_rent" data = Some (VFloat yr1)
      /\ dict_get "yr1_annual_rent" data = Some (VFloat yr1)
      /\ dict_get "yr2_annual_rent" data = Some (VFloat yr2)
      /\ dict_get "yr3_annual_rent" data = Some (VFloat yr3)
      /\ dict_get "yr4_annual_rent" data = Some (VFloat yr4)
      /\ dict_get "yr5_annual_rent" data = Some (VFloat yr5)
      /\ yr1 = PyFloat.round2 (PyFloat.of_Z sqft * psf)
      /\ yr2 = PyFloat.round2 (yr1 * (1 + esc / 100))
      /\ yr3 = PyFloat.round2 (yr2 * (1 + esc / 100))
      /\ yr4 = PyFloat.round2 (yr3 * (1 + esc / 100))
      /\ yr5 = PyFloat.round2 (yr4 * (1 + esc / 100))).
Proof.
  cbv zeta.
  split; [intros i; unfold calendar_date; cbn; lia |].
  apply (rent_schedule_follows_the_escalation (RS := Lcg.source)
           1 (Lcg.world_on 2026 11 4));
    intros i; unfold calendar_date; cbn; lia.
Defined.

(** Two documents, generated on 4 November 2026 and on 28 February
    2027. *)
Lemma schema_is_the_same_for_every_document_witness :
  let num1 := 1 in
  let num2 := 2 in
  let w1 := Lcg.world_on 2026 11 4 in
  let w2 := Lcg.world_on 2027 2 28 in
  (forall i : nat, calendar_date (clock w1 (clock_reads w1 + i)))
  /\ (forall i : nat, calendar_date (clock w2 (clock_reads w2 + i)))
  /\ (exists data1 data2 w1' w2' count,
      Phase2.generate_complex_lease num1 w1
      = Ok (artifact_name "complex_lease" num1, count) w1'
      /\ Phase2.generate_complex_lease num2 w2
         = Ok (artifact_name "complex_lease" num2, count) w2'
      /\ wrote w1 w1' (artifact_name "complex_lease" num1) data1
      /\ wrote w2 w2' (artifact_name "complex_lease" num2) data2
      /\ keys data1 = record_fields /\ keys data2 = record_fields
      /\ len data1 = count /\ len data2 = count
      /\ NoDup (keys data1) /\ NoDup (keys data2)
      /\ Forall (fun k => exists v, dict_get k data1 = Some v
                                    /\ is_None v = false) record_fields
      /\ Forall (fun k => exists v, dict_get k data2 = Some v
                                    /\ is_None v = false) record_fields).
Proof.
  cbv zeta.
  split; [intros i; unfold calendar_date; cbn; lia |].
  split; [intros i; unfold calendar_date; cbn; lia |].
  apply (schema_is_the_same_for_every_document (RS := Lcg.source)
           1 2 (Lcg.world_on 2026 11 4) (Lcg.world_on 2027 2 28));
    intros i; unfold calendar_date; cbn; lia.
Defined.

(** The ranges in a document generated on 4 November 2026. *)
Lemma sampled_values_lie_within_their_bounds_witness :
  let num := 1 in
  let w := Lcg.world_on 2026 11 4 in
  (forall i : nat, calendar_date (clock w (clock_reads w + i)))
  /\ (exists data w',
      Phase2.generate_complex_lease num w
      = Ok (artifact_name "complex_lease" num, 351) w'
      /\ wrote w w' (artifact_name "complex_lease" num) data
      /\ Forall (fun kr => exists v, dict_get (fst kr) data = Some v
                                     /\ in_range (snd kr) v) numeric_ranges
      /\ (exists sqft office_sqft office_max,
            dict_get "total_rentable_sqft" data = Some (VInt sqft)
            /\ dict_get "office_sqft" data = Some (VInt office_sqft)
            /\ py_int (PyFloat.of_Z sqft * 0.05)%float = inr office_max
            /\ 2000 <= office_sqft <= office_max)
      /\ Forall (fun b =>
                   sampler (RS := Lcg.source)
                     (Phase2.rand_dollar (fst b) (snd b))
                      (fun x => in_range (FloatRange (fst b) (snd b))
                                              (VFloat x))
                   /\ sampler (RS := Lcg.source)
                        (Phase2.rand_pct (fst b) (snd b))
                         (fun x => in_range (FloatRange (fst b) (snd b))
                                                 (VFloat x)))
                float_bounds
      /\ forall (low : Z) (span : nat),
           sampler (RS := Lcg.source)
                   (randint low (low + Z.of_nat span))
                    (fun n => in_range (IntRange low (low + Z.of_nat span))
                                      (VInt n))).
Proof.
  cbv zeta.
  split; [intros i; unfold calendar_date; cbn; lia |].
  apply (sampled_values_lie_within_their_bounds (RS := Lcg.source)
           1 (Lcg.world_on 2026 11 4));
    intros i; unfold calendar_date; cbn; lia.
Defined.

(** The areas of a Core Terms section generated on 4 November 2026. *)
Lemma office_and_warehouse_split_the_total_area_witness :
  let w := Lcg.world_on 2026 11 4 in
  calendar_date (clock w (clock_reads w))
  /\ (exists core w' sqft office_sqft warehouse_sqft,
      Phase2.gen_core_terms w = Ok core w'
      /\ dict_get "total_rentable_sqft" core = Some (VInt sqft)
      /\ dict_get "office_sqft" core = Some (VInt office_sqft)
      /\ dict_get "warehouse_sqft" core = Some (VInt warehouse_sqft)
      /\ office_sqft + warehouse_sqft = sqft
      /\ 2000 <= office_sqft <= Qfloor ((5 # 100) * inject_Z sqft)
      /\ py_int (PyFloat.of_Z sqft * 0.05)%float
         = inr (Qfloor ((5 # 100) * inject_Z sqft))).
Proof.
  cbv zeta.
  split; [unfold calendar_date; cbn; lia |].
  apply (office_and_warehouse_split_the_total_area (RS := Lcg.source)
           (Lcg.world_on 2026 11 4));
    unfold calendar_date; cbn; lia.
Defined.

(** The helper keys of a document generated on 4 November 2026. *)
Lemma helper_keys_never_reach_the_record_witness :
  let num := 1 in
  let w := Lcg.world_on 2026 11 4 in
  (forall i : nat, calendar_date (clock w (clock_reads w + i)))
  /\ (exists core w1 data w',
      Phase2.gen_core_terms w = Ok core w1
      /\ In "_start"%string (keys core) /\ In "_end"%string (keys core)
      /\ In "_sqft"%string (keys core)
      /\ Phase2.generate_complex_lease num w
         = Ok (artifact_name "complex_lease" num, len data) w'
      /\ wrote w w' (artifact_name "complex_lease" num) data
      /\ Forall (fun k => startswith "_" k = false) (keys data)
      /\ dict_get "_start" data = None /\ dict_get "_end" data = None
      /\ dict_get "_sqft" data = None
      /\ len data = 351 /\ len core = 36).
Proof.
  cbv zeta.
  split; [intros i; unfold calendar_date; cbn; lia |].
  apply (helper_keys_never_reach_the_record (RS := Lcg.source)
           1 (Lcg.world_on 2026 11 4));
    intros i; unfold calendar_date; cbn; lia.
Defined.

(* ================================================================== *)
(** * The Phase 1 generators                                           *)
(* ================================================================== *)

Section Phase1Samplers.

Context {RS : RandomSource}.

Lemma sampler_generate_lease_id_1 :
  sampler Phase1.generate_lease_id (fun _ => True).
Proof.
  unfold Phase1.generate_lease_id.
  eapply sampler_bind; [apply sampler_randint; lia |]. intros year _.
  eapply sampler_bind; [apply sampler_randint; lia |]. intros serial _.
  now apply sampler_ret.
Qed.

End Phase1Samplers.

(* ================================================================== *)
(** * Reproducibility                                                  *)
(* ================================================================== *)

Lemma strftime_ignores_time (y m d t k : Z) :
  Calendar.strftime_B_d_Y (Calendar.add_days (mk_datetime y m d t) k)
  = Calendar.strftime_B_d_Y (Calendar.add_days (mk_datetime y m d 0) k).
Proof.
  unfold Calendar.add_days. cbn [dt_year dt_month dt_day dt_micros].
  destruct (Calendar.ord2ymd _) as [[y' m'] d']. reflexivity.
Qed.

(** A day later, every start date from 30 to 120 days ahead reads
    differently. *)
Lemma start_dates_a_day_apart_differ :
  range_all
    (fun k =>
       negb (String.eqb
               (Calendar.strftime_B_d_Y
                  (Calendar.add_days (mk_datetime 2026 11 4 0) k))
               (Calendar.strftime_B_d_Y
                  (Calendar.add_days (mk_datetime 2026 11 5 0) k))))
    30 91 = true.
Proof. vm_compute. reflexivity. Qed.

Section Reproducibility.

Context {RS : RandomSource}.

Lemma start_offset_range (s : rng_state) : 30 <= start_offset s <= 120.
Proof.
  unfold start_offset. cbv zeta.
  match goal with
  | |- _ <= 30 + fst (rs_randbelow ?n ?s) <= _ =>
      pose proof (rs_randbelow_range n s ltac:(lia))
  end.
  lia.
Qed.

(** C1 (the code departs from its "Reproducible output" comment).  Two
    runs of the batch, both seeded with 42 by [main], one on 4 November
    2026 and one on 5 November 2026: the first document of each run shows
    a different lease start date, whatever the random source, the initial
    random states and the times of day. *)
Theorem lease_start_date_changes_with_the_day
    (s1 s2 : rng_state) (t1 t2 : Z) (dir : string) :
  let run day s t :=
    Phase2.main (mk_world s (fun _ => mk_datetime 2026 11 day t) 0 dir [] [])
  in
  exists w1 w2 p d1 d2 rest1 rest2,
    run 4 s1 t1 = Ok tt w1 /\ run 5 s2 t2 = Ok tt w2
    /\ artifacts w1 = (p, d1) :: rest1 /\ artifacts w2 = (p, d2) :: rest2
    /\ dict_get "lease_start_date" d1 <> dict_get "lease_start_date" d2.
Proof.
  intros run. unfold run.
  destruct (main_spec (mk_world s1 (fun _ => mk_datetime 2026 11 4 t1) 0 dir [] []))
    as (d1 & d1b & d1c & w1 & E1 & A1 & _ & _ & _ & _ & L1).
  destruct (main_spec (mk_world s2 (fun _ => mk_datetime 2026 11 5 t2) 0 dir [] []))
    as (d2 & d2b & d2c & w2 & E2 & A2 & _ & _ & _ & _ & L2).
  cbn [artifacts script_dir clock clock_reads app] in A1, A2, L1, L2.
  eexists w1, w2, _, d1, d2, _, _.
  split; [exact E1 |]. split; [exact E2 |].
  split; [exact A1 |]. split; [exact A2 |].
  rewrite L1, L2, (strftime_ignores_time _ _ _ t1),
    (strftime_ignores_time _ _ _ t2).
  pose proof (start_offset_range (rs_seed 42)) as Hr.
  pose proof (range_all_sound _ _ _ start_dates_a_day_apart_differ
                (start_offset (rs_seed 42)) ltac:(lia)) as Hne.
  cbv beta in Hne. apply negb_true_iff in Hne.
  intros [= Heq]. rewrite Heq, String.eqb_refl in Hne. discriminate.
Qed.

End Reproducibility.

(* ================================================================== *)
(** * Error behaviour                                                  *)
(* ================================================================== *)

(** C3, as the specification states it, fails: a later section that emits
    a name already in the record replaces the earlier value, and the merge
    goes on. *)
Lemma duplicate_field_is_overwritten_silently : ~ no_silent_overwrite.
Proof.
  intros H.
  specialize (H [("base_rent_psf", VFloat 4.5)]
                [("base_rent_psf", VFloat 9)] "base_rent_psf"
                eq_refl (or_introl eq_refl) (or_introl eq_refl)).
  vm_compute in H. discriminate H.
Qed.

Section Errors.

Context {RS : RandomSource}.

(** C3, amended.  The merge loop has no duplicate check and raises
    nothing: an item with a public name takes the place of whatever the
    record held under that name (an item with a helper name is skipped).
    The names the nine sections declare are pairwise distinct, so every
    run with a clock that shows calendar dates merges all 351 public
    fields. *)
Theorem merge_is_last_writer_wins_on_a_disjoint_catalog :
  (forall (data section : dict) (k : string) (v : value),
      dict_get k (Phase2.merge_section data (section ++ [(k, v)]))
      = if is_public k then Some v
        else dict_get k (Phase2.merge_section data section))
  /\ distinct (concat sections_fields) = true
  /\ forall num w,
       (forall i : nat, calendar_date (clock w (clock_reads w + i))) ->
       exists data w',
         Phase2.generate_complex_lease num w
         = Ok (artifact_name "complex_lease" num, 351) w'
         /\ wrote w w' (artifact_name "complex_lease" num) data
         /\ keys data = record_fields.
Proof.
  split; [| split].
  - intros data section k v. unfold Phase2.merge_section.
    rewrite fold_left_app. cbn [fold_left fst snd]. unfold is_public.
    destruct (negb (startswith "_" k)); [apply dict_get_set_same | reflexivity].
  - vm_compute. reflexivity.
  - intros num w _. destruct (generate_complex_lease_spec num w)
      as (data & w' & E & W & (? & ? & ? & ? & K & _) & _).
    eauto.
Qed.

Lemma getitem_missing {B} (d : dict) (k : string) (f : value -> M B)
                      (w : world) :
  dict_get k d = None -> bind (d.[k]) f w = Raise (KeyError k) w.
Proof.
  intros H. apply bind_Raise. unfold getitem. now rewrite H.
Qed.

Lemma raises_bind {A B} (m : M A) (f : A -> M B) (e : exn) :
  raises m e -> raises (bind m f) e.
Proof.
  intros H w. destruct (H w) as (w' & E & S). exists w'.
  split; [now apply bind_Raise | exact S].
Qed.

Lemma raises_after {A B} (m : M A) (f : A -> M B) (e : exn) :
  sampler m (fun _ => True) -> (forall a, raises (f a) e) ->
  raises (bind m f) e.
Proof.
  intros Hm Hf w. destruct (Hm w) as (a & w1 & E1 & S1 & _).
  destruct (Hf a w1) as (w2 & E2 & S2). exists w2.
  split; [now apply (bind_Ok_eq _ _ _ _ _ _ E1) |].
  eauto using io_same_trans.
Qed.

Lemma raises_getitem (d : dict) (k : string) :
  dict_get k d = None -> raises (d.[k]) (KeyError k).
Proof.
  intros H w. exists w. unfold getitem. rewrite H.
  split; [reflexivity | apply io_same_refl].
Qed.

End Errors.

(** A statement or a dict entry that runs to its end. *)
Ltac runs :=
  lazymatch goal with
  | |- sampler (bind _ _) _ =>
      eapply sampler_bind with (P := fun _ => True);
      [runs | intros ? _; runs]
  | |- sampler (fmap _ _) _ =>
      eapply sampler_fmap with (P := fun _ => True);
      [runs | intros ? _; exact I]
  | |- sampler (str _) _ => apply sampler_ret; exact I
  | |- sampler (getitem _ _) _ =>
      eapply sampler_weaken;
      [eapply sampler_getitem; eassumption | intros; exact I]
  | |- sampler _ _ =>
      eapply sampler_weaken; [sampler_stmt | intros; exact I]
  end.

(** The first lookup of a missing key, after statements that run. *)
Ltac first_missing :=
  lazymatch goal with
  | |- raises (getitem _ _) _ => apply raises_getitem; assumption
  | |- raises (bind _ _) _ =>
      first [ apply raises_bind; first_missing
            | apply raises_after; [runs | intros ?; first_missing] ]
  end.

Section MissingFields.

Context {RS : RandomSource}.

(** [gen_miscellaneous] looks up the state, the county, the state again,
    the car spaces and the trailer spaces, in that order. *)
Lemma gen_miscellaneous_first_missing (core : dict) (k : string) :
  (k = "property_state"
   \/ (k = "property_county" /\ dict_get "property_state" core <> None)
   \/ (k = "auto_parking_spaces"
       /\ dict_get "property_state" core <> None
       /\ dict_get "property_county" core <> None)
   \/ (k = "trailer_parking_spaces"
       /\ dict_get "property_state" core <> None
       /\ dict_get "property_county" core <> None
       /\ dict_get "auto_parking_spaces" core <> None))%string ->
  dict_get k core = None ->
  raises (Phase2.gen_miscellaneous core) (KeyError k).
Proof.
  intros Hk Hmiss.
  assert (Hsome : forall k', dict_get k' core <> None ->
                             exists v, dict_get k' core = Some v).
  { intros k' H. destruct (dict_get k' core) as [v |]; [eauto | congruence]. }
  unfold Phase2.gen_miscellaneous, dict_display.
  cbn [dict_display_from].
  destruct Hk as [-> | [(-> & Hs) | [(-> & Hs & Hc) | (-> & Hs & Hc & Ha)]]].
  - first_missing.
  - destruct (Hsome _ Hs) as [state Hstate]. first_missing.
  - destruct (Hsome _ Hs) as [state Hstate].
    destruct (Hsome _ Hc) as [county Hcounty]. first_missing.
  - destruct (Hsome _ Hs) as [state Hstate].
    destruct (Hsome _ Hc) as [county Hcounty].
    destruct (Hsome _ Ha) as [auto Hauto]. first_missing.
Qed.

(** C4, amended.  A generator that reads a field missing from the core
    record raises [KeyError] for that field at the lookup, while the
    section is being generated: before the merge, with nothing written or
    printed.  There is no validation step.  Every field a generator reads
    is declared by Core Terms, so no run of [generate_complex_lease] with
    a clock that shows calendar dates raises. *)
Theorem missing_core_field_raises_KeyError (core : dict) (w : world) :
  (dict_get "_sqft" core = None ->
     Phase2.gen_financial core w = Raise (KeyError "_sqft") w
     /\ Phase2.gen_operating_expenses core w = Raise (KeyError "_sqft") w
     /\ Phase2.gen_construction_alterations core w
        = Raise (KeyError "_sqft") w)
  /\ (dict_get "lease_term_months" core = None ->
        Phase2.gen_options core w = Raise (KeyError "lease_term_months") w)
  /\ (dict_get "property_state" core = None ->
        exists w', Phase2.gen_miscellaneous core w
                   = Raise (KeyError "property_state") w'
                   /\ io_same w w')
  /\ (dict_get "property_state" core <> None ->
      dict_get "property_county" core = None ->
        exists w', Phase2.gen_miscellaneous core w
                   = Raise (KeyError "property_county") w'
                   /\ io_same w w')
  /\ (dict_get "property_state" core <> None ->
      dict_get "property_county" core <> None ->
      dict_get "auto_parking_spaces" core = None ->
        exists w', Phase2.gen_miscellaneous core w
                   = Raise (KeyError "auto_parking_spaces") w'
                   /\ io_same w w')
  /\ (dict_get "property_state" core <> None ->
      dict_get "property_county" core <> None ->
      dict_get "auto_parking_spaces" core <> None ->
      dict_get "trailer_parking_spaces" core = None ->
        exists w', Phase2.gen_miscellaneous core w
                   = Raise (KeyError "trailer_parking_spaces") w'
                   /\ io_same w w')
  /\ consumed_fields
     = ["_sqft"; "lease_term_months"; "property_state"; "property_county";
        "auto_parking_spaces"; "trailer_parking_spaces"]%string
  /\ Forall (fun k => In k core_fields) consumed_fields
  /\ ((forall i : nat, calendar_date (clock w (clock_reads w + i))) ->
      forall num, exists data w',
        Phase2.generate_complex_lease num w
        = Ok (artifact_name "complex_lease" num, 351) w'
        /\ wrote w w' (artifact_name "complex_lease" num) data).
Proof.
  split; [| split; [| split; [| split; [| split; [| split; [| split;
    [| split]]]]]]].
  - intros H. repeat split; now apply getitem_missing.
  - intros H. now apply getitem_missing.
  - intros H. apply gen_miscellaneous_first_missing; auto.
  - intros Hs H. apply gen_miscellaneous_first_missing; auto.
  - intros Hs Hc H. apply gen_miscellaneous_first_missing; auto 6.
  - intros Hs Hc Ha H. apply gen_miscellaneous_first_missing; auto 8.
  - reflexivity.
  - repeat (apply Forall_cons; [apply existsb_In; reflexivity |]).
    apply Forall_nil.
  - intros _ num. destruct (generate_complex_lease_spec num w)
      as (data & w' & E & W & _). eauto.
Qed.

End MissingFields.


(** C4, as the specification states it, fails: the error for a missing
    dependency is Python's [KeyError], raised by the lookup in the middle
    of sampling (in [gen_miscellaneous] after a draw has been consumed),
    not an [UnresolvedDependencyError] from a validation pass. *)
Lemma missing_dependency_is_a_KeyError_while_sampling :
  let w := Lcg.world_on 2026 11 4 in
  Phase2.gen_financial (RS := Lcg.source) [] w = Raise (KeyError "_sqft") w
  /\ exists w',
       Phase2.gen_miscellaneous (RS := Lcg.source) [] w
       = Raise (KeyError "property_state") w'
       /\ rng w' <> rng w.
Proof.
  cbv zeta. split; [reflexivity |].
  eexists. split; [reflexivity |]. vm_compute. discriminate.
Qed.

(** The amended C4 at work: an empty core record, a core record with the
    state and the county only, and a whole run on 4 November 2026. *)
Lemma missing_core_field_witness :
  let w := Lcg.world_on 2026 11 4 in
  let core := [("property_state", VStr "TX");
               ("property_county", VStr "Dallas")] in
  Phase2.gen_options (RS := Lcg.source) [] w
  = Raise (KeyError "lease_term_months") w
  /\ (exists w', Phase2.gen_miscellaneous core w
                 = Raise (KeyError "auto_parking_spaces") w'
                 /\ io_same w w')
  /\ (forall i : nat, calendar_date (clock w (clock_reads w + i)))
  /\ exists data w',
       Phase2.generate_complex_lease 1 w
       = Ok (artifact_name "complex_lease" 1, 351) w'
       /\ wrote w w' (artifact_name "complex_lease" 1) data.
Proof.
  cbv zeta.
  split.
  { exact (proj1 (proj2 (missing_core_field_raises_KeyError
                           (RS := Lcg.source) [] (Lcg.world_on 2026 11 4)))
                 eq_refl). }
  split.
  { apply (missing_core_field_raises_KeyError
             (RS := Lcg.source)
             [("property_state", VStr "TX");
              ("property_county", VStr "Dallas")]
             (Lcg.world_on 2026 11 4));
      [discriminate | discriminate | reflexivity]. }
  split; [intros i; unfold calendar_date; cbn; lia |].
  apply (missing_core_field_raises_KeyError
           (RS := Lcg.source) [] (Lcg.world_on 2026 11 4)).
  intros i; unfold calendar_date; cbn; lia.
Defined.

(** The amended C3 at work: a field emitted twice keeps the later value,
    and a run on 4 November 2026 merges the 351 fields. *)
Lemma merge_is_last_writer_wins_witness :
  let w := Lcg.world_on 2026 11 4 in
  dict_get "base_rent_psf"
    (Phase2.merge_section [("base_rent_psf", VFloat 4.5)]
                          ([] ++ [("base_rent_psf", VFloat 9)]))
  = Some (VFloat 9)
  /\ (forall i : nat, calendar_date (clock w (clock_reads w + i)))
  /\ exists data w',
       Phase2.generate_complex_lease 1 w
       = Ok (artifact_name "complex_lease" 1, 351) w'
       /\ wrote w w' (artifact_name "complex_lease" 1) data
       /\ keys data = record_fields.
Proof.
  cbv zeta.
  split.
  { exact (proj1 (merge_is_last_writer_wins_on_a_disjoint_catalog
                    (RS := Lcg.source))
                 [("base_rent_psf", VFloat 4.5)] []
                 "base_rent_psf" (VFloat 9)). }
  split; [intros i; unfold calendar_date; cbn; lia |].
  apply (proj2 (proj2 (merge_is_last_writer_wins_on_a_disjoint_catalog
                         (RS := Lcg.source)))).
  intros i; unfold calendar_date; cbn; lia.
Defined.

(* ================================================================== *)
(** * The programs, run                                                *)
(* ================================================================== *)

Example batch_on_two_days :
  first_start_date (Phase2.main (Lcg.world_on 2026 11 4))
  = Some (VStr "February 14, 2027")
  /\ first_start_date (Phase2.main (Lcg.world_on 2026 11 5))
     = Some (VStr "February 15, 2027").
Proof. vm_compute. split; reflexivity. Qed.

Example batch_summary :
  match Phase2.main (Lcg.world_on 2026 11 4) with
  | Ok _ w =>
      stdout w = summary_lines "/srv/demo"
      /\ map fst (artifacts w)
         = ["/srv/demo/leases/complex_lease_001.pdf"%string;
            "/srv/demo/leases/complex_lease_002.pdf"%string;
            "/srv/demo/leases/complex_lease_003.pdf"%string]
  | Raise _ _ => False
  end.
Proof. vm_compute. split; reflexivity. Qed.

Example phase1_files :
  match Phase1.main (Lcg.world_on 2026 11 4) with
  | Ok files _ =>
      files = ["lease_high_risk_001.pdf"%string; "lease_high_risk_002.pdf"%string;
               "lease_medium_risk_001.pdf"%string;
               "lease_medium_risk_002.pdf"%string;
               "lease_standard_001.pdf"%string; "lease_standard_002.pdf"%string;
               "lease_spanish_miami_001.pdf"%string]
  | Raise _ _ => False
  end.
Proof. vm_compute. reflexivity. Qed.

(* ================================================================== *)
(** * The merge loop on arbitrary sections                             *)
(* ================================================================== *)

Lemma dict_get_set_other (k k' : string) (v : value) (d : dict) :
  k <> k' -> dict_get k (dict_set k' v d) = dict_get k d.
Proof.
  intros Hne. induction d as [| [k0 v0] rest IH]; cbn [dict_set dict_get].
  - destruct (String.eqb_spec k k'); [contradiction | reflexivity].
  - destruct (String.eqb_spec k' k0) as [-> | Hk0]; cbn [dict_get].
    + destruct (String.eqb_spec k k0); [contradiction | reflexivity].
    + destruct (String.eqb_spec k k0); [reflexivity | exact IH].
Qed.

Lemma In_keys_dict_set (k k' : string) (v : value) (d : dict) :
  In k (keys (dict_set k' v d)) <-> k = k' \/ In k (keys d).
Proof.
  induction d as [| [k0 v0] rest IH]; cbn [dict_set keys map fst In].
  - intuition auto.
  - destruct (String.eqb_spec k' k0) as [-> | Hk0]; cbn [keys map fst In].
    + intuition auto.
    + unfold keys in IH. rewrite IH. intuition auto.
Qed.

Lemma dict_set_NoDup (k : string) (v : value) (d : dict) :
  NoDup (keys d) -> NoDup (keys (dict_set k v d)).
Proof.
  induction d as [| [k0 v0] rest IH]; cbn [dict_set keys map fst]; intros H.
  - constructor; [intros [] | constructor].
  - destruct (String.eqb_spec k k0) as [-> | Hk0]; cbn [keys map fst].
    + exact H.
    + inversion H as [| ? ? Hnin Hrest]; subst. constructor.
      * change (map fst (dict_set k v rest)) with (keys (dict_set k v rest)).
        rewrite In_keys_dict_set. intros [-> | Hin]; [now apply Hk0 | auto].
      * now apply IH.
Qed.

Lemma dict_set_length (k : string) (v : value) (d : dict) :
  (List.length (dict_set k v d) <= S (List.length d))%nat.
Proof.
  induction d as [| [k0 v0] rest IH]; cbn [dict_set List.length]; [lia |].
  destruct (String.eqb k k0); cbn [List.length]; lia.
Qed.

Lemma dict_get_None_iff (k : string) (d : dict) :
  dict_get k d = None <-> ~ In k (keys d).
Proof.
  induction d as [| [k0 v0] rest IH]; cbn [dict_get keys map fst In].
  - intuition auto.
  - destruct (String.eqb_spec k k0) as [-> | Hk0].
    + split; [discriminate | intros H; exfalso; apply H; now left].
    + unfold keys in IH. rewrite IH. intuition congruence.
Qed.

(** Merging a list of sections is merging the items of all of them, in
    order. *)
Lemma merge_section_app (data s1 s2 : dict) :
  Phase2.merge_section data (s1 ++ s2)
  = Phase2.merge_section (Phase2.merge_section data s1) s2.
Proof. unfold Phase2.merge_section. apply fold_left_app. Qed.

Lemma merge_sections_concat (sections : list dict) (data : dict) :
  fold_left Phase2.merge_section sections data
  = Phase2.merge_section data (concat sections).
Proof.
  revert data. induction sections as [| s rest IH]; intros data.
  - reflexivity.
  - cbn [fold_left concat]. rewrite IH. symmetry. apply merge_section_app.
Qed.

Lemma merge_section_snoc (data items : dict) (k : string) (v : value) :
  Phase2.merge_section data (items ++ [(k, v)])
  = if is_public k then dict_set k v (Phase2.merge_section data items)
    else Phase2.merge_section data items.
Proof.
  rewrite merge_section_app. unfold Phase2.merge_section at 1.
  cbn [fold_left fst snd]. unfold is_public. reflexivity.
Qed.

Lemma merge_section_NoDup (items data : dict) :
  NoDup (keys data) -> NoDup (keys (Phase2.merge_section data items)).
Proof.
  intros Hd. induction items as [| [k v] items IH] using rev_ind.
  - exact Hd.
  - rewrite merge_section_snoc. destruct (is_public k); [| exact IH].
    now apply dict_set_NoDup.
Qed.

Lemma merge_section_keys (items data : dict) (k : string) :
  In k (keys (Phase2.merge_section data items))
  <-> In k (keys data) \/ (is_public k = true /\ In k (keys items)).
Proof.
  induction items as [| [k0 v0] items IH] using rev_ind.
  - cbn. intuition auto.
  - rewrite merge_section_snoc, keys_app. cbn [keys map fst].
    rewrite in_app_iff. cbn [In].
    destruct (is_public k0) eqn:Hp.
    + rewrite In_keys_dict_set, IH. intuition (subst; auto).
    + rewrite IH. intuition (subst; auto; congruence).
Qed.

Lemma merge_section_get (items data : dict) (k : string) :
  dict_get k (Phase2.merge_section data items)
  = if is_public k
    then match dict_get k (rev items) with
         | Some v => Some v
         | None => dict_get k data
         end
    else dict_get k data.
Proof.
  induction items as [| [k0 v0] items IH] using rev_ind.
  - cbn. now destruct (is_public k).
  - rewrite merge_section_snoc, rev_app_distr. cbn [rev app dict_get].
    destruct (String.eqb_spec k k0) as [-> | Hne].
    + destruct (is_public k0) eqn:Hp; [apply dict_get_set_same | exact IH].
    + destruct (is_public k0); [rewrite dict_get_set_other by exact Hne |];
        exact IH.
Qed.

Lemma merge_section_length (items data : dict) :
  (List.length (Phase2.merge_section data items)
   <= List.length data + List.length (filter public_item items))%nat.
Proof.
  induction items as [| [k0 v0] items IH] using rev_ind.
  - cbn. lia.
  - rewrite merge_section_snoc, filter_app, length_app.
    change (filter public_item [(k0, v0)])
      with (if is_public k0 then [(k0, v0)] else []).
    destruct (is_public k0); cbn [List.length].
    + pose proof (dict_set_length k0 v0 (Phase2.merge_section data items)).
      lia.
    + lia.
Qed.

(** The merge loop of [generate_complex_lease], for any list of sections:
    the record holds each public name once; a name is in the record exactly
    when it is public and some section has it; its value is the one of the
    last item under that name, in section order; a helper name has no
    value; the record has at most as many fields as the sections have
    public items. *)
Theorem merge_keeps_the_last_public_item_of_each_name (sections : list dict) :
  let data := Phase2.merge_sections sections in
  NoDup (keys data)
  /\ (forall k, In k (keys data)
                <-> is_public k = true
                    /\ exists s, In s sections /\ In k (keys s))
  /\ (forall k, dict_get k data
                = if is_public k then dict_get k (rev (concat sections))
                  else None)
  /\ len data <= Z.of_nat (List.length (filter public_item (concat sections))).
Proof.
  cbv zeta. unfold Phase2.merge_sections. rewrite merge_sections_concat.
  split; [| split; [| split]].
  - apply merge_section_NoDup. constructor.
  - intros k. rewrite merge_section_keys, keys_concat. cbn [keys map In].
    split.
    + intros [[] | [Hp Hin]]. split; [exact Hp |].
      apply in_concat in Hin as (ks & Hks & Hk).
      apply in_map_iff in Hks as (s & <- & Hs). eauto.
    + intros [Hp (s & Hs & Hk)]. right. split; [exact Hp |].
      apply in_concat. exists (keys s). split; [now apply in_map | exact Hk].
  - intros k. rewrite merge_section_get. cbn [dict_get].
    destruct (is_public k); [| reflexivity].
    now destruct (dict_get k (rev (concat sections))).
  - unfold len. apply Nat2Z.inj_le.
    apply (merge_section_length (concat sections) []).
Qed.

(* ================================================================== *)
(** * Artifact names and lease identifiers                             *)
(* ================================================================== *)

Lemma string_length_append (a b : string) :
  String.length (a ++ b) = (String.length a + String.length b)%nat.
Proof. induction a as [| c a IH]; cbn; [reflexivity | now rewrite IH]. Qed.

Lemma append_inv_head (s a b : string) : (s ++ a = s ++ b)%string -> a = b.
Proof.
  induction s as [| c s IH]; cbn; intros H; [exact H |].
  injection H as H. now apply IH.
Qed.

Lemma append_inv_tail (t a b : string) : (a ++ t = b ++ t)%string -> a = b.
Proof.
  revert b. induction a as [| c a IH]; intros [| c' b] H; cbn in H.
  - reflexivity.
  - apply (f_equal String.length) in H. cbn in H.
    rewrite string_length_append in H. lia.
  - apply (f_equal String.length) in H. cbn in H.
    rewrite string_length_append in H. lia.
  - injection H as -> H. f_equal. now apply IH.
Qed.

Lemma uint_of_string_zeros (k : nat) (s : string) :
  NilEmpty.uint_of_string (zeros k ++ s)
  = option_map (Nat.iter k Decimal.D0) (NilEmpty.uint_of_string s).
Proof.
  induction k as [| k IH]; cbn [zeros String.append Nat.iter].
  - now destruct (NilEmpty.uint_of_string s).
  - cbn [NilEmpty.uint_of_string]. rewrite IH.
    now destruct (NilEmpty.uint_of_string s).
Qed.

Lemma of_uint_zeros (k : nat) (d : Decimal.uint) :
  Z.of_uint (Nat.iter k Decimal.D0 d) = Z.of_uint d.
Proof. induction k as [| k IH]; [reflexivity | exact IH]. Qed.

(** [str(n)] of a non-negative integer is its digits. *)
Lemma str_of_int_digits (n : Z) :
  0 <= n ->
  exists d, str_of_int n = NilEmpty.string_of_uint d /\ Z.of_uint d = n.
Proof.
  intros Hn. unfold str_of_int. destruct n as [| p | p]; [| | lia].
  - exists (Decimal.D0 Decimal.Nil). split; reflexivity.
  - exists (Pos.to_uint p). split.
    + cbn [Z.to_int NilZero.string_of_int NilZero.string_of_uint].
      pose proof (DecimalPos.Unsigned.to_uint_nonnil p) as Hnil.
      now destruct (Pos.to_uint p).
    + exact (DecimalZ.of_to (Z.pos p)).
Qed.

Lemma decimal_value_padded (k : nat) (d : Decimal.uint) :
  decimal_value (zeros k ++ NilEmpty.string_of_uint d) = Some (Z.of_uint d).
Proof.
  assert (H : NilEmpty.uint_of_string (zeros k ++ NilEmpty.string_of_uint d)
              = Some (Nat.iter k Decimal.D0 d))
    by (now rewrite uint_of_string_zeros, NilEmpty.usu).
  unfold decimal_value.
  destruct (zeros k ++ NilEmpty.string_of_uint d)%string as [| c s].
  - cbn in H. injection H as H.
    rewrite <- (of_uint_zeros k d), <- H. reflexivity.
  - destruct (Ascii.eqb_spec c "-") as [-> | Hc].
    + cbn in H. destruct (NilEmpty.uint_of_string s); discriminate H.
    + rewrite H. cbn [option_map]. now rewrite of_uint_zeros.
Qed.

(** The digits [format(n, '0{width}d')] prints, read back as a number, are
    [n]. *)
Lemma decimal_value_fmt_0d (width : nat) (n : Z) :
  decimal_value (fmt_0d width n) = Some n.
Proof.
  unfold fmt_0d, zfill_nat. destruct (Z.ltb_spec n 0) as [Hneg | Hpos].
  - destruct (str_of_int_digits (- n)) as (d & -> & Hd); [lia |].
    change ("-" ++ ?s)%string with (String "-" s).
    pose proof (decimal_value_padded
                  (width - 1 - String.length (NilEmpty.string_of_uint d)) d)
      as H.
    unfold decimal_value in *. cbn [Ascii.eqb Bool.eqb].
    assert (Hu : NilEmpty.uint_of_string
                   (zeros (width - 1 - String.length (NilEmpty.string_of_uint d))
                      ++ NilEmpty.string_of_uint d)
                 = Some (Nat.iter (width - 1
                                   - String.length (NilEmpty.string_of_uint d))
                           Decimal.D0 d))
      by (now rewrite uint_of_string_zeros, NilEmpty.usu).
    rewrite Hu. cbn [option_map]. rewrite of_uint_zeros, Hd. f_equal. lia.
  - destruct (str_of_int_digits n Hpos) as (d & -> & Hd).
    rewrite decimal_value_padded. now rewrite Hd.
Qed.

Lemma fmt_0d_inj (width : nat) (n m : Z) :
  fmt_0d width n = fmt_0d width m -> n = m.
Proof.
  intros H. apply (f_equal decimal_value) in H.
  rewrite !decimal_value_fmt_0d in H. now injection H.
Qed.

(** Two sequence numbers never share an artifact name, whatever the label:
    the padding to three digits widens for larger numbers instead of
    truncating, and a negative number keeps its sign. *)
Theorem artifact_names_of_distinct_numbers_differ (label : string) (n m : Z) :
  artifact_name label n = artifact_name label m <-> n = m.
Proof.
  split; [| now intros ->].
  unfold artifact_name, fmt_03d. intros H.
  apply append_inv_head in H. apply append_inv_head in H.
  apply append_inv_tail in H. now apply fmt_0d_inj in H.
Qed.

(** ** Lease identifiers *)

Lemma four_digits (n : Z) :
  1000 <= n <= 9999 -> String.length (str_of_int n) = 4%nat.
Proof.
  intros H.
  assert (E : range_all (fun n => (String.length (str_of_int n) =? 4)%nat)
                        1000 (Z.to_nat 9000) = true)
    by (vm_compute; reflexivity).
  apply Nat.eqb_eq. apply (range_all_sound _ _ _ E). lia.
Qed.

Lemma five_digits (n : Z) :
  10000 <= n <= 99999 -> String.length (str_of_int n) = 5%nat.
Proof.
  intros H.
  assert (E : range_all (fun n => (String.length (str_of_int n) =? 5)%nat)
                        10000 (Z.to_nat 90000) = true)
    by (vm_compute; reflexivity).
  apply Nat.eqb_eq. apply (range_all_sound _ _ _ E). lia.
Qed.

Section Identifiers.

Context {RS : RandomSource}.

Lemma two_digits (n : Z) :
  10 <= n <= 99 -> String.length (str_of_int n) = 2%nat.
Proof.
  intros H.
  assert (E : range_all (fun n => (String.length (str_of_int n) =? 2)%nat)
                        10 (Z.to_nat 90) = true)
    by (vm_compute; reflexivity).
  apply Nat.eqb_eq. apply (range_all_sound _ _ _ E). lia.
Qed.

Lemma three_digits (n : Z) :
  100 <= n <= 999 -> String.length (str_of_int n) = 3%nat.
Proof.
  intros H.
  assert (E : range_all (fun n => (String.length (str_of_int n) =? 3)%nat)
                        100 (Z.to_nat 900) = true)
    by (vm_compute; reflexivity).
  apply Nat.eqb_eq. apply (range_all_sound _ _ _ E). lia.
Qed.

Lemma sampler_complex_lease_id :
  sampler Phase2.generate_lease_id
    (fun id => exists year serial,
       2024 <= year <= 2026 /\ 10000 <= serial <= 99999
       /\ id = ("CX-" ++ str_of_int year ++ "-" ++ str_of_int serial)%string).
Proof.
  unfold Phase2.generate_lease_id.
  eapply sampler_bind; [apply sampler_randint; lia |].
  intros year Hy. cbv beta in Hy.
  eapply sampler_bind; [apply sampler_randint; lia |].
  intros serial Hs. cbv beta in Hs.
  apply sampler_ret. exists year, serial. auto.
Qed.

(** A Phase 1 lease identifier is [LNK-], a year from 2023 to 2025, a dash
    and a five-digit serial number: fourteen characters. *)
Theorem lease_id_is_LNK_year_serial :
  sampler Phase1.generate_lease_id
    (fun id => exists year serial,
       2023 <= year <= 2025 /\ 10000 <= serial <= 99999
       /\ id = ("LNK-" ++ str_of_int year ++ "-" ++ str_of_int serial)%string
       /\ String.length id = 14%nat).
Proof.
  unfold Phase1.generate_lease_id.
  eapply sampler_bind; [apply sampler_randint; lia |].
  intros year Hy. cbv beta in Hy.
  eapply sampler_bind; [apply sampler_randint; lia |].
  intros serial Hs. cbv beta in Hs.
  apply sampler_ret. exists year, serial.
  repeat split; try lia.
  rewrite !string_length_append, four_digits, five_digits by lia.
  reflexivity.
Qed.

End Identifiers.

(* ================================================================== *)
(** * One document, section by section                                 *)
(* ================================================================== *)

Section Sections.

Context {RS : RandomSource}.

(** What a sampler guarantees holds of the run at hand. *)
Lemma sampler_at {A} (m : M A) (Q : A -> Prop) (w w' : world) (a : A) :
  sampler m Q -> m w = Ok a w' -> Q a /\ io_same w w'.
Proof.
  intros H E. destruct (H w) as (a0 & w0 & E0 & S0 & Q0).
  rewrite E in E0. injection E0 as <- <-. auto.
Qed.

Lemma shaped_get (fields : list string)
    (shapes : list (string * (value -> Prop))) (d : dict) (k : string)
    (holds : value -> Prop) :
  section_spec fields (shaped shapes) d ->
  In k fields -> assoc k shapes = Some holds ->
  exists v, dict_get k d = Some v /\ holds v.
Proof.
  intros [Hk Hall] Hin Ha. rewrite <- Hk in Hin.
  destruct (In_keys_dict_get _ _ Hin) as (v & Hv). exists v.
  split; [exact Hv |]. rewrite Forall_forall in Hall.
  specialize (Hall _ (dict_get_In _ _ _ Hv)). cbn [fst snd] in Hall.
  unfold shaped in Hall. now rewrite Ha in Hall.
Qed.

(** The embedded [generate_complex_lease] is a run of the nine generators
    followed by the merge of their public items, none of which is
    overwritten. *)
Lemma generate_complex_lease_sections (num : Z) (w : world) :
  exists s w9 w',
    generated w s w9
    /\ io_same w w9
    /\ Phase2.generate_complex_lease num w
       = Ok (artifact_name "complex_lease" num, 351) w'
    /\ wrote w w' (artifact_name "complex_lease" num)
             (Phase2.merge_sections (section_list s))
    /\ keys (Phase2.merge_sections (section_list s)) = record_fields
    /\ (forall d k v, In d (section_list s) -> is_public k = true ->
                      dict_get k d = Some v ->
                      dict_get k (Phase2.merge_sections (section_list s))
                      = Some v).
Proof.
  destruct (gen_core_terms_spec w)
    as (core & w1 & E1 & S1 & sqft & office & Hcore & Hsq & Hof & Hint).
  assert (Hsqft : dict_get "_sqft" core = Some (VInt sqft)).
  { apply (section_ok_get _ _ _ _ _ Hcore); [| reflexivity].
    apply existsb_In. reflexivity. }
  destruct (section_ok_present _ _ _ "lease_term_months" Hcore)
    as (term & Hterm & _); [apply existsb_In; reflexivity |].
  destruct (section_ok_present _ _ _ "property_state" Hcore)
    as (state & Hstate & [Hsome _]); [apply existsb_In; reflexivity |].
  destruct (section_ok_present _ _ _ "property_county" Hcore)
    as (county & Hcounty & _); [apply existsb_In; reflexivity |].
  destruct (section_ok_present _ _ _ "auto_parking_spaces" Hcore)
    as (auto & Hauto & _); [apply existsb_In; reflexivity |].
  destruct (section_ok_present _ _ _ "trailer_parking_spaces" Hcore)
    as (trailer & Htrailer & _); [apply existsb_In; reflexivity |].
  destruct (gen_financial_spec core sqft Hsqft w1)
    as (fin & w2 & E2 & S2 & psf & esc & Hfin).
  destruct (gen_operating_expenses_spec core sqft Hsqft w2)
    as (opex & w3 & E3 & S3 & Hopex).
  destruct (gen_options_spec core term Hterm w3)
    as (opts & w4 & E4 & S4 & Hopts).
  destruct (gen_insurance_liability_spec w4) as (ins & w5 & E5 & S5 & Hins).
  destruct (gen_construction_alterations_spec core sqft Hsqft w5)
    as (cons & w6 & E6 & S6 & Hcons).
  destruct (gen_default_remedies_spec w6) as (dflt & w7 & E7 & S7 & Hdflt).
  destruct (gen_environmental_compliance_spec w7)
    as (env & w8 & E8 & S8 & Henv).
  destruct (gen_miscellaneous_spec core state county auto trailer
              Hstate Hcounty Hauto Htrailer Hsome w8)
    as (misc & w9 & E9 & S9 & Hmisc).
  exists (mk_sections core fin opex opts ins cons dflt env misc), w9.
  unfold section_list. cbn [s_core s_financial s_opex s_options s_insurance
                            s_construction s_default s_environmental
                            s_miscellaneous].
  set (sections := [core; fin; opex; opts; ins; cons; dflt; env; misc]).
  assert (Hkeys : map keys sections = sections_fields).
  { unfold sections. cbn [map].
    rewrite (proj1 Hcore), (proj1 Hfin), (proj1 Hopex), (proj1 Hopts),
      (proj1 Hins), (proj1 Hcons), (proj1 Hdflt), (proj1 Henv),
      (proj1 Hmisc). reflexivity. }
  assert (Hnd : NoDup (filter is_public (concat sections_fields)))
    by (apply distinct_NoDup; vm_compute; reflexivity).
  assert (Hmerge : Phase2.merge_sections sections
                   = filter public_item (concat sections)).
  { apply merge_sections_disjoint. rewrite Hkeys. exact Hnd. }
  rewrite Hmerge.
  set (data := filter public_item (concat sections)) in *.
  assert (Hdk : keys data = record_fields).
  { unfold data, record_fields.
    now rewrite keys_filter_public, keys_concat, Hkeys. }
  assert (Hlen : len data = 351).
  { unfold len. rewrite <- (length_map fst).
    change (map fst data) with (keys data). rewrite Hdk. reflexivity. }
  assert (Hw9 : io_same w w9).
  { repeat (eapply io_same_trans; [eassumption |]). apply io_same_refl. }
  destruct (section_ok_present _ _ _ "free_rent_months" Hfin)
    as (free & Hfree & Hfree_ok); [apply existsb_In; reflexivity |].
  assert (Hbuild : forall filename,
             Phase2.build_lease_pdf data filename w9
             = Ok (os_path_join (os_path_join (script_dir w9) "leases")
                                filename)
                  (mk_world (rng w9) (clock w9) (clock_reads w9)
                     (script_dir w9)
                     (artifacts w9
                        ++ [(os_path_join
                               (os_path_join (script_dir w9) "leases")
                               filename, data)])
                     (stdout w9))).
  { intros filename.
    apply (build_lease_pdf_of_record data filename free w9 Hdk);
      [| exact Hfree_ok].
    apply In_dict_get; [now rewrite Hdk |].
    unfold data. apply filter_In. split; [| reflexivity].
    eapply in_concat_of; [| apply dict_get_In; exact Hfree].
    unfold sections. cbn [In]. auto. }
  eexists. split; [| split; [exact Hw9 | split; [| split; [| split]]]].
  - unfold generated.
    cbn [s_core s_financial s_opex s_options s_insurance s_construction
         s_default s_environmental s_miscellaneous].
    exists w1, w2, w3, w4, w5, w6, w7, w8. repeat split; assumption.
  - unfold Phase2.generate_complex_lease.
    eapply bind_Ok_eq; [exact E1 |]. eapply bind_Ok_eq; [exact E2 |].
    eapply bind_Ok_eq; [exact E3 |]. eapply bind_Ok_eq; [exact E4 |].
    eapply bind_Ok_eq; [exact E5 |]. eapply bind_Ok_eq; [exact E6 |].
    eapply bind_Ok_eq; [exact E7 |]. eapply bind_Ok_eq; [exact E8 |].
    eapply bind_Ok_eq; [exact E9 |]. cbv zeta.
    fold sections. rewrite Hmerge, Hlen.
    eapply bind_Ok_eq; [apply Hbuild |]. reflexivity.
  - destruct Hw9 as (Hc & Hs & Ha & Ho).
    unfold wrote. cbn [artifacts stdout clock script_dir].
    rewrite Hs, Ha. auto.
  - exact Hdk.
  - intros d k v Hd Hp Hg. apply In_dict_get; [now rewrite Hdk |].
    unfold data. apply filter_In. split; [| exact Hp].
    eapply in_concat_of; [exact Hd |]. now apply dict_get_In.
Qed.

End Sections.

(* ================================================================== *)
(** * Runs and what they leave behind                                  *)
(* ================================================================== *)

Section Returns.

Context {RS : RandomSource}.

Lemma returns_ret {A} (a : A) (w : world) (Q : A -> world -> Prop) :
  Q a w -> returns (ret a) w Q.
Proof. intros H. exists a, w. auto. Qed.

Lemma returns_bind {A B} (m : M A) (f : A -> M B) (w : world)
                   (Q : B -> world -> Prop) :
  returns m w (fun a w1 => returns (f a) w1 Q) -> returns (bind m f) w Q.
Proof.
  intros (a & w1 & E & b & w2 & E2 & H). exists b, w2. split; [| exact H].
  now apply (bind_Ok_eq _ _ _ _ _ _ E).
Qed.

Lemma returns_weaken {A} (m : M A) (w : world) (P Q : A -> world -> Prop) :
  returns m w P -> (forall a w', P a w' -> Q a w') -> returns m w Q.
Proof. intros (a & w' & E & H) HPQ. exists a, w'. auto. Qed.

Lemma returns_sampler {A} (m : M A) (P : A -> Prop) (w : world)
                      (Q : A -> world -> Prop) :
  sampler m P -> (forall a w', io_same w w' -> P a -> Q a w') ->
  returns m w Q.
Proof. intros H HQ. destruct (H w) as (a & w' & E & S & Pa). exists a, w'. auto. Qed.

Lemma returns_run {A} (m : M A) (w w' : world) (a : A)
                  (Q : A -> world -> Prop) :
  returns m w Q -> m w = Ok a w' -> Q a w'.
Proof. intros (a0 & w0 & E0 & H) E. rewrite E in E0. now injection E0 as <- <-. Qed.

Lemma emitted_refl (w : world) : emitted w w [] [].
Proof. unfold emitted. cbn [map]. now rewrite !app_nil_r. Qed.

Lemma emitted_trans (w1 w2 w3 : world) (f1 f2 l1 l2 : list string) :
  emitted w1 w2 f1 l1 -> emitted w2 w3 f2 l2 ->
  emitted w1 w3 (f1 ++ f2) (l1 ++ l2).
Proof.
  intros (C1 & S1 & A1 & O1) (C2 & S2 & A2 & O2). unfold emitted.
  rewrite C2, S2, A2, O2, A1, O1, S1, map_app, <- !app_assoc. auto.
Qed.

Lemma emitted_io_same (w w' : world) : io_same w w' -> emitted w w' [] [].
Proof.
  intros (C & S & A & O). unfold emitted. cbn [map].
  rewrite C, S, A, O, !app_nil_r. auto.
Qed.

(** [print] leaves one line. *)
Lemma returns_print (line : string) (w : world) :
  returns (print line) w (fun _ w' => emitted w w' [] [line]).
Proof.
  eexists tt, _. split; [reflexivity |]. unfold emitted.
  cbn [clock script_dir artifacts stdout map]. now rewrite app_nil_r.
Qed.

(** [doc.build] leaves one document. *)
Lemma returns_doc_build (filename : string) (record : dict) (w : world) :
  returns (doc_build (os_path_join (os_path_join (script_dir w) "leases")
                                   filename) record) w
          (fun _ w' => emitted w w' [filename] []).
Proof.
  eexists tt, _. split; [reflexivity |]. unfold emitted.
  cbn [clock script_dir artifacts stdout map]. rewrite map_app, app_nil_r.
  auto.
Qed.

Lemma returns_OUTPUT_DIR (w : world) :
  returns OUTPUT_DIR w
          (fun dir w' => dir = os_path_join (script_dir w) "leases" /\ w' = w).
Proof. eexists _, _. split; [reflexivity |]. auto. Qed.

End Returns.

(** One statement of a run whose effects so far are [H : emitted w w1 _ _]. *)
Ltac emit_stmt :=
  first [ sampler_stmt | apply sampler_generate_lease_id_1 ].

Ltac emit_draw H :=
  apply returns_bind; eapply returns_sampler; [emit_stmt |];
  let a := fresh "a" in
  let w1 := fresh "w" in
  let S := fresh "S" in
  let Ha := fresh "Ha" in
  intros a w1 S Ha; cbv beta in Ha;
  apply emitted_io_same in S;
  pose proof (emitted_trans _ _ _ _ _ _ _ H S) as S';
  clear H S; rename S' into H; cbn [app] in H;
  repeat match goal with
         | p : (_ * _)%type |- _ => destruct p
         end;
  cbv beta iota zeta.

Ltac emit_call H lemma :=
  apply returns_bind; eapply returns_weaken; [apply lemma |];
  let a := fresh "a" in
  let w1 := fresh "w" in
  let E := fresh "E" in
  intros a w1 E; cbv beta in E;
  try (destruct E as [-> E]);
  pose proof (emitted_trans _ _ _ _ _ _ _ H E) as S';
  clear H E; rename S' into H; cbn [app] in H.

Ltac emit_dir H :=
  apply returns_bind; eapply returns_weaken; [apply returns_OUTPUT_DIR |];
  let a := fresh "a" in
  let w1 := fresh "w" in
  intros a w1 [-> ->].

Ltac emit_document H :=
  emit_draw H; emit_dir H; emit_call H returns_doc_build;
  emit_call H returns_print;
  apply returns_ret; split; [reflexivity | exact H].

Section Phase1Runs.

Context {RS : RandomSource}.

Lemma generate_high_risk_lease_emits (n : Z) (w : world) :
  returns (Phase1.generate_high_risk_lease n) w
    (fun f w' =>
       f = artifact_name "lease_high_risk" n
       /\ emitted w w' [artifact_name "lease_high_risk" n]
                  [("Generated HIGH RISK lease: "
                      ++ artifact_name "lease_high_risk" n)%string]).
Proof.
  unfold Phase1.generate_high_risk_lease.
  pose proof (emitted_refl w) as H.
  do 8 emit_draw H. emit_document H.
Qed.

Lemma generate_medium_risk_lease_emits (n : Z) (w : world) :
  returns (Phase1.generate_medium_risk_lease n) w
    (fun f w' =>
       f = artifact_name "lease_medium_risk" n
       /\ emitted w w' [artifact_name "lease_medium_risk" n]
                  [("Generated MEDIUM RISK lease: "
                      ++ artifact_name "lease_medium_risk" n)%string]).
Proof.
  unfold Phase1.generate_medium_risk_lease.
  pose proof (emitted_refl w) as H.
  do 8 emit_draw H. emit_document H.
Qed.

Lemma generate_low_risk_lease_emits (n : Z) (w : world) :
  returns (Phase1.generate_low_risk_lease n) w
    (fun f w' =>
       f = artifact_name "lease_standard" n
       /\ emitted w w' [artifact_name "lease_standard" n]
                  [("Generated LOW RISK (standard) lease: "
                      ++ artifact_name "lease_standard" n)%string]).
Proof.
  unfold Phase1.generate_low_risk_lease.
  pose proof (emitted_refl w) as H.
  do 9 emit_draw H. emit_document H.
Qed.

Lemma generate_spanish_lease_miami_emits (w : world) :
  returns Phase1.generate_spanish_lease_miami w
    (fun f w' =>
       f = "lease_spanish_miami_001.pdf"%string
       /\ emitted w w' ["lease_spanish_miami_001.pdf"%string]
                  ["Generated SPANISH (Miami) lease: lease_spanish_miami_001.pdf"%string]).
Proof.
  unfold Phase1.generate_spanish_lease_miami.
  pose proof (emitted_refl w) as H.
  emit_document H.
Qed.

(** C8. The artifact a generator writes is named by its category label, an
    underscore, the sequence number zero-padded to three digits and [.pdf],
    whatever the random state it starts from (the clock showing calendar
    dates): each generator writes one document, under that name in the
    output directory, and returns the name. *)
Theorem artifact_name_is_label_and_padded_sequence (num : Z) (w : world) :
  (forall i : nat, calendar_date (clock w (clock_reads w + i))) ->
  (exists data w',
      Phase2.generate_complex_lease num w
      = Ok (artifact_name "complex_lease" num, len data) w'
      /\ artifacts w'
         = artifacts w ++ [(complex_lease_path (script_dir w) num, data)])
  /\ returns (Phase1.generate_high_risk_lease num) w
       (fun f w' =>
          f = artifact_name "lease_high_risk" num
          /\ emitted w w' [artifact_name "lease_high_risk" num]
                     [("Generated HIGH RISK lease: "
                         ++ artifact_name "lease_high_risk" num)%string])
  /\ returns (Phase1.generate_medium_risk_lease num) w
       (fun f w' =>
          f = artifact_name "lease_medium_risk" num
          /\ emitted w w' [artifact_name "lease_medium_risk" num]
                     [("Generated MEDIUM RISK lease: "
                         ++ artifact_name "lease_medium_risk" num)%string])
  /\ returns (Phase1.generate_low_risk_lease num) w
       (fun f w' =>
          f = artifact_name "lease_standard" num
          /\ emitted w w' [artifact_name "lease_standard" num]
                     [("Generated LOW RISK (standard) lease: "
                         ++ artifact_name "lease_standard" num)%string])
  /\ returns Phase1.generate_spanish_lease_miami w
       (fun f w' =>
          f = artifact_name "lease_spanish_miami" 1
          /\ emitted w w' [artifact_name "lease_spanish_miami" 1]
                     ["Generated SPANISH (Miami) lease: lease_spanish_miami_001.pdf"%string])
  /\ artifact_name "lease_high_risk" 1 = "lease_high_risk_001.pdf"%string
  /\ artifact_name "lease_spanish_miami" 1
     = "lease_spanish_miami_001.pdf"%string
  /\ artifact_name "complex_lease" 3 = "complex_lease_003.pdf"%string
  /\ range_all (fun n => (String.length (fmt_03d n) =? 3)%nat) 0 1000 = true.
Proof.
  intros _.
  split.
  { destruct (generate_complex_lease_spec num w)
      as (data & w' & E & (_ & _ & _ & A) & V & _).
    exists data, w'. rewrite (record_len _ V). split; [exact E | exact A]. }
  split; [apply generate_high_risk_lease_emits |].
  split; [apply generate_medium_risk_lease_emits |].
  split; [apply generate_low_risk_lease_emits |].
  split; [apply generate_spanish_lease_miami_emits |].
  split; [reflexivity |]. split; [reflexivity |]. split; [reflexivity |].
  vm_compute. reflexivity.
Qed.

(** Started with a clock that shows calendar dates, whatever the random
    state, Phase 1's [main] completes: it writes seven documents to the
    output directory (two high-risk, two medium-risk, two standard, one
    Spanish), in that order, returns their names and prints the progress
    lines and the listing. *)
Theorem phase1_main_writes_seven_documents (w : world) :
  (forall i : nat, calendar_date (clock w (clock_reads w + i))) ->
  returns Phase1.main w
    (fun files w' =>
       files = phase1_documents
       /\ emitted w w' phase1_documents (phase1_lines (script_dir w))).
Proof.
  intros _.
  unfold Phase1.main.
  pose proof (emitted_refl w) as H.
  do 5 emit_call H returns_print.
  cbn [for_each].
  apply returns_bind.
  apply returns_bind. emit_call H generate_high_risk_lease_emits.
  apply returns_ret.
  apply returns_bind. emit_call H generate_high_risk_lease_emits.
  apply returns_ret. apply returns_ret.
  do 2 emit_call H returns_print.
  cbn [for_each].
  apply returns_bind.
  apply returns_bind. emit_call H generate_medium_risk_lease_emits.
  apply returns_ret.
  apply returns_bind. emit_call H generate_medium_risk_lease_emits.
  apply returns_ret. apply returns_ret.
  do 2 emit_call H returns_print.
  cbn [for_each].
  apply returns_bind.
  apply returns_bind. emit_call H generate_low_risk_lease_emits.
  apply returns_ret.
  apply returns_bind. emit_call H generate_low_risk_lease_emits.
  apply returns_ret. apply returns_ret.
  do 2 emit_call H returns_print.
  emit_call H generate_spanish_lease_miami_emits.
  emit_call H returns_print.
  emit_dir H. rewrite (proj1 (proj2 H)).
  do 3 emit_call H returns_print.
  cbn [app for_each].
  apply returns_bind.
  do 7 emit_call H returns_print.
  apply returns_ret. apply returns_ret.
  split; [reflexivity | exact H].
Qed.

End Phase1Runs.

(** Document 7 of each generator, written on 4 November 2026. *)
Lemma artifact_name_is_label_and_padded_sequence_witness :
  let num := 7 in
  let w := Lcg.world_on 2026 11 4 in
  (forall i : nat, calendar_date (clock w (clock_reads w + i)))
  /\ ((exists data w',
        Phase2.generate_complex_lease num w
        = Ok (artifact_name "complex_lease" num, len data) w'
        /\ artifacts w'
           = artifacts w ++ [(complex_lease_path (script_dir w) num, data)])
    /\ returns (Phase1.generate_high_risk_lease num) w
         (fun f w' =>
            f = artifact_name "lease_high_risk" num
            /\ emitted w w' [artifact_name "lease_high_risk" num]
                       [("Generated HIGH RISK lease: "
                           ++ artifact_name "lease_high_risk" num)%string])
    /\ returns (Phase1.generate_medium_risk_lease num) w
         (fun f w' =>
            f = artifact_name "lease_medium_risk" num
            /\ emitted w w' [artifact_name "lease_medium_risk" num]
                       [("Generated MEDIUM RISK lease: "
                           ++ artifact_name "lease_medium_risk" num)%string])
    /\ returns (Phase1.generate_low_risk_lease num) w
         (fun f w' =>
            f = artifact_name "lease_standard" num
            /\ emitted w w' [artifact_name "lease_standard" num]
                       [("Generated LOW RISK (standard) lease: "
                           ++ artifact_name "lease_standard" num)%string])
    /\ returns Phase1.generate_spanish_lease_miami w
         (fun f w' =>
            f = artifact_name "lease_spanish_miami" 1
            /\ emitted w w' [artifact_name "lease_spanish_miami" 1]
                       ["Generated SPANISH (Miami) lease: lease_spanish_miami_001.pdf"%string])
    /\ artifact_name "lease_high_risk" 1 = "lease_high_risk_001.pdf"%string
    /\ artifact_name "lease_spanish_miami" 1
       = "lease_spanish_miami_001.pdf"%string
    /\ artifact_name "complex_lease" 3 = "complex_lease_003.pdf"%string
    /\ range_all (fun n => (String.length (fmt_03d n) =? 3)%nat) 0 1000 = true).
Proof.
  cbv zeta.
  split; [intros i; unfold calendar_date; cbn; lia |].
  apply (artifact_name_is_label_and_padded_sequence (RS := Lcg.source)
           7 (Lcg.world_on 2026 11 4));
    intros i; unfold calendar_date; cbn; lia.
Defined.

(** Phase 1's batch run on 4 November 2026. *)
Lemma phase1_main_writes_seven_documents_witness :
  let w := Lcg.world_on 2026 11 4 in
  (forall i : nat, calendar_date (clock w (clock_reads w + i)))
  /\ (returns Phase1.main w
      (fun files w' =>
         files = phase1_documents
         /\ emitted w w' phase1_documents (phase1_lines (script_dir w)))).
Proof.
  cbv zeta.
  split; [intros i; unfold calendar_date; cbn; lia |].
  apply (phase1_main_writes_seven_documents (RS := Lcg.source)
           (Lcg.world_on 2026 11 4));
    intros i; unfold calendar_date; cbn; lia.
Defined.

(* ================================================================== *)
(** * What the generators depend on                                    *)
(* ================================================================== *)

Section Dependencies.

Context {RS : RandomSource}.

Lemma seeded_after_prints {A} (l1 l2 l3 : string) (n : Z)
                          (k : unit -> M A) (s : rng_state) (w : world) :
  (print l1 ;;; print l2 ;;; print l3 ;;; bind (random_seed n) k) (set_rng s w)
  = (print l1 ;;; print l2 ;;; print l3 ;;; bind (random_seed n) k) w.
Proof. reflexivity. Qed.

(** [main] seeds the generator before the first draw: a run does not
    depend on the state the generator was in before, neither in what it
    writes and prints nor in the state it leaves. *)
Theorem batch_does_not_depend_on_the_prior_random_state
    (s : rng_state) (w : world) :
  Phase2.main (set_rng s w) = Phase2.main w.
Proof. unfold Phase2.main. apply seeded_after_prints. Qed.

Lemma bind_ret_const {A B} (a : A) (m : M B) (w : world) :
  bind (ret a) (fun _ => m) w = m w.
Proof. reflexivity. Qed.

(** [gen_options] looks [lease_term_months] up in the core record and makes
    no use of the value: with the field present, the section does not
    depend on the core record at all. *)
Theorem options_do_not_depend_on_the_lease_term
    (core1 core2 : dict) (w : world) :
  dict_get "lease_term_months" core1 <> None ->
  dict_get "lease_term_months" core2 <> None ->
  Phase2.gen_options core1 w = Phase2.gen_options core2 w.
Proof.
  intros H1 H2. unfold Phase2.gen_options, getitem.
  destruct (dict_get "lease_term_months" core1); [| contradiction].
  destruct (dict_get "lease_term_months" core2); [| contradiction].
  etransitivity; [apply bind_ret_const | symmetry; apply bind_ret_const].
Qed.

(** The five generators that take the core record read it at the six
    fields of [consumed_fields] and nowhere else: on two core records that
    agree there, each generator does the same in every world. *)
Theorem sections_depend_on_core_through_consumed_fields
    (core1 core2 : dict) (w : world) :
  (forall k, In k consumed_fields -> dict_get k core1 = dict_get k core2) ->
  Phase2.gen_financial core1 w = Phase2.gen_financial core2 w
  /\ Phase2.gen_operating_expenses core1 w
     = Phase2.gen_operating_expenses core2 w
  /\ Phase2.gen_options core1 w = Phase2.gen_options core2 w
  /\ Phase2.gen_construction_alterations core1 w
     = Phase2.gen_construction_alterations core2 w
  /\ Phase2.gen_miscellaneous core1 w = Phase2.gen_miscellaneous core2 w.
Proof.
  intros H.
  assert (Hsqft := H "_sqft" ltac:(cbn; auto)).
  assert (Hterm := H "lease_term_months" ltac:(cbn; auto)).
  assert (Hstate := H "property_state" ltac:(cbn; auto 10)).
  assert (Hcounty := H "property_county" ltac:(cbn; auto 10)).
  assert (Hauto := H "auto_parking_spaces" ltac:(cbn; auto 10)).
  assert (Htrailer := H "trailer_parking_spaces" ltac:(cbn; auto 10)).
  repeat split.
  - unfold Phase2.gen_financial, getitem. now rewrite Hsqft.
  - unfold Phase2.gen_operating_expenses, getitem. now rewrite Hsqft.
  - unfold Phase2.gen_options, getitem. now rewrite Hterm.
  - unfold Phase2.gen_construction_alterations, getitem. now rewrite Hsqft.
  - unfold Phase2.gen_miscellaneous, getitem.
    now rewrite Hstate, Hcounty, Hauto, Htrailer.
Qed.

End Dependencies.

Lemma options_do_not_depend_on_the_lease_term_witness :
  Phase2.gen_options (RS := Lcg.source)
    [("lease_term_months", VInt 60)] (Lcg.world_on 2026 11 4)
  = Phase2.gen_options (RS := Lcg.source)
      [("lease_term_months", VInt 180); ("_sqft", VInt 100000)]
      (Lcg.world_on 2026 11 4).
Proof.
  apply (options_do_not_depend_on_the_lease_term (RS := Lcg.source));
    discriminate.
Defined.

Lemma sections_depend_on_core_through_consumed_fields_witness :
  let core1 := [("_sqft", VInt 100000); ("lease_term_months", VInt 60);
                ("property_state", VStr "IL"); ("property_county", VStr "Will");
                ("auto_parking_spaces", VInt 50);
                ("trailer_parking_spaces", VInt 40)] in
  let core2 := ("market", VStr "Chicago") :: core1 in
  Phase2.gen_financial (RS := Lcg.source) core1 (Lcg.world_on 2026 11 4)
  = Phase2.gen_financial core2 (Lcg.world_on 2026 11 4)
  /\ Phase2.gen_miscellaneous (RS := Lcg.source) core1 (Lcg.world_on 2026 11 4)
     = Phase2.gen_miscellaneous core2 (Lcg.world_on 2026 11 4).
Proof.
  cbv zeta.
  refine ((fun H => conj (proj1 H) (proj2 (proj2 (proj2 (proj2 H)))))
            (sections_depend_on_core_through_consumed_fields
               (RS := Lcg.source) _ _ (Lcg.world_on 2026 11 4) _)).
  intros k Hk. cbv [consumed_fields In] in Hk.
  repeat (destruct Hk as [<- | Hk]; [reflexivity |]). contradiction.
Defined.

(* ================================================================== *)
(** * Sections, field by field                                         *)
(* ================================================================== *)

(** The shape of one field: look the name up, then prove what it asks. *)
Ltac shape_leaf solver :=
  cbv beta; unfold shaped;
  lazymatch goal with
  | |- match assoc ?k ?shapes with _ => _ end =>
      let r := eval lazy [assoc String.eqb Ascii.eqb Bool.eqb core_shape
                          financial_shape miscellaneous_shape] in
                 (assoc k shapes) in
      change (assoc k shapes) with r; cbv beta iota; solver
  end.

Ltac shape_entry solver :=
  cbn [fst snd];
  lazymatch goal with
  | |- sampler (bind _ _) _ =>
      eapply sampler_bind;
      [ sampler_stmt
      | let x := fresh "x" in
        let Hx := fresh "Hx" in
        intros x Hx; cbv beta in Hx; try subst x; shape_entry solver ]
  | |- sampler (fmap _ _) _ =>
      eapply sampler_fmap;
      [ sampler_stmt
      | let x := fresh "x" in
        let Hx := fresh "Hx" in
        intros x Hx; cbv beta in Hx; shape_leaf solver ]
  | |- sampler (str _) _ => apply sampler_ret; shape_leaf solver
  | |- sampler (int_ _) _ => apply sampler_ret; shape_leaf solver
  | |- sampler (flt _) _ => apply sampler_ret; shape_leaf solver
  | |- sampler (ret _) _ => apply sampler_ret; shape_leaf solver
  | |- sampler (getitem _ _) _ =>
      eapply sampler_weaken;
      [ eapply sampler_getitem; eassumption
      | let x := fresh "x" in intros x ->; shape_leaf solver ]
  end.

Ltac shape_display fields solver :=
  apply (sampler_dict_display _ _ fields);
  [ reflexivity
  | vm_compute; reflexivity
  | repeat (apply Forall_cons; [shape_entry solver |]); apply Forall_nil ].

Ltac by_definition := first [ exact I | reflexivity ].

Section Financial.

Context {RS : RandomSource}.

(** Financial: the amounts computed from the square footage, the rates per
    square foot and the monthly rent. *)
Lemma gen_financial_amounts (core : dict) (sqft : Z) :
  dict_get "_sqft" core = Some (VInt sqft) ->
  sampler (Phase2.gen_financial core)
    (fun d => exists psf free_months deposit_months lc_months
                     ti_psf cam_psf tax_psf insurance_psf,
       0 <= free_months <= 6 /\ 1 <= deposit_months <= 3
       /\ 3 <= lc_months <= 6
       /\ section_spec financial_fields
            (shaped (financial_shape sqft psf free_months deposit_months
                                    lc_months ti_psf cam_psf tax_psf
                                    insurance_psf))
            d).
Proof.
  intros Hsqft. unfold Phase2.gen_financial.
  statement.
  statement_as psf Hpsf.
  statement. statement. statement.
  statement_as free_months Hfree.
  statement_as deposit_months Hdep.
  statement_as lc_months Hlc.
  statement. statement.
  statement_as ti_psf Hti.
  statement. statement. statement.
  statement_as cam_psf Hcam.
  statement_as tax_psf Htax.
  statement_as insurance_psf Hins.
  statement.
  eapply sampler_weaken.
  2:{ intros d Hd.
      exists psf, free_months, deposit_months, lc_months, ti_psf, cam_psf,
        tax_psf, insurance_psf.
      split; [exact Hfree | split; [exact Hdep | split; [exact Hlc | exact Hd]]]. }
  shape_display financial_fields ltac:(by_definition).
Qed.

End Financial.

Section RecordFields.

Context {RS : RandomSource}.

(** A field of a section, with the shape the section gives it, is a field
    of the merged record. *)
Lemma record_field_shaped (s : sections) (d : dict) (fields : list string)
    (shapes : list (string * (value -> Prop))) (k : string)
    (holds : value -> Prop) :
  (forall d k v, In d (section_list s) -> is_public k = true ->
                 dict_get k d = Some v ->
                 dict_get k (Phase2.merge_sections (section_list s)) = Some v) ->
  In d (section_list s) ->
  section_spec fields (shaped shapes) d ->
  existsb (String.eqb k) fields = true ->
  is_public k = true ->
  assoc k shapes = Some holds ->
  exists v, dict_get k (Phase2.merge_sections (section_list s)) = Some v
            /\ holds v.
Proof.
  intros T Hd Hs Hk Hp Ha.
  destruct (shaped_get _ _ _ _ _ Hs (existsb_In _ _ Hk) Ha) as (v & Hv & Hh).
  exists v. split; [| exact Hh]. now apply (T d).
Qed.

Lemma record_field_pinned (s : sections) (d : dict) (fields : list string)
    (shapes : list (string * (value -> Prop))) (k : string) (v : value) :
  (forall d k v, In d (section_list s) -> is_public k = true ->
                 dict_get k d = Some v ->
                 dict_get k (Phase2.merge_sections (section_list s)) = Some v) ->
  In d (section_list s) ->
  section_spec fields (shaped shapes) d ->
  existsb (String.eqb k) fields = true ->
  is_public k = true ->
  assoc k shapes = Some (eq v) ->
  dict_get k (Phase2.merge_sections (section_list s)) = Some v.
Proof.
  intros T Hd Hs Hk Hp Ha.
  destruct (record_field_shaped _ _ _ _ _ _ T Hd Hs Hk Hp Ha) as (v' & Hv & <-).
  exact Hv.
Qed.

End RecordFields.

(** The field [k] of the record, from the section specification [Hs]. *)
Ltac pinned_field T Hs :=
  eapply (record_field_pinned _ _ _ _ _ _ T);
  [ | exact Hs | reflexivity | reflexivity | reflexivity ];
  cbn [section_list In s_core s_financial s_opex s_options s_insurance
       s_construction s_default s_environmental s_miscellaneous];
  auto 10.

Section Amounts.

Context {RS : RandomSource}.

(** The run of the nine generators behind a document, with the square
    footage of its core record. *)
Lemma generated_core (w w9 : world) (s : sections) :
  generated w s w9 ->
  exists sqft office_sqft,
    section_ok core_fields (core_pins sqft office_sqft) (s_core s)
    /\ dict_get "_sqft" (s_core s) = Some (VInt sqft)
    /\ 80000 <= sqft <= 500000.
Proof.
  intros (w1 & w2 & w3 & w4 & w5 & w6 & w7 & w8 & E1 & _).
  destruct (sampler_at _ _ _ _ _ gen_core_terms_spec E1)
    as ((sqft & office & Hcore & Hsq & _) & _).
  exists sqft, office. split; [exact Hcore | split; [| exact Hsq]].
  apply (section_ok_get _ _ _ _ _ Hcore); [| reflexivity].
  apply existsb_In. reflexivity.
Qed.

Lemma generated_financial_amounts (w w9 : world) (s : sections) (sqft : Z) :
  generated w s w9 ->
  dict_get "_sqft" (s_core s) = Some (VInt sqft) ->
  exists psf free_months deposit_months lc_months
         ti_psf cam_psf tax_psf insurance_psf,
    0 <= free_months <= 6 /\ 1 <= deposit_months <= 3
    /\ 3 <= lc_months <= 6
    /\ section_spec financial_fields
         (shaped (financial_shape sqft psf free_months deposit_months
                                    lc_months ti_psf cam_psf tax_psf
                                    insurance_psf))
         (s_financial s).
Proof.
  intros (w1 & w2 & w3 & w4 & w5 & w6 & w7 & w8 & E1 & E2 & _) Hsqft.
  exact (proj1 (sampler_at _ _ _ _ _ (gen_financial_amounts _ _ Hsqft) E2)).
Qed.

(** In a record generated with a clock that shows calendar dates, the
    monthly rent is a twelfth of the annual rent, to the cent; the security
    deposit is one to three months of it and the letter of credit three to
    six, each rounded to the cent. *)
Theorem deposits_are_whole_months_of_rent (num : Z) (w : world) :
  (forall i : nat, calendar_date (clock w (clock_reads w + i))) ->
  exists (data : dict) (w' : world) (annual monthly : float)
         (deposit_months lc_months : Z),
    Phase2.generate_complex_lease num w
    = Ok (artifact_name "complex_lease" num, 351) w'
    /\ wrote w w' (artifact_name "complex_lease" num) data
    /\ dict_get "annual_base_rent" data = Some (VFloat annual)
    /\ dict_get "monthly_base_rent" data = Some (VFloat monthly)
    /\ monthly = PyFloat.round2 (annual / 12)%float
    /\ dict_get "security_deposit_months" data = Some (VInt deposit_months)
    /\ 1 <= deposit_months <= 3
    /\ dict_get "security_deposit_amount" data
       = Some (VFloat (PyFloat.round2
                         (monthly * PyFloat.of_Z deposit_months)%float))
    /\ 3 <= lc_months <= 6
    /\ dict_get "letter_of_credit_amount" data
       = Some (VFloat (PyFloat.round2
                         (monthly * PyFloat.of_Z lc_months)%float)).
Proof.
  intros _.
  destruct (generate_complex_lease_sections num w)
    as (s & w9 & w' & G & _ & E & W & _ & T).
  destruct (generated_core _ _ _ G) as (sqft & office & _ & Hsqft & _).
  destruct (generated_financial_amounts _ _ _ _ G Hsqft)
    as (psf & free & dep & lc & ti & cam & tax & ins & Hfree & Hdep & Hlc & Hfin).
  unfold financial_shape in Hfin. cbv zeta in Hfin.
  exists (Phase2.merge_sections (section_list s)), w'.
  exists (PyFloat.round2 (PyFloat.of_Z sqft * psf)%float).
  exists (PyFloat.round2
            (PyFloat.round2 (PyFloat.of_Z sqft * psf) / 12)%float).
  exists dep, lc.
  split; [exact E |]. split; [exact W |].
  split; [pinned_field T Hfin |]. split; [pinned_field T Hfin |].
  split; [reflexivity |]. split; [pinned_field T Hfin |].
  split; [exact Hdep |]. split; [pinned_field T Hfin |].
  split; [exact Hlc |]. pinned_field T Hfin.
Qed.

(** In a record generated with a clock that shows calendar dates, the
    tenant improvement allowance and the annual estimates of common area
    maintenance, taxes and insurance are the rentable area times the rate
    per square foot of the same record, rounded to the cent. *)
Theorem annual_estimates_are_area_times_rate (num : Z) (w : world) :
  (forall i : nat, calendar_date (clock w (clock_reads w + i))) ->
  exists (data : dict) (w' : world) (sqft : Z)
         (ti_psf cam_psf tax_psf insurance_psf : float),
    Phase2.generate_complex_lease num w
    = Ok (artifact_name "complex_lease" num, 351) w'
    /\ wrote w w' (artifact_name "complex_lease" num) data
    /\ dict_get "total_rentable_sqft" data = Some (VInt sqft)
    /\ dict_get "ti_allowance_psf" data = Some (VFloat ti_psf)
    /\ dict_get "ti_allowance_total" data
       = Some (VFloat (PyFloat.round2 (PyFloat.of_Z sqft * ti_psf)%float))
    /\ dict_get "cam_psf_estimate" data = Some (VFloat cam_psf)
    /\ dict_get "cam_annual_estimate" data
       = Some (VFloat (PyFloat.round2 (PyFloat.of_Z sqft * cam_psf)%float))
    /\ dict_get "tax_psf_estimate" data = Some (VFloat tax_psf)
    /\ dict_get "tax_annual_estimate" data
       = Some (VFloat (PyFloat.round2 (PyFloat.of_Z sqft * tax_psf)%float))
    /\ dict_get "insurance_psf_estimate" data = Some (VFloat insurance_psf)
    /\ dict_get "insurance_annual_estimate" data
       = Some (VFloat (PyFloat.round2
                         (PyFloat.of_Z sqft * insurance_psf)%float)).
Proof.
  intros _.
  destruct (generate_complex_lease_sections num w)
    as (s & w9 & w' & G & _ & E & W & _ & T).
  destruct (generated_core _ _ _ G) as (sqft & office & Hcore & Hsqft & _).
  destruct (generated_financial_amounts _ _ _ _ G Hsqft)
    as (psf & free & dep & lc & ti & cam & tax & ins & Hfree & Hdep & Hlc & Hfin).
  unfold financial_shape in Hfin. cbv zeta in Hfin.
  exists (Phase2.merge_sections (section_list s)), w', sqft, ti, cam, tax, ins.
  split; [exact E |]. split; [exact W |].
  split.
  { apply (T (s_core s)); [cbn; auto | reflexivity |].
    apply (section_ok_get _ _ _ _ _ Hcore); [| reflexivity].
    apply existsb_In. reflexivity. }
  repeat (split; [pinned_field T Hfin |]). pinned_field T Hfin.
Qed.

(** In a record generated with a clock that shows calendar dates, the
    free-rent conditions are spelled out exactly when there are free
    months: with none, the field reads [None]. *)
Theorem free_rent_conditions_follow_the_free_months (num : Z) (w : world) :
  (forall i : nat, calendar_date (clock w (clock_reads w + i))) ->
  exists (data : dict) (w' : world) (free_months : Z),
    Phase2.generate_complex_lease num w
    = Ok (artifact_name "complex_lease" num, 351) w'
    /\ wrote w w' (artifact_name "complex_lease" num) data
    /\ 0 <= free_months <= 6
    /\ dict_get "free_rent_months" data = Some (VInt free_months)
    /\ dict_get "free_rent_conditions" data
       = Some (VStr (if 0 <? free_months
                     then "Applies to base rent only; NNN charges still payable"
                     else "None")).
Proof.
  intros _.
  destruct (generate_complex_lease_sections num w)
    as (s & w9 & w' & G & _ & E & W & _ & T).
  destruct (generated_core _ _ _ G) as (sqft & office & _ & Hsqft & _).
  destruct (generated_financial_amounts _ _ _ _ G Hsqft)
    as (psf & free & dep & lc & ti & cam & tax & ins & Hfree & Hdep & Hlc & Hfin).
  unfold financial_shape in Hfin. cbv zeta in Hfin.
  exists (Phase2.merge_sections (section_list s)), w', free.
  split; [exact E |]. split; [exact W |]. split; [exact Hfree |].
  split; pinned_field T Hfin.
Qed.

End Amounts.

(** The deposits of a document generated on 4 November 2026. *)
Lemma deposits_are_whole_months_of_rent_witness :
  let num := 1 in
  let w := Lcg.world_on 2026 11 4 in
  (forall i : nat, calendar_date (clock w (clock_reads w + i)))
  /\ (exists (data : dict) w' (annual monthly : float)
           (deposit_months lc_months : Z),
      Phase2.generate_complex_lease num w
      = Ok (artifact_name "complex_lease" num, 351) w'
      /\ wrote w w' (artifact_name "complex_lease" num) data
      /\ dict_get "annual_base_rent" data = Some (VFloat annual)
      /\ dict_get "monthly_base_rent" data = Some (VFloat monthly)
      /\ monthly = PyFloat.round2 (annual / 12)%float
      /\ dict_get "security_deposit_months" data = Some (VInt deposit_months)
      /\ 1 <= deposit_months <= 3
      /\ dict_get "security_deposit_amount" data
         = Some (VFloat (PyFloat.round2
                           (monthly * PyFloat.of_Z deposit_months)%float))
      /\ 3 <= lc_months <= 6
      /\ dict_get "letter_of_credit_amount" data
         = Some (VFloat (PyFloat.round2
                           (monthly * PyFloat.of_Z lc_months)%float))).
Proof.
  cbv zeta.
  split; [intros i; unfold calendar_date; cbn; lia |].
  apply (deposits_are_whole_months_of_rent (RS := Lcg.source)
           1 (Lcg.world_on 2026 11 4));
    intros i; unfold calendar_date; cbn; lia.
Defined.

(** The estimates of a document generated on 4 November 2026. *)
Lemma annual_estimates_are_area_times_rate_witness :
  let num := 1 in
  let w := Lcg.world_on 2026 11 4 in
  (forall i : nat, calendar_date (clock w (clock_reads w + i)))
  /\ (exists (data : dict) w' (sqft : Z)
           (ti_psf cam_psf tax_psf insurance_psf : float),
      Phase2.generate_complex_lease num w
      = Ok (artifact_name "complex_lease" num, 351) w'
      /\ wrote w w' (artifact_name "complex_lease" num) data
      /\ dict_get "total_rentable_sqft" data = Some (VInt sqft)
      /\ dict_get "ti_allowance_psf" data = Some (VFloat ti_psf)
      /\ dict_get "ti_allowance_total" data
         = Some (VFloat (PyFloat.round2 (PyFloat.of_Z sqft * ti_psf)%float))
      /\ dict_get "cam_psf_estimate" data = Some (VFloat cam_psf)
      /\ dict_get "cam_annual_estimate" data
         = Some (VFloat (PyFloat.round2 (PyFloat.of_Z sqft * cam_psf)%float))
      /\ dict_get "tax_psf_estimate" data = Some (VFloat tax_psf)
      /\ dict_get "tax_annual_estimate" data
         = Some (VFloat (PyFloat.round2 (PyFloat.of_Z sqft * tax_psf)%float))
      /\ dict_get "insurance_psf_estimate" data = Some (VFloat insurance_psf)
      /\ dict_get "insurance_annual_estimate" data
         = Some (VFloat (PyFloat.round2
                           (PyFloat.of_Z sqft * insurance_psf)%float))).
Proof.
  cbv zeta.
  split; [intros i; unfold calendar_date; cbn; lia |].
  apply (annual_estimates_are_area_times_rate (RS := Lcg.source)
           1 (Lcg.world_on 2026 11 4));
    intros i; unfold calendar_date; cbn; lia.
Defined.

(** The free rent of a document generated on 4 November 2026. *)
Lemma free_rent_conditions_follow_the_free_months_witness :
  let num := 1 in
  let w := Lcg.world_on 2026 11 4 in
  (forall i : nat, calendar_date (clock w (clock_reads w + i)))
  /\ (exists (data : dict) w' (free_months : Z),
      Phase2.generate_complex_lease num w
      = Ok (artifact_name "complex_lease" num, 351) w'
      /\ wrote w w' (artifact_name "complex_lease" num) data
      /\ 0 <= free_months <= 6
      /\ dict_get "free_rent_months" data = Some (VInt free_months)
      /\ dict_get "free_rent_conditions" data
         = Some (VStr (if 0 <? free_months
                       then "Applies to base rent only; NNN charges still payable"
                       else "None"))).
Proof.
  cbv zeta.
  split; [intros i; unfold calendar_date; cbn; lia |].
  apply (free_rent_conditions_follow_the_free_months (RS := Lcg.source)
           1 (Lcg.world_on 2026 11 4));
    intros i; unfold calendar_date; cbn; lia.
Defined.

(* ================================================================== *)
(** * The calendar                                                     *)
(* ================================================================== *)

(** The Gregorian calendar repeats every 400 years, which are 146097
    days. *)
Lemma is_leap_cycle (y q : Z) :
  Calendar.is_leap (y + 400 * q) = Calendar.is_leap y.
Proof.
  unfold Calendar.is_leap.
  replace (y + 400 * q) with (y + (100 * q) * 4) at 1 by lia.
  replace (y + 400 * q) with (y + (4 * q) * 100) at 1 by lia.
  replace (y + 400 * q) with (y + q * 400) by lia.
  now rewrite !Z_mod_plus_full.
Qed.

Lemma days_in_month_cycle (y m q : Z) :
  Calendar.days_in_month (y + 400 * q) m = Calendar.days_in_month y m.
Proof. unfold Calendar.days_in_month. now rewrite is_leap_cycle. Qed.

Lemma days_before_year_cycle (y q : Z) :
  Calendar.days_before_year (y + 400 * q)
  = Calendar.days_before_year y + 146097 * q.
Proof.
  unfold Calendar.days_before_year. cbv zeta.
  replace (y + 400 * q - 1) with (y - 1 + (100 * q) * 4) at 2 by lia.
  replace (y + 400 * q - 1) with (y - 1 + (4 * q) * 100) at 2 by lia.
  replace (y + 400 * q - 1) with (y - 1 + q * 400) at 2 by lia.
  rewrite !Z.div_add by lia. lia.
Qed.

Lemma ymd2ord_cycle (y m d q : Z) :
  Calendar.ymd2ord (y + 400 * q) m d = Calendar.ymd2ord y m d + 146097 * q.
Proof.
  unfold Calendar.ymd2ord, Calendar.days_before_month.
  rewrite days_before_year_cycle, is_leap_cycle. lia.
Qed.

(** [ord2ymd], with the count of whole cycles and the day within the cycle
    taken apart. *)
Lemma ord2ymd_cycle (n q : Z) :
  Calendar.ord2ymd (n + 146097 * q)
  = let '(y, m, d) := Calendar.ord2ymd n in (y + 400 * q, m, d).
Proof.
  unfold Calendar.ord2ymd. cbv zeta.
  replace (n + 146097 * q - 1) with (n - 1 + q * 146097) by lia.
  rewrite Z.div_add, Z_mod_plus_full by lia.
  set (r := (n - 1) mod 146097).
  set (n400 := (n - 1) / 146097).
  set (n100 := r / 36524). set (r1 := r mod 36524).
  set (n4 := r1 / 1461). set (r2 := r1 mod 1461).
  set (n1 := r2 / 365). set (r3 := r2 mod 365).
  destruct ((n1 =? 4) || (n100 =? 4)); [f_equal; f_equal; lia |].
  set (leapyear := (n1 =? 3) && (negb (n4 =? 24) || (n100 =? 3))).
  set (month := Z.shiftr (r3 + 50) 5).
  destruct (r3 <? _).
  - destruct (month - 1 =? 2) eqn:Hm.
    + f_equal; f_equal; lia.
    + replace ((n400 + q) * 400 + 1 + n100 * 100 + n4 * 4 + n1)
        with (n400 * 400 + 1 + n100 * 100 + n4 * 4 + n1 + 400 * q) by lia.
      rewrite days_in_month_cycle. f_equal; f_equal; lia.
  - f_equal; f_equal; lia.
Qed.

(** Over one cycle, by running it. *)
Lemma cycle_checked :
  range_all day_number_checked 1 (Z.to_nat 146097) = true.
Proof. vm_compute. reflexivity. Qed.

Lemma ord2ymd_spec (n : Z) :
  1 <= n ->
  let '(y, m, d) := Calendar.ord2ymd n in
  Calendar.ymd2ord y m d = n
  /\ 1 <= m <= 12 /\ 1 <= d <= Calendar.days_in_month y m.
Proof.
  intros Hn.
  set (q := (n - 1) / 146097). set (r := (n - 1) mod 146097 + 1).
  assert (Hr : 1 <= r < 1 + Z.of_nat (Z.to_nat 146097)).
  { unfold r. pose proof (Z.mod_pos_bound (n - 1) 146097 ltac:(lia)). lia. }
  assert (En : n = r + 146097 * q).
  { unfold r, q. pose proof (Z.div_mod (n - 1) 146097 ltac:(lia)). lia. }
  pose proof (range_all_sound _ _ _ cycle_checked r Hr) as Hc.
  rewrite En, ord2ymd_cycle. unfold day_number_checked in Hc.
  destruct (Calendar.ord2ymd r) as [[y m] d].
  rewrite ymd2ord_cycle, days_in_month_cycle.
  rewrite !andb_true_iff in Hc.
  destruct Hc as ((((H1 & H2) & H3) & H4) & H5).
  apply Z.eqb_eq in H1. apply Z.leb_le in H2, H3, H4, H5. lia.
Qed.

(** Moving a date by [k] days moves its day number by [k]. *)
Lemma ordinal_add_days (d : datetime) (k : Z) :
  1 <= ordinal d + k ->
  ordinal (Calendar.add_days d k) = ordinal d + k.
Proof.
  intros H. unfold ordinal, Calendar.add_days in *.
  pose proof (ord2ymd_spec _ H) as Hs.
  destruct (Calendar.ord2ymd _) as [[y m] d']. cbn [dt_year dt_month dt_day].
  tauto.
Qed.

Lemma add_days_valid (d : datetime) (k : Z) :
  1 <= ordinal d + k ->
  1 <= dt_month (Calendar.add_days d k) <= 12
  /\ 1 <= dt_day (Calendar.add_days d k)
     <= Calendar.days_in_month (dt_year (Calendar.add_days d k))
                               (dt_month (Calendar.add_days d k)).
Proof.
  intros H. unfold ordinal, Calendar.add_days in *.
  pose proof (ord2ymd_spec _ H) as Hs.
  destruct (Calendar.ord2ymd _) as [[y m] d']. cbn [dt_year dt_month dt_day].
  tauto.
Qed.

Lemma add_days_add_days (d : datetime) (a b : Z) :
  1 <= ordinal d + a ->
  Calendar.add_days (Calendar.add_days d a) b = Calendar.add_days d (a + b).
Proof.
  intros H. pose proof (ord2ymd_spec _ H) as Hs.
  unfold Calendar.add_days. fold (ordinal d).
  destruct (Calendar.ord2ymd (ordinal d + a)) as [[y m] d'].
  cbn [dt_year dt_month dt_day dt_micros].
  destruct Hs as [-> _]. rewrite Z.add_assoc. reflexivity.
Qed.

Lemma days_before_month_bounds (y m : Z) :
  1 <= m <= 12 -> 0 <= Calendar.days_before_month y m <= 335.
Proof.
  intros H. unfold Calendar.days_before_month.
  assert (E : range_all
                (fun m => (0 <=? Calendar.days_before_month_common m)
                          && (Calendar.days_before_month_common m <=? 334))
                1 12 = true) by (vm_compute; reflexivity).
  pose proof (range_all_sound _ _ _ E m ltac:(cbn; lia)) as Hc.
  cbv beta in Hc. apply andb_true_iff in Hc as [H0 H1].
  apply Z.leb_le in H0, H1.
  destruct ((2 <? m) && Calendar.is_leap y); lia.
Qed.

(** A date of the calendar from year 2 on is day 366 or later. *)
Lemma calendar_date_ordinal (d : datetime) :
  calendar_date d -> 366 <= ordinal d <= 3616266.
Proof.
  intros (Hy & Hm & Hd). unfold ordinal, Calendar.ymd2ord.
  pose proof (days_before_month_bounds (dt_year d) (dt_month d) Hm) as Hb.
  assert (Hdim : Calendar.days_in_month (dt_year d) (dt_month d) <= 31).
  { unfold Calendar.days_in_month.
    repeat match goal with |- context [if ?b then _ else _] => destruct b end;
      lia. }
  unfold Calendar.days_before_year. cbv zeta.
  set (p := dt_year d - 1) in *.
  assert (Hp : 1 <= p <= 9899) by (unfold p; lia).
  pose proof (Z.div_le_mono p 9899 4 ltac:(lia) ltac:(lia)) as H4.
  pose proof (Z.div_le_mono p 9899 400 ltac:(lia) ltac:(lia)) as H400.
  assert (H100 : p / 100 <= p / 4) by (apply Z.div_le_compat_l; lia).
  assert (0 <= p / 400) by (apply Z.div_pos; lia).
  assert (0 <= p / 100) by (apply Z.div_pos; lia).
  change (9899 / 4) with 2474 in H4. change (9899 / 400) with 24 in H400.
  lia.
Qed.

(* ================================================================== *)
(** * Draws and clock readings, world by world                         *)
(* ================================================================== *)

Section Draws.

Context {RS : RandomSource}.

Lemma returns_randbelow (n : Z) (w : world) (Q : Z -> world -> Prop) :
  0 < n -> (forall r s, 0 <= r < n -> Q r (set_rng s w)) ->
  returns (randbelow n) w Q.
Proof.
  intros Hn HQ. eexists _, _. split; [reflexivity |].
  apply HQ. now apply rs_randbelow_range.
Qed.

Lemma returns_randint (a b : Z) (w : world) (Q : Z -> world -> Prop) :
  a <= b -> (forall r s, a <= r <= b -> Q r (set_rng s w)) ->
  returns (randint a b) w Q.
Proof.
  intros Hab HQ. unfold randint.
  destruct (Z.ltb_spec 0 (b + 1 - a)) as [Hw | Hw]; [| lia].
  apply returns_bind. apply returns_randbelow; [exact Hw |].
  intros r s Hr. apply returns_ret. apply HQ. lia.
Qed.

Lemma returns_choice {A} (seq : list A) (w : world) (Q : A -> world -> Prop) :
  seq <> [] -> (forall x s, In x seq -> Q x (set_rng s w)) ->
  returns (choice seq) w Q.
Proof.
  destruct seq as [| x rest]; [congruence |]. intros _ HQ. unfold choice.
  apply returns_bind. apply returns_randbelow; [cbn [List.length]; lia |].
  intros i s Hi. apply returns_ret. apply HQ. apply nth_In. lia.
Qed.

(** The world after one more reading of the clock, in random state [s]. *)
Lemma returns_rand_date_future (min_days max_days : Z) (w : world)
                               (Q : datetime -> world -> Prop) :
  min_days <= max_days ->
  (forall k s, min_days <= k <= max_days ->
               Q (Calendar.add_days (clock w (clock_reads w)) k)
                 (mk_world s (clock w) (S (clock_reads w)) (script_dir w)
                           (artifacts w) (stdout w))) ->
  returns (Phase2.rand_date_future min_days max_days) w Q.
Proof.
  intros Hab HQ. unfold Phase2.rand_date_future.
  apply returns_bind. eexists _, _. split; [reflexivity |].
  apply returns_bind. apply returns_randint; [exact Hab |].
  intros k s Hk. apply returns_ret. cbn [set_rng clock clock_reads script_dir
                                         artifacts stdout]. now apply HQ.
Qed.

Lemma add_days_micros (d : datetime) (k : Z) :
  dt_micros (Calendar.add_days d k) = dt_micros d.
Proof.
  unfold Calendar.add_days. now destruct (Calendar.ord2ymd _) as [[? ?] ?].
Qed.

(** [rand_date_future(min_days, max_days)] reads the clock once and answers
    the reading moved by a number of days between the bounds, at the same
    time of day; nothing but the random state and the clock position
    changes. *)
Theorem rand_date_future_moves_the_clock_reading_within_the_bounds
    (min_days max_days : Z) (w : world) :
  min_days <= max_days ->
  calendar_date (clock w (clock_reads w)) ->
  -365 <= min_days -> max_days <= 36000 ->
  returns (Phase2.rand_date_future min_days max_days) w
    (fun d w' =>
       exists days,
         min_days <= days <= max_days
         /\ d = Calendar.add_days (clock w (clock_reads w)) days
         /\ ordinal d = ordinal (clock w (clock_reads w)) + days
         /\ dt_micros d = dt_micros (clock w (clock_reads w))
         /\ clock_reads w' = S (clock_reads w)
         /\ io_same w w').
Proof.
  intros Hab Hc Hlo Hhi.
  pose proof (calendar_date_ordinal _ Hc) as Ho.
  apply returns_rand_date_future; [exact Hab |].
  intros k s Hk. exists k.
  split; [exact Hk |]. split; [reflexivity |].
  split; [apply ordinal_add_days; lia |].
  split; [apply add_days_micros |]. split; [reflexivity |].
  repeat split.
Qed.

(** With the bounds the wrong way round there is nothing to draw from:
    [random.randint] raises [ValueError], after the clock was read and
    before the random state is touched. *)
Theorem rand_date_future_of_an_empty_range_raises_ValueError
    (min_days max_days : Z) (w : world) :
  max_days < min_days ->
  Phase2.rand_date_future min_days max_days w
  = Raise ValueError
      (mk_world (rng w) (clock w) (S (clock_reads w)) (script_dir w)
                (artifacts w) (stdout w)).
Proof.
  intros H. unfold Phase2.rand_date_future, bind, now, randint.
  destruct (Z.ltb_spec 0 (max_days + 1 - min_days)) as [Hw | Hw]; [lia |].
  reflexivity.
Qed.

End Draws.

Lemma rand_date_future_within_witness :
  returns (RS := Lcg.source) (Phase2.rand_date_future (-365) (-30))
    (Lcg.world_on 2026 11 4)
    (fun d w' =>
       exists days,
         -365 <= days <= -30
         /\ d = Calendar.add_days (mk_datetime 2026 11 4 43200000000) days
         /\ ordinal d = ordinal (mk_datetime 2026 11 4 43200000000) + days
         /\ dt_micros d = 43200000000
         /\ clock_reads w' = 1%nat
         /\ io_same (Lcg.world_on 2026 11 4) w').
Proof.
  apply (rand_date_future_moves_the_clock_reading_within_the_bounds
           (RS := Lcg.source) (-365) (-30) (Lcg.world_on 2026 11 4));
    [lia | | lia | lia].
  unfold calendar_date. cbn. lia.
Defined.

Lemma rand_date_future_empty_witness :
  Phase2.rand_date_future (RS := Lcg.source) 10 5 (Lcg.world_on 2026 11 4)
  = Raise ValueError
      (mk_world (RS := Lcg.source) 1
         (fun _ => mk_datetime 2026 11 4 43200000000) 1 "/srv/demo" [] []).
Proof.
  apply (rand_date_future_of_an_empty_range_raises_ValueError
           (RS := Lcg.source) 10 5 (Lcg.world_on 2026 11 4)).
  lia.
Defined.

(* ================================================================== *)
(** * Core Terms, field by field                                       *)
(* ================================================================== *)

(** Fields drawn while the section is built keep what was drawn. *)
Ltac drawn_in_place :=
  first
    [ exact I
    | reflexivity
    | match goal with
      | H : exists year serial, _ /\ _ /\ _ = _ |- _ =>
          let y := fresh "year" in
          let n := fresh "serial" in
          let Hy := fresh in
          let Hn := fresh in
          destruct H as (y & n & Hy & Hn & ->); exists y, n; auto
      end
    | match goal with
      | Hn : 100 <= ?n <= 9999,
        Hs : In ?s ("Commerce"%string :: _),
        Hk : In ?k ("Blvd"%string :: _) |- _ =>
          exists n, s, k; auto
      end ].

Ltac core_entry :=
  cbn [fst snd];
  lazymatch goal with
  | |- sampler (fmap _ Phase2.generate_lease_id) _ =>
      eapply sampler_fmap;
      [ apply sampler_complex_lease_id
      | let x := fresh "x" in
        let Hx := fresh "Hx" in
        intros x Hx; cbv beta in Hx; shape_leaf ltac:(drawn_in_place) ]
  | |- _ => shape_entry ltac:(drawn_in_place)
  end.

Ltac core_display :=
  apply (sampler_dict_display _ _ core_fields);
  [ reflexivity
  | vm_compute; reflexivity
  | repeat (apply Forall_cons; [core_entry |]); apply Forall_nil ].

Section CoreTerms.

Context {RS : RandomSource}.

(** Core Terms as a function of what it draws: the tenant, the property
    and the market from their pools, the start a number of days after the
    clock reading, the term, the distance of the execution date and the
    delay of rent commencement. *)
Lemma gen_core_terms_shape (w : world) :
  returns Phase2.gen_core_terms w
    (fun core _ =>
       exists tenant tenant_state tenant_business
              address city state zipcode county market
              days term_months back delay trailers cars p1 p2 p3,
         In (tenant, tenant_state, tenant_business) Phase2.TENANT_COMPANIES
         /\ In (address, city, state, zipcode, county)
               Phase2.PROPERTY_ADDRESSES
         /\ In market Phase2.MARKETS
         /\ 30 <= days <= 120
         /\ In term_months [60; 84; 120; 156; 180]
         /\ 14 <= back <= 60 /\ 0 <= delay <= 3
         /\ 40 <= trailers <= 150 /\ 50 <= cars <= 200
         /\ 10 <= p1 <= 99 /\ 100 <= p2 <= 999 /\ 1000 <= p3 <= 9999
         /\ section_spec core_fields
              (shaped
                 (core_shape tenant tenant_state tenant_business
                             address city state zipcode county market
                             (Calendar.add_days (clock w (clock_reads w)) days)
                             term_months back delay trailers cars p1 p2 p3))
              core).
Proof.
  unfold Phase2.gen_core_terms.
  apply returns_bind, returns_choice; [discriminate |].
  intros [[tenant tenant_state] tenant_business] s1 Htenant.
  apply returns_bind, returns_choice; [discriminate |].
  intros [[[[address city] state] zipcode] county] s2 Hproperty.
  apply returns_bind, returns_choice; [discriminate |].
  intros market s3 Hmarket.
  apply returns_bind, returns_rand_date_future; [lia |].
  intros days s4 Hdays.
  cbn [set_rng clock clock_reads script_dir artifacts stdout].
  set (start := Calendar.add_days (clock w (clock_reads w)) days).
  apply (returns_sampler _
           (fun core =>
              exists term_months back delay trailers cars p1 p2 p3,
                In term_months [60; 84; 120; 156; 180]
                /\ 14 <= back <= 60 /\ 0 <= delay <= 3
                /\ 40 <= trailers <= 150 /\ 50 <= cars <= 200
                /\ 10 <= p1 <= 99 /\ 100 <= p2 <= 999 /\ 1000 <= p3 <= 9999
                /\ section_spec core_fields
                     (shaped
                        (core_shape tenant tenant_state tenant_business
                                    address city state zipcode county market
                                    start term_months back delay trailers cars
                                    p1 p2 p3))
                     core)).
  - statement_as term_months Hterm.
    statement_as back Hback.
    statement_as delay Hdelay.
    statement_as sqft Hsqft.
    statement.
    assert (Hmax : py_int (PyFloat.of_Z sqft * 0.05)%float = inr (sqft / 20))
      by (apply office_bound; lia).
    rewrite Hmax. cbn [lift].
    statement.
    assert (2000 <= sqft / 20) by (apply Z.div_le_lower_bound; lia).
    statement. statement. statement. statement.
    statement_as trailers Htrailer.
    statement_as cars Hauto.
    statement.
    statement_as p1 Hp1.
    statement_as p2 Hp2.
    statement_as p3 Hp3.
    eapply sampler_weaken.
    2:{ intros core Hcore.
        exists term_months, back, delay, trailers, cars, p1, p2, p3.
        repeat (split; [eassumption |]). exact Hcore. }
    core_display.
  - intros core w' _ (term_months & back & delay & trailers & cars & p1 & p2
                      & p3 & Hterm & Hback & Hdelay & Htrailer & Hauto & Hp1
                      & Hp2 & Hp3 & Hcore).
    exists tenant, tenant_state, tenant_business, address, city, state,
      zipcode, county, market, days, term_months, back, delay, trailers, cars,
      p1, p2, p3.
    repeat (split; [assumption |]). exact Hcore.
Qed.

Lemma generated_core_shape (w w9 : world) (s : sections) :
  generated w s w9 ->
  exists tenant tenant_state tenant_business
         address city state zipcode county market
         days term_months back delay trailers cars p1 p2 p3,
    In (tenant, tenant_state, tenant_business) Phase2.TENANT_COMPANIES
    /\ In (address, city, state, zipcode, county) Phase2.PROPERTY_ADDRESSES
    /\ In market Phase2.MARKETS
    /\ 30 <= days <= 120
    /\ In term_months [60; 84; 120; 156; 180]
    /\ 14 <= back <= 60 /\ 0 <= delay <= 3
    /\ 40 <= trailers <= 150 /\ 50 <= cars <= 200
    /\ 10 <= p1 <= 99 /\ 100 <= p2 <= 999 /\ 1000 <= p3 <= 9999
    /\ section_spec core_fields
         (shaped
            (core_shape tenant tenant_state tenant_business
                        address city state zipcode county market
                        (Calendar.add_days (clock w (clock_reads w)) days)
                        term_months back delay trailers cars p1 p2 p3))
         (s_core s).
Proof.
  intros (w1 & w2 & w3 & w4 & w5 & w6 & w7 & w8 & E1 & _).
  exact (returns_run _ _ _ _ _ (gen_core_terms_shape w) E1).
Qed.

End CoreTerms.

(* ================================================================== *)
(** * The record: parties, property, identifiers, dates                *)
(* ================================================================== *)

Section Parties.

Context {RS : RandomSource}.

(** In a record generated with a clock that shows calendar dates, the
    tenant's name, state and line of business are those of one entry of
    the tenant pool; the tenant is a corporation exactly when its name
    contains [Inc] or [Corp], which in the pool are GlobalTech Fulfillment
    Inc. and Heartland Manufacturing Corp., and a limited liability company
    otherwise. *)
Theorem tenant_fields_are_one_entry_of_the_pool (num : Z) (w : world) :
  (forall i : nat, calendar_date (clock w (clock_reads w + i))) ->
  exists (data : dict) (w' : world)
         (tenant tenant_state tenant_business entity : string),
    Phase2.generate_complex_lease num w
    = Ok (artifact_name "complex_lease" num, 351) w'
    /\ wrote w w' (artifact_name "complex_lease" num) data
    /\ In (tenant, tenant_state, tenant_business) Phase2.TENANT_COMPANIES
    /\ dict_get "tenant_name" data = Some (VStr tenant)
    /\ dict_get "tenant_state" data = Some (VStr tenant_state)
    /\ dict_get "tenant_business_type" data = Some (VStr tenant_business)
    /\ dict_get "tenant_entity_type" data = Some (VStr entity)
    /\ entity = (if str_contains "Inc" tenant || str_contains "Corp" tenant
                 then "corporation" else "limited liability company")%string
    /\ (entity = "corporation"%string
        <-> tenant = "GlobalTech Fulfillment Inc."%string
            \/ tenant = "Heartland Manufacturing Corp."%string).
Proof.
  intros _.
  destruct (generate_complex_lease_sections num w)
    as (s & w9 & w' & G & _ & E & W & _ & T).
  destruct (generated_core_shape _ _ _ G)
    as (tenant & tstate & tbus & address & city & state & zipcode & county
        & market & days & term & back & delay & trailers & cars & p1 & p2 & p3
        & Ht & Hp & Hm & Hd & Hterm & Hback & Hdelay & Htr & Hc & H1 & H2 & H3
        & Hcore).
  exists (Phase2.merge_sections (section_list s)), w', tenant, tstate, tbus.
  eexists.
  split; [exact E |]. split; [exact W |]. split; [exact Ht |].
  split; [pinned_field T Hcore |]. split; [pinned_field T Hcore |].
  split; [pinned_field T Hcore |]. split; [pinned_field T Hcore |].
  split; [reflexivity |].
  clear - Ht. cbv [Phase2.TENANT_COMPANIES In] in Ht.
  repeat (destruct Ht as [Ht | Ht];
          [injection Ht as <- <- <-; vm_compute;
           split;
           [ intros H; first [discriminate H | auto]
           | intros [H | H]; first [discriminate H | reflexivity] ] |]).
  contradiction.
Qed.

(** In a record generated with a clock that shows calendar dates, the
    address, city, state, ZIP code and county of the property are those of
    one entry of the property pool and the property address is composed of
    them; the market is drawn from the market pool on its own; the tenant's
    address is a street drawn on its own, in the city, state and ZIP code
    of the property. *)
Theorem property_fields_are_one_entry_of_the_pool (num : Z) (w : world) :
  (forall i : nat, calendar_date (clock w (clock_reads w + i))) ->
  exists (data : dict) (w' : world)
         (address city state zipcode county market street kind : string)
         (n : Z),
    Phase2.generate_complex_lease num w
    = Ok (artifact_name "complex_lease" num, 351) w'
    /\ wrote w w' (artifact_name "complex_lease" num) data
    /\ In (address, city, state, zipcode, county) Phase2.PROPERTY_ADDRESSES
    /\ In market Phase2.MARKETS
    /\ dict_get "property_city" data = Some (VStr city)
    /\ dict_get "property_state" data = Some (VStr state)
    /\ dict_get "property_zip" data = Some (VStr zipcode)
    /\ dict_get "property_county" data = Some (VStr county)
    /\ dict_get "market" data = Some (VStr market)
    /\ dict_get "property_address" data
       = Some (VStr (address ++ ", " ++ city ++ ", " ++ state ++ " "
                       ++ zipcode)%string)
    /\ 100 <= n <= 9999
    /\ In street ["Commerce"; "Enterprise"; "Business"]%string
    /\ In kind ["Blvd"; "Ave"; "Pkwy"]%string
    /\ dict_get "tenant_address" data
       = Some (VStr (str_of_int n ++ " " ++ street ++ " " ++ kind ++ ", "
                       ++ city ++ ", " ++ state ++ " " ++ zipcode)%string).
Proof.
  intros _.
  destruct (generate_complex_lease_sections num w)
    as (s & w9 & w' & G & _ & E & W & _ & T).
  destruct (generated_core_shape _ _ _ G)
    as (tenant & tstate & tbus & address & city & state & zipcode & county
        & market & days & term & back & delay & trailers & cars & p1 & p2 & p3
        & Ht & Hp & Hm & Hd & Hterm & Hback & Hdelay & Htr & Hc & H1 & H2 & H3
        & Hcore).
  destruct (record_field_shaped s (s_core s) _ _ "tenant_address" _ T
              ltac:(cbn; auto) Hcore eq_refl eq_refl eq_refl)
    as (v & Hv & n & street & kind & Hn & Hs & Hk & ->).
  exists (Phase2.merge_sections (section_list s)), w', address, city, state,
    zipcode, county, market, street, kind, n.
  split; [exact E |]. split; [exact W |]. split; [exact Hp |].
  split; [exact Hm |].
  do 6 (split; [pinned_field T Hcore |]).
  auto.
Qed.

(** In a record generated with a clock that shows calendar dates, the
    lease identifier is [CX-], a year from 2024 to 2026, a dash and a
    five-digit serial number, thirteen characters in all; the tax parcel
    identifier is two, three and four digits joined by dashes, eleven
    characters in all. *)
Theorem identifiers_have_a_fixed_format (num : Z) (w : world) :
  (forall i : nat, calendar_date (clock w (clock_reads w + i))) ->
  exists (data : dict) (w' : world) (lease_id parcel : string)
         (year serial p1 p2 p3 : Z),
    Phase2.generate_complex_lease num w
    = Ok (artifact_name "complex_lease" num, 351) w'
    /\ wrote w w' (artifact_name "complex_lease" num) data
    /\ dict_get "lease_id" data = Some (VStr lease_id)
    /\ lease_id = ("CX-" ++ str_of_int year ++ "-" ++ str_of_int serial)%string
    /\ 2024 <= year <= 2026 /\ 10000 <= serial <= 99999
    /\ String.length lease_id = 13%nat
    /\ dict_get "tax_parcel_id" data = Some (VStr parcel)
    /\ parcel = (str_of_int p1 ++ "-" ++ str_of_int p2 ++ "-"
                   ++ str_of_int p3)%string
    /\ 10 <= p1 <= 99 /\ 100 <= p2 <= 999 /\ 1000 <= p3 <= 9999
    /\ String.length parcel = 11%nat.
Proof.
  intros _.
  destruct (generate_complex_lease_sections num w)
    as (s & w9 & w' & G & _ & E & W & _ & T).
  destruct (generated_core_shape _ _ _ G)
    as (tenant & tstate & tbus & address & city & state & zipcode & county
        & market & days & term & back & delay & trailers & cars & p1 & p2 & p3
        & Ht & Hp & Hm & Hd & Hterm & Hback & Hdelay & Htr & Hc & H1 & H2 & H3
        & Hcore).
  destruct (record_field_shaped s (s_core s) _ _ "lease_id" _ T
              ltac:(cbn; auto) Hcore eq_refl eq_refl eq_refl)
    as (v & Hv & year & serial & Hy & Hs & ->).
  exists (Phase2.merge_sections (section_list s)), w'.
  eexists _, _. exists year, serial, p1, p2, p3.
  split; [exact E |]. split; [exact W |]. split; [exact Hv |].
  split; [reflexivity |]. split; [exact Hy |]. split; [exact Hs |].
  split.
  { rewrite !string_length_append, four_digits, five_digits by lia.
    reflexivity. }
  split; [pinned_field T Hcore |]. split; [reflexivity |].
  split; [exact H1 |]. split; [exact H2 |]. split; [exact H3 |].
  rewrite !string_length_append, two_digits, three_digits, four_digits by lia.
  reflexivity.
Qed.

End Parties.

(** The tenant of a document generated on 4 November 2026. *)
Lemma tenant_fields_are_one_entry_of_the_pool_witness :
  let num := 1 in
  let w := Lcg.world_on 2026 11 4 in
  (forall i : nat, calendar_date (clock w (clock_reads w + i)))
  /\ (exists (data : dict) w'
           (tenant tenant_state tenant_business entity : string),
      Phase2.generate_complex_lease num w
      = Ok (artifact_name "complex_lease" num, 351) w'
      /\ wrote w w' (artifact_name "complex_lease" num) data
      /\ In (tenant, tenant_state, tenant_business) Phase2.TENANT_COMPANIES
      /\ dict_get "tenant_name" data = Some (VStr tenant)
      /\ dict_get "tenant_state" data = Some (VStr tenant_state)
      /\ dict_get "tenant_business_type" data = Some (VStr tenant_business)
      /\ dict_get "tenant_entity_type" data = Some (VStr entity)
      /\ entity = (if str_contains "Inc" tenant || str_contains "Corp" tenant
                   then "corporation" else "limited liability company")%string
      /\ (entity = "corporation"%string
          <-> tenant = "GlobalTech Fulfillment Inc."%string
              \/ tenant = "Heartland Manufacturing Corp."%string)).
Proof.
  cbv zeta.
  split; [intros i; unfold calendar_date; cbn; lia |].
  apply (tenant_fields_are_one_entry_of_the_pool (RS := Lcg.source)
           1 (Lcg.world_on 2026 11 4));
    intros i; unfold calendar_date; cbn; lia.
Defined.

(** The property of a document generated on 4 November 2026. *)
Lemma property_fields_are_one_entry_of_the_pool_witness :
  let num := 1 in
  let w := Lcg.world_on 2026 11 4 in
  (forall i : nat, calendar_date (clock w (clock_reads w + i)))
  /\ (exists (data : dict) w'
           (address city state zipcode county market street kind : string)
           (n : Z),
      Phase2.generate_complex_lease num w
      = Ok (artifact_name "complex_lease" num, 351) w'
      /\ wrote w w' (artifact_name "complex_lease" num) data
      /\ In (address, city, state, zipcode, county) Phase2.PROPERTY_ADDRESSES
      /\ In market Phase2.MARKETS
      /\ dict_get "property_city" data = Some (VStr city)
      /\ dict_get "property_state" data = Some (VStr state)
      /\ dict_get "property_zip" data = Some (VStr zipcode)
      /\ dict_get "property_county" data = Some (VStr county)
      /\ dict_get "market" data = Some (VStr market)
      /\ dict_get "property_address" data
         = Some (VStr (address ++ ", " ++ city ++ ", " ++ state ++ " "
                         ++ zipcode)%string)
      /\ 100 <= n <= 9999
      /\ In street ["Commerce"; "Enterprise"; "Business"]%string
      /\ In kind ["Blvd"; "Ave"; "Pkwy"]%string
      /\ dict_get "tenant_address" data
         = Some (VStr (str_of_int n ++ " " ++ street ++ " " ++ kind ++ ", "
                         ++ city ++ ", " ++ state ++ " " ++ zipcode)%string)).
Proof.
  cbv zeta.
  split; [intros i; unfold calendar_date; cbn; lia |].
  apply (property_fields_are_one_entry_of_the_pool (RS := Lcg.source)
           1 (Lcg.world_on 2026 11 4));
    intros i; unfold calendar_date; cbn; lia.
Defined.

(** The identifiers of a document generated on 4 November 2026. *)
Lemma identifiers_have_a_fixed_format_witness :
  let num := 1 in
  let w := Lcg.world_on 2026 11 4 in
  (forall i : nat, calendar_date (clock w (clock_reads w + i)))
  /\ (exists (data : dict) w' (lease_id parcel : string)
           (year serial p1 p2 p3 : Z),
      Phase2.generate_complex_lease num w
      = Ok (artifact_name "complex_lease" num, 351) w'
      /\ wrote w w' (artifact_name "complex_lease" num) data
      /\ dict_get "lease_id" data = Some (VStr lease_id)
      /\ lease_id = ("CX-" ++ str_of_int year ++ "-" ++ str_of_int serial)%string
      /\ 2024 <= year <= 2026 /\ 10000 <= serial <= 99999
      /\ String.length lease_id = 13%nat
      /\ dict_get "tax_parcel_id" data = Some (VStr parcel)
      /\ parcel = (str_of_int p1 ++ "-" ++ str_of_int p2 ++ "-"
                     ++ str_of_int p3)%string
      /\ 10 <= p1 <= 99 /\ 100 <= p2 <= 999 /\ 1000 <= p3 <= 9999
      /\ String.length parcel = 11%nat).
Proof.
  cbv zeta.
  split; [intros i; unfold calendar_date; cbn; lia |].
  apply (identifiers_have_a_fixed_format (RS := Lcg.source)
           1 (Lcg.world_on 2026 11 4));
    intros i; unfold calendar_date; cbn; lia.
Defined.

(* ================================================================== *)
(** * The record: lease dates                                          *)
(* ================================================================== *)

Lemma days_in_month_not_february (y y' m : Z) :
  m <> 2 -> Calendar.days_in_month y m = Calendar.days_in_month y' m.
Proof.
  intros H. unfold Calendar.days_in_month.
  destruct (Z.eqb_spec m 2); [contradiction | reflexivity].
Qed.

Lemma days_in_february (y : Z) :
  Calendar.days_in_month y 2 = 28 \/ Calendar.days_in_month y 2 = 29.
Proof.
  unfold Calendar.days_in_month. cbn [Z.eqb Pos.eqb].
  destruct (Calendar.is_leap y); auto.
Qed.

(** Whole years added to a date of the calendar: the same month and the
    same day, but for a 29 February moved to a common year. *)
Lemma add_months_whole_years (d : datetime) (years : Z) :
  1 <= dt_month d <= 12 ->
  1 <= dt_day d <= Calendar.days_in_month (dt_year d) (dt_month d) ->
  0 <= years ->
  let e := Calendar.add_months d (12 * years) in
  dt_year e = dt_year d + years
  /\ dt_month e = dt_month d
  /\ (dt_day e = dt_day d
      \/ (dt_month d = 2 /\ dt_day d = 29 /\ dt_day e = 28)).
Proof.
  intros Hm Hd Hy. cbv zeta. unfold Calendar.add_months.
  replace (12 * years / 12) with years
    by (rewrite Z.mul_comm, Z.div_mul; lia).
  replace ((12 * years) mod 12) with 0
    by (rewrite Z.mul_comm, Z.mod_mul; lia).
  rewrite Z.add_0_r.
  destruct (Z.ltb_spec 12 (dt_month d)) as [Hgt | _]; [lia |].
  cbn [dt_year dt_month dt_day].
  split; [reflexivity |]. split; [reflexivity |].
  destruct (Z.eq_dec (dt_month d) 2) as [E2 | N2].
  - rewrite E2 in *.
    destruct (days_in_february (dt_year d)) as [Ea | Ea];
      destruct (days_in_february (dt_year d + years)) as [Eb | Eb];
      rewrite Eb; rewrite Ea in Hd; lia.
  - rewrite (days_in_month_not_february _ (dt_year d) _ N2). lia.
Qed.

Section Dates.

Context {RS : RandomSource}.

(** With a clock that shows calendar dates, the lease starts 30 to 120 days
    after the date the clock shows when the document is generated, and it
    is executed 14 to 60 days before it starts: between 30 days before and
    106 days after the clock date. *)
Theorem lease_starts_one_to_four_months_after_the_clock_date
    (num : Z) (w : world) :
  (forall i : nat, calendar_date (clock w (clock_reads w + i))) ->
  exists (data : dict) (w' : world) (start executed : datetime),
    Phase2.generate_complex_lease num w
    = Ok (artifact_name "complex_lease" num, 351) w'
    /\ wrote w w' (artifact_name "complex_lease" num) data
    /\ dict_get "lease_start_date" data
       = Some (VStr (Calendar.strftime_B_d_Y start))
    /\ dict_get "execution_date" data
       = Some (VStr (Calendar.strftime_B_d_Y executed))
    /\ 30 <= ordinal start - ordinal (clock w (clock_reads w)) <= 120
    /\ 14 <= ordinal start - ordinal executed <= 60
    /\ -30 <= ordinal executed - ordinal (clock w (clock_reads w)) <= 106.
Proof.
  intros Hclock.
  assert (Hcal : calendar_date (clock w (clock_reads w)))
    by (rewrite <- (Nat.add_0_r (clock_reads w)); apply Hclock).
  pose proof (calendar_date_ordinal _ Hcal) as Ho.
  destruct (generate_complex_lease_sections num w)
    as (s & w9 & w' & G & _ & E & W & _ & T).
  destruct (generated_core_shape _ _ _ G)
    as (tenant & tstate & tbus & address & city & state & zipcode & county
        & market & days & term & back & delay & trailers & cars & p1 & p2 & p3
        & Ht & Hp & Hm & Hd & Hterm & Hback & Hdelay & Htr & Hc & H1 & H2 & H3
        & Hcore).
  set (today := clock w (clock_reads w)) in *.
  exists (Phase2.merge_sections (section_list s)), w',
    (Calendar.add_days today days),
    (Calendar.add_days (Calendar.add_days today days) (- back)).
  assert (Hs : ordinal (Calendar.add_days today days) = ordinal today + days)
    by (apply ordinal_add_days; lia).
  assert (He : ordinal (Calendar.add_days (Calendar.add_days today days)
                                          (- back))
               = ordinal today + days - back).
  { rewrite ordinal_add_days; lia. }
  split; [exact E |]. split; [exact W |].
  split; [pinned_field T Hcore |]. split; [pinned_field T Hcore |].
  rewrite He, Hs. lia.
Qed.

(** With a clock that shows calendar dates, the term is 5, 7, 10, 13 or 15
    years in months, and the lease ends that many years after it starts,
    in the same month and on the same day of the month (a start on 29
    February ends on 28 February when the last year is a common year); rent
    commences on the start date moved by zero to three months. *)
Theorem lease_ends_whole_years_after_it_starts (num : Z) (w : world) :
  (forall i : nat, calendar_date (clock w (clock_reads w + i))) ->
  exists (data : dict) (w' : world) (start finish : datetime)
         (term_months delay : Z),
    Phase2.generate_complex_lease num w
    = Ok (artifact_name "complex_lease" num, 351) w'
    /\ wrote w w' (artifact_name "complex_lease" num) data
    /\ dict_get "lease_start_date" data
       = Some (VStr (Calendar.strftime_B_d_Y start))
    /\ dict_get "lease_term_months" data = Some (VInt term_months)
    /\ In term_months [60; 84; 120; 156; 180]
    /\ dict_get "lease_end_date" data
       = Some (VStr (Calendar.strftime_B_d_Y finish))
    /\ finish = Calendar.add_months start term_months
    /\ dt_year finish = dt_year start + term_months / 12
    /\ dt_month finish = dt_month start
    /\ (dt_day finish = dt_day start
        \/ (dt_month start = 2 /\ dt_day start = 29 /\ dt_day finish = 28))
    /\ 0 <= delay <= 3
    /\ dict_get "rent_commencement_date" data
       = Some (VStr (Calendar.strftime_B_d_Y
                       (Calendar.add_months start delay))).
Proof.
  intros Hclock.
  assert (Hcal : calendar_date (clock w (clock_reads w)))
    by (rewrite <- (Nat.add_0_r (clock_reads w)); apply Hclock).
  pose proof (calendar_date_ordinal _ Hcal) as Ho.
  destruct (generate_complex_lease_sections num w)
    as (s & w9 & w' & G & _ & E & W & _ & T).
  destruct (generated_core_shape _ _ _ G)
    as (tenant & tstate & tbus & address & city & state & zipcode & county
        & market & days & term & back & delay & trailers & cars & p1 & p2 & p3
        & Ht & Hp & Hm & Hd & Hterm & Hback & Hdelay & Htr & Hc & H1 & H2 & H3
        & Hcore).
  set (today := clock w (clock_reads w)) in *.
  set (start := Calendar.add_days today days) in *.
  exists (Phase2.merge_sections (section_list s)), w', start,
    (Calendar.add_months start term), term, delay.
  destruct (add_days_valid today days ltac:(lia)) as [Hvm Hvd].
  fold start in Hvm, Hvd.
  assert (Hyears : exists years, 0 <= years /\ term = 12 * years
                                 /\ term / 12 = years).
  { cbn [In] in Hterm.
    destruct Hterm as [<- | [<- | [<- | [<- | [<- | []]]]]];
      [exists 5 | exists 7 | exists 10 | exists 13 | exists 15];
      repeat split; lia. }
  destruct Hyears as (years & Hy0 & Hy & Hdiv).
  pose proof (add_months_whole_years start years Hvm Hvd Hy0) as Hend.
  cbv zeta in Hend. rewrite <- Hy in Hend. rewrite Hdiv.
  split; [exact E |]. split; [exact W |].
  split; [pinned_field T Hcore |]. split; [pinned_field T Hcore |].
  split; [exact Hterm |]. split; [pinned_field T Hcore |].
  split; [reflexivity |].
  split; [apply Hend |]. split; [apply Hend |]. split; [apply Hend |].
  split; [exact Hdelay |]. pinned_field T Hcore.
Qed.

End Dates.

(** The dates of a document generated on 4 November 2026. *)
Lemma lease_starts_one_to_four_months_after_the_clock_date_witness :
  let num := 1 in
  let w := Lcg.world_on 2026 11 4 in
  (forall i : nat, calendar_date (clock w (clock_reads w + i)))
  /\ (exists (data : dict) w' (start executed : datetime),
      Phase2.generate_complex_lease num w
      = Ok (artifact_name "complex_lease" num, 351) w'
      /\ wrote w w' (artifact_name "complex_lease" num) data
      /\ dict_get "lease_start_date" data
         = Some (VStr (Calendar.strftime_B_d_Y start))
      /\ dict_get "execution_date" data
         = Some (VStr (Calendar.strftime_B_d_Y executed))
      /\ 30 <= ordinal start - ordinal (clock w (clock_reads w)) <= 120
      /\ 14 <= ordinal start - ordinal executed <= 60
      /\ -30 <= ordinal executed - ordinal (clock w (clock_reads w)) <= 106).
Proof.
  cbv zeta.
  split; [intros i; unfold calendar_date; cbn; lia |].
  apply (lease_starts_one_to_four_months_after_the_clock_date (RS := Lcg.source)
           1 (Lcg.world_on 2026 11 4));
    intros i; unfold calendar_date; cbn; lia.
Defined.

(** The term of a document generated on 4 November 2026. *)
Lemma lease_ends_whole_years_after_it_starts_witness :
  let num := 1 in
  let w := Lcg.world_on 2026 11 4 in
  (forall i : nat, calendar_date (clock w (clock_reads w + i)))
  /\ (exists (data : dict) w' (start finish : datetime)
           (term_months delay : Z),
      Phase2.generate_complex_lease num w
      = Ok (artifact_name "complex_lease" num, 351) w'
      /\ wrote w w' (artifact_name "complex_lease" num) data
      /\ dict_get "lease_start_date" data
         = Some (VStr (Calendar.strftime_B_d_Y start))
      /\ dict_get "lease_term_months" data = Some (VInt term_months)
      /\ In term_months [60; 84; 120; 156; 180]
      /\ dict_get "lease_end_date" data
         = Some (VStr (Calendar.strftime_B_d_Y finish))
      /\ finish = Calendar.add_months start term_months
      /\ dt_year finish = dt_year start + term_months / 12
      /\ dt_month finish = dt_month start
      /\ (dt_day finish = dt_day start
          \/ (dt_month start = 2 /\ dt_day start = 29 /\ dt_day finish = 28))
      /\ 0 <= delay <= 3
      /\ dict_get "rent_commencement_date" data
         = Some (VStr (Calendar.strftime_B_d_Y
                         (Calendar.add_months start delay)))).
Proof.
  cbv zeta.
  split; [intros i; unfold calendar_date; cbn; lia |].
  apply (lease_ends_whole_years_after_it_starts (RS := Lcg.source)
           1 (Lcg.world_on 2026 11 4));
    intros i; unfold calendar_date; cbn; lia.
Defined.

(* ================================================================== *)
(** * The record: fields one section takes from another                *)
(* ================================================================== *)

Section Copies.

Context {RS : RandomSource}.

Lemma gen_miscellaneous_copies (core : dict) (state county : string)
                               (cars trailers : Z) :
  dict_get "property_state" core = Some (VStr state) ->
  dict_get "property_county" core = Some (VStr county) ->
  dict_get "auto_parking_spaces" core = Some (VInt cars) ->
  dict_get "trailer_parking_spaces" core = Some (VInt trailers) ->
  sampler (Phase2.gen_miscellaneous core)
    (section_spec miscellaneous_fields
       (shaped (miscellaneous_shape state county cars trailers))).
Proof.
  intros Hstate Hcounty Hcars Htrailers. unfold Phase2.gen_miscellaneous.
  statement.
  shape_display miscellaneous_fields ltac:(by_definition).
Qed.

(** In a record generated with a clock that shows calendar dates,
    Miscellaneous repeats Core Terms: the governing law is that of the
    state of the property, the venue is its county and state, and the
    parking allocation spells out the numbers of car and trailer spaces of
    the same record. *)
Theorem miscellaneous_fields_repeat_the_core_terms (num : Z) (w : world) :
  (forall i : nat, calendar_date (clock w (clock_reads w + i))) ->
  exists (data : dict) (w' : world) (state county : string)
         (cars trailers : Z),
    Phase2.generate_complex_lease num w
    = Ok (artifact_name "complex_lease" num, 351) w'
    /\ wrote w w' (artifact_name "complex_lease" num) data
    /\ dict_get "property_state" data = Some (VStr state)
    /\ dict_get "property_county" data = Some (VStr county)
    /\ dict_get "auto_parking_spaces" data = Some (VInt cars)
    /\ dict_get "trailer_parking_spaces" data = Some (VInt trailers)
    /\ dict_get "governing_law_state" data = Some (VStr state)
    /\ dict_get "jurisdiction_venue" data
       = Some (VStr (county ++ " County, " ++ state)%string)
    /\ dict_get "parking_allocation" data
       = Some (VStr (str_of_int cars ++ " auto spaces, "
                       ++ str_of_int trailers ++ " trailer spaces")%string).
Proof.
  intros _.
  destruct (generate_complex_lease_sections num w)
    as (s & w9 & w' & G & _ & E & W & _ & T).
  destruct (generated_core_shape _ _ _ G)
    as (tenant & tstate & tbus & address & city & state & zipcode & county
        & market & days & term & back & delay & trailers & cars & p1 & p2 & p3
        & Ht & Hp & Hm & Hd & Hterm & Hback & Hdelay & Htr & Hc & H1 & H2 & H3
        & Hcore).
  assert (Hget : forall k v, existsb (String.eqb k) core_fields = true ->
                   assoc k (core_shape tenant tstate tbus address city state
                              zipcode county market
                              (Calendar.add_days (clock w (clock_reads w)) days)
                              term back delay trailers cars p1 p2 p3)
                   = Some (eq v) ->
                   dict_get k (s_core s) = Some v).
  { intros k v Hk Ha.
    destruct (shaped_get _ _ _ _ _ Hcore (existsb_In _ _ Hk) Ha)
      as (v' & Hv & <-). exact Hv. }
  pose proof G as (w1 & w2 & w3 & w4 & w5 & w6 & w7 & w8 & _ & _ & _ & _ & _
                   & _ & _ & _ & E9).
  pose proof (proj1 (sampler_at _ _ _ _ _
                       (gen_miscellaneous_copies (s_core s) state county cars
                          trailers
                          (Hget "property_state" _ eq_refl eq_refl)
                          (Hget "property_county" _ eq_refl eq_refl)
                          (Hget "auto_parking_spaces" _ eq_refl eq_refl)
                          (Hget "trailer_parking_spaces" _ eq_refl eq_refl))
                       E9)) as Hmisc.
  exists (Phase2.merge_sections (section_list s)), w', state, county, cars,
    trailers.
  split; [exact E |]. split; [exact W |].
  do 4 (split; [pinned_field T Hcore |]).
  split; [pinned_field T Hmisc |]. split; pinned_field T Hmisc.
Qed.

End Copies.

(** The copies in a document generated on 4 November 2026. *)
Lemma miscellaneous_fields_repeat_the_core_terms_witness :
  let num := 1 in
  let w := Lcg.world_on 2026 11 4 in
  (forall i : nat, calendar_date (clock w (clock_reads w + i)))
  /\ (exists (data : dict) w' (state county : string)
           (cars trailers : Z),
      Phase2.generate_complex_lease num w
      = Ok (artifact_name "complex_lease" num, 351) w'
      /\ wrote w w' (artifact_name "complex_lease" num) data
      /\ dict_get "property_state" data = Some (VStr state)
      /\ dict_get "property_county" data = Some (VStr county)
      /\ dict_get "auto_parking_spaces" data = Some (VInt cars)
      /\ dict_get "trailer_parking_spaces" data = Some (VInt trailers)
      /\ dict_get "governing_law_state" data = Some (VStr state)
      /\ dict_get "jurisdiction_venue" data
         = Some (VStr (county ++ " County, " ++ state)%string)
      /\ dict_get "parking_allocation" data
         = Some (VStr (str_of_int cars ++ " auto spaces, "
                         ++ str_of_int trailers ++ " trailer spaces")%string)).
Proof.
  cbv zeta.
  split; [intros i; unfold calendar_date; cbn; lia |].
  apply (miscellaneous_fields_repeat_the_core_terms (RS := Lcg.source)
           1 (Lcg.world_on 2026 11 4));
    intros i; unfold calendar_date; cbn; lia.
Defined.

(* ================================================================== *)
(** * Environmental: the date of the Phase I assessment                *)
(* ================================================================== *)

Section DisplaySteps.

Context {RS : RandomSource}.

(** One entry of a dict display, run in the world at hand. *)
Lemma returns_display_entry (acc : dict) (k : string) (e : M value)
    (rest : list (string * M value)) (w : world)
    (Q : dict -> world -> Prop) :
  returns e w
    (fun v w1 => returns (dict_display_from (dict_set k v acc) rest) w1 Q) ->
  returns (dict_display_from acc ((k, e) :: rest)) w Q.
Proof. intros H. now apply returns_bind in H. Qed.

Lemma returns_fmap {A B} (f : A -> B) (m : M A) (w : world)
                   (Q : B -> world -> Prop) :
  returns m w (fun a w1 => Q (f a) w1) -> returns (fmap f m) w Q.
Proof.
  intros H. unfold fmap. apply returns_bind.
  eapply returns_weaken; [exact H |]. intros a w1 Ha. now apply returns_ret.
Qed.

End DisplaySteps.

(** An entry that draws from a list or is a constant. *)
Ltac display_step :=
  apply returns_display_entry;
  lazymatch goal with
  | |- returns (fmap _ (choice _)) _ _ =>
      apply returns_fmap, returns_choice; [discriminate |];
      let x := fresh "x" in
      let s := fresh "s" in
      let Hx := fresh "Hx" in
      intros x s Hx
  | |- returns (str _) _ _ => apply returns_ret
  end;
  cbn [dict_set String.eqb Ascii.eqb Bool.eqb].

Section Assessment.

Context {RS : RandomSource}.

(** The Phase I assessment is dated 30 to 365 days before the date the
    clock shows when the section is generated. *)
Theorem phase_i_assessment_is_a_month_to_a_year_old (w : world) :
  calendar_date (clock w (clock_reads w)) ->
  returns Phase2.gen_environmental_compliance w
    (fun section _ =>
       exists assessed : datetime,
         dict_get "phase_i_esa_date" section
         = Some (VStr (Calendar.strftime_B_d_Y assessed))
         /\ 30 <= ordinal (clock w (clock_reads w)) - ordinal assessed <= 365).
Proof.
  intros Hcal. pose proof (calendar_date_ordinal _ Hcal) as Ho.
  unfold Phase2.gen_environmental_compliance, dict_display.
  do 6 display_step.
  apply returns_display_entry.
  apply returns_bind, returns_rand_date_future; [lia |].
  intros days state Hdays. apply returns_ret.
  cbn [set_rng clock clock_reads script_dir artifacts stdout
       dict_set String.eqb Ascii.eqb Bool.eqb].
  set (assessed := Calendar.add_days (clock w (clock_reads w)) days).
  eapply returns_sampler.
  - apply (sampler_dict_display_from
             (shaped [("phase_i_esa_date",
                       eq (VStr (Calendar.strftime_B_d_Y assessed)))])).
    + apply distinct_NoDup. vm_compute. reflexivity.
    + repeat (apply Forall_cons; [shape_entry ltac:(by_definition) |]).
      apply Forall_nil.
    + repeat (apply Forall_cons; [shape_leaf ltac:(by_definition) |]).
      apply Forall_nil.
  - intros section w' _ Hs. cbv beta. exists assessed. split.
    + destruct (shaped_get _ _ _ "phase_i_esa_date" _ Hs
                  ltac:(apply existsb_In; vm_compute; reflexivity) eq_refl)
        as (v & Hv & <-). exact Hv.
    + unfold assessed. rewrite ordinal_add_days by lia. lia.
Qed.

End Assessment.

Lemma phase_i_assessment_witness :
  returns (RS := Lcg.source) Phase2.gen_environmental_compliance
    (Lcg.world_on 2026 11 4)
    (fun section _ =>
       exists assessed : datetime,
         dict_get "phase_i_esa_date" section
         = Some (VStr (Calendar.strftime_B_d_Y assessed))
         /\ 30 <= ordinal (mk_datetime 2026 11 4 43200000000)
                  - ordinal assessed <= 365).
Proof.
  apply (phase_i_assessment_is_a_month_to_a_year_old
           (RS := Lcg.source) (Lcg.world_on 2026 11 4)).
  unfold calendar_date. cbn. lia.
Defined.

(* ================================================================== *)
(** * Two runs compared                                                *)
(* ================================================================== *)

Lemma same_fields_refl (but : list string) (d : dict) : same_fields but d d.
Proof. induction d; constructor; auto. Qed.

Lemma same_fields_set (but : list string) (k : string) (v1 v2 : value)
    (d1 d2 : dict) :
  same_fields but d1 d2 -> In k but \/ v1 = v2 ->
  same_fields but (dict_set k v1 d1) (dict_set k v2 d2).
Proof.
  intros H Hv. induction H as [| [k1 x1] [k2 x2] d1 d2 [Hk Hx] H IH];
    cbn [dict_set].
  - constructor; [| constructor]. auto.
  - cbn [fst snd] in Hk, Hx. subst k2.
    destruct (String.eqb k k1) eqn:E.
    + constructor; [| exact H]. auto.
    + constructor; [| exact IH]. auto.
Qed.

Lemma same_fields_get (but : list string) (k : string) (d1 d2 : dict) :
  same_fields but d1 d2 -> ~ In k but -> dict_get k d1 = dict_get k d2.
Proof.
  intros H Hk. induction H as [| [k1 x1] [k2 x2] d1 d2 [Hk1 Hx] H IH];
    cbn [dict_get]; [reflexivity |].
  cbn [fst snd] in Hk1, Hx. subst k2.
  destruct (String.eqb_spec k k1) as [-> | Hne]; [| exact IH].
  destruct Hx as [Hx | ->]; [contradiction | reflexivity].
Qed.

Lemma same_fields_keys (but : list string) (d1 d2 : dict) :
  same_fields but d1 d2 -> keys d1 = keys d2.
Proof.
  induction 1 as [| [k1 x1] [k2 x2] d1 d2 [Hk1 Hx] H IH]; [reflexivity |].
  cbn [keys map fst] in *. now f_equal.
Qed.

Lemma same_fields_same_but (but : list string) (d1 d2 : dict) :
  same_fields but d1 d2 -> same_but but d1 d2.
Proof.
  intros H. split; [now apply (same_fields_keys but) |].
  intros k Hk. now apply (same_fields_get but).
Qed.

Lemma same_fields_present (but : list string) (k : string) (d1 d2 : dict) :
  same_fields but d1 d2 ->
  (dict_get k d1 = None <-> dict_get k d2 = None).
Proof.
  intros H. rewrite !dict_get_None_iff.
  now rewrite (same_fields_keys _ _ _ H).
Qed.

Lemma same_fields_len (but : list string) (d1 d2 : dict) :
  same_fields but d1 d2 -> len d1 = len d2.
Proof.
  intros H. unfold len. f_equal. exact (Forall2_length H).
Qed.

Lemma same_fields_nil (d1 d2 : dict) : same_fields [] d1 d2 -> d1 = d2.
Proof.
  induction 1 as [| [k1 x1] [k2 x2] d1 d2 [Hk1 Hx] H IH]; [reflexivity |].
  cbn [fst snd In] in *. destruct Hx as [[] | Hx]. now subst.
Qed.

(** The merge loop keeps two lists of sections the same, the helper
    entries being left out. *)
Lemma same_fields_merge (but1 but2 : list string) (s1 s2 : dict) :
  (forall k, In k but1 -> is_public k = true -> In k but2) ->
  same_fields but1 s1 s2 ->
  forall data1 data2, same_fields but2 data1 data2 ->
  same_fields but2 (Phase2.merge_section data1 s1)
              (Phase2.merge_section data2 s2).
Proof.
  intros Hb H.
  induction H as [| [k1 x1] [k2 x2] s1 s2 [Hk1 Hx] H IH]; intros data1 data2 Hd;
    [exact Hd |].
  cbn [fst snd] in Hk1, Hx. subst k2.
  unfold Phase2.merge_section in *. cbn [fold_left fst snd].
  fold (is_public k1). destruct (is_public k1) eqn:Hp; [| now apply IH].
  apply IH. apply same_fields_set; [exact Hd |].
  destruct Hx as [Hx | Hx]; [left; now apply Hb | now right].
Qed.

Lemma same_fields_merge_sections (but1 but2 : list string)
    (ss1 ss2 : list dict) :
  (forall k, In k but1 -> is_public k = true -> In k but2) ->
  Forall2 (same_fields but1) ss1 ss2 ->
  same_fields but2 (Phase2.merge_sections ss1) (Phase2.merge_sections ss2).
Proof.
  intros Hb H. unfold Phase2.merge_sections.
  assert (G : forall data1 data2, same_fields but2 data1 data2 ->
              same_fields but2 (fold_left Phase2.merge_section ss1 data1)
                          (fold_left Phase2.merge_section ss2 data2)).
  { induction H as [| s1 s2 ss1 ss2 Hs H IH]; intros data1 data2 Hd;
      cbn [fold_left]; [exact Hd |].
    apply IH. now apply (same_fields_merge but1). }
  apply G. constructor.
Qed.

Section Rules.

Context {RS : RandomSource}.

Variable D : datetime -> datetime -> Prop.
Variable but : list string.

Lemma agree_ret {A} (a1 a2 : A) (R : A -> A -> Prop) :
  R a1 a2 -> agree D but (ret a1) (ret a2) R.
Proof. intros H w1 w2 Hw. cbn. auto. Qed.

Lemma agree_raise {A} (e : exn) (R : A -> A -> Prop) :
  agree D but (raise e) (raise e) R.
Proof. intros w1 w2 Hw. cbn. auto. Qed.

Lemma agree_bind {A B} (m1 m2 : M A) (k1 k2 : A -> M B)
    (R : A -> A -> Prop) (S : B -> B -> Prop) :
  agree D but m1 m2 R ->
  (forall a1 a2, R a1 a2 -> agree D but (k1 a1) (k2 a2) S) ->
  agree D but (bind m1 k1) (bind m2 k2) S.
Proof.
  intros Hm Hk w1 w2 Hw. specialize (Hm w1 w2 Hw). unfold bind.
  destruct (m1 w1) as [a1 w1' | e1 w1'], (m2 w2) as [a2 w2' | e2 w2'];
    try contradiction.
  - destruct Hm as [Ha Hw']. exact (Hk a1 a2 Ha w1' w2' Hw').
  - exact Hm.
Qed.

Lemma agree_weaken {A} (m1 m2 : M A) (R S : A -> A -> Prop) :
  agree D but m1 m2 R -> (forall a1 a2, R a1 a2 -> S a1 a2) -> agree D but m1 m2 S.
Proof.
  intros Hm HRS w1 w2 Hw. specialize (Hm w1 w2 Hw).
  destruct (m1 w1), (m2 w2); intuition auto.
Qed.

Lemma agree_same_run {A} (m1 m2 : M A) :
  (forall w, m1 w = m2 w) -> steady D but m2 -> agree D but m1 m2 eq.
Proof. intros E H w1 w2 Hw. rewrite E. exact (H w1 w2 Hw). Qed.

Lemma steady_ret {A} (a : A) : steady D but (ret a).
Proof. now apply agree_ret. Qed.

Lemma steady_raise {A} (e : exn) : steady D but (raise (A := A) e).
Proof. apply agree_raise. Qed.

Lemma steady_bind {A B} (m : M A) (k : A -> M B) :
  steady D but m -> (forall a, steady D but (k a)) -> steady D but (bind m k).
Proof.
  intros Hm Hk. eapply agree_bind; [exact Hm |]. intros a ? <-. apply Hk.
Qed.

Lemma agree_bind_steady {A B} (m : M A) (k1 k2 : A -> M B)
    (S : B -> B -> Prop) :
  steady D but m -> (forall a, agree D but (k1 a) (k2 a) S) ->
  agree D but (bind m k1) (bind m k2) S.
Proof.
  intros Hm Hk. eapply agree_bind; [exact Hm |]. intros a ? <-. apply Hk.
Qed.

Lemma steady_fmap {A B} (f : A -> B) (m : M A) : steady D but m -> steady D but (fmap f m).
Proof.
  intros H. unfold fmap. apply steady_bind; [exact H |].
  intros a. apply steady_ret.
Qed.

Lemma steady_lift {A} (r : exn + A) : steady D but (lift r).
Proof. destruct r; [apply steady_raise | apply steady_ret]. Qed.

Lemma alike_set_rng (s : rng_state) (w1 w2 : world) :
  alike D but w1 w2 -> alike D but (set_rng s w1) (set_rng s w2).
Proof. intros (_ & Hd & A & O & C). repeat split; auto; apply C. Qed.

Lemma steady_randbelow (n : Z) : steady D but (randbelow n).
Proof.
  intros w1 w2 Hw. unfold randbelow. destruct Hw as (Hr & Hw).
  rewrite Hr. split; [reflexivity |].
  apply alike_set_rng. split; [exact Hr | exact Hw].
Qed.

Lemma steady_random_seed (n : Z) : steady D but (random_seed n).
Proof.
  intros w1 w2 Hw. unfold random_seed. split; [reflexivity |].
  now apply alike_set_rng.
Qed.

Lemma steady_randint (a b : Z) : steady D but (randint a b).
Proof.
  unfold randint. destruct (0 <? b + 1 - a); [| apply steady_raise].
  apply steady_bind; [apply steady_randbelow |]. intros r. apply steady_ret.
Qed.

Lemma steady_choice {A} (seq : list A) : steady D but (choice seq).
Proof.
  destruct seq as [| x rest]; [apply steady_raise |]. unfold choice.
  apply steady_bind; [apply steady_randbelow |]. intros r. apply steady_ret.
Qed.

Lemma steady_uniform (a b : float) : steady D but (uniform a b).
Proof.
  intros w1 w2 Hw. unfold uniform. destruct Hw as (Hr & Hw).
  rewrite Hr. split; [reflexivity |].
  apply alike_set_rng. split; [exact Hr | exact Hw].
Qed.

Lemma steady_print (line : string) : steady D but (print line).
Proof.
  intros w1 w2 (Hr & Hd & A & O & C). cbn. split; [reflexivity |].
  repeat split; cbn; auto; try apply C. now rewrite O.
Qed.

Lemma agree_doc_build (path : string) (record1 record2 : dict) :
  same_fields but record1 record2 ->
  agree D but (doc_build path record1) (doc_build path record2) eq.
Proof.
  intros H w1 w2 (Hr & Hd & A & O & C). cbn. split; [reflexivity |].
  repeat split; cbn; auto; try apply C.
  apply Forall2_app; [exact A |]. constructor; [| constructor]. auto.
Qed.

Lemma steady_OUTPUT_DIR : steady D but OUTPUT_DIR.
Proof.
  intros w1 w2 Hw. unfold OUTPUT_DIR. split; [| exact Hw].
  destruct Hw as (_ & Hd & _). now rewrite Hd.
Qed.

Lemma steady_getitem (d : dict) (k : string) : steady D but (d.[k]).
Proof.
  unfold getitem. destruct (dict_get k d);
    [apply steady_ret | apply steady_raise].
Qed.

(** Reading a field that may differ: present in both or in neither. *)
Lemma agree_getitem (d1 d2 : dict) (k : string) :
  same_fields but d1 d2 -> agree D but (d1.[k]) (d2.[k]) (fun _ _ => True).
Proof.
  intros H. pose proof (same_fields_present but k _ _ H) as Hp.
  unfold getitem.
  destruct (dict_get k d1) as [v1 |], (dict_get k d2) as [v2 |].
  - now apply agree_ret.
  - destruct Hp as [_ Hp]. discriminate (Hp eq_refl).
  - destruct Hp as [Hp _]. discriminate (Hp eq_refl).
  - apply agree_raise.
Qed.

Lemma steady_mul_float (v : value) (x : float) : steady D but (mul_float v x).
Proof. destruct v; first [apply steady_ret | apply steady_raise]. Qed.

Lemma steady_div_float (v : value) (x : float) : steady D but (div_float v x).
Proof. destruct v; first [apply steady_ret | apply steady_raise]. Qed.

Lemma steady_for_each {A S} (xs : list A) (body : A -> S -> M S) :
  (forall x s, steady D but (body x s)) -> forall s, steady D but (for_each xs body s).
Proof.
  intros Hb. induction xs as [| x xs IH]; intros s; cbn [for_each].
  - apply steady_ret.
  - apply steady_bind; [apply Hb | exact IH].
Qed.

(** ** The clock *)

Lemma agree_now : agree D but now now D.
Proof.
  intros w1 w2 (Hr & Hd & A & O & C). cbn. split.
  - specialize (C 0%nat). now rewrite !Nat.add_0_r in C.
  - repeat split; cbn; auto. intros i. specialize (C (S i)).
    now rewrite !Nat.add_succ_r in C.
Qed.

(** ** Dict displays *)

Lemma agree_display_from (fields : list string)
    (entries1 entries2 : list (string * M value)) :
  Forall2 (fun e1 e2 =>
             fst e1 = fst e2
             /\ agree D but (snd e1) (snd e2)
                      (fun v1 v2 => In (fst e1) fields \/ v1 = v2))
          entries1 entries2 ->
  forall acc1 acc2, same_fields fields acc1 acc2 ->
  agree D but (dict_display_from acc1 entries1) (dict_display_from acc2 entries2)
        (same_fields fields).
Proof.
  induction 1 as [| [k1 e1] [k2 e2] es1 es2 [Hk He] _ IH]; intros acc1 acc2 Hacc;
    cbn [dict_display_from].
  - now apply agree_ret.
  - cbn [fst snd] in Hk, He. subst k2.
    eapply agree_bind; [exact He |]. intros v1 v2 Hv. cbv beta in Hv.
    apply IH. now apply same_fields_set.
Qed.

Lemma agree_display (fields : list string)
    (entries1 entries2 : list (string * M value)) :
  Forall2 (fun e1 e2 =>
             fst e1 = fst e2
             /\ agree D but (snd e1) (snd e2)
                      (fun v1 v2 => In (fst e1) fields \/ v1 = v2))
          entries1 entries2 ->
  agree D but (dict_display entries1) (dict_display entries2) (same_fields fields).
Proof. intros H. apply agree_display_from; [exact H | constructor]. Qed.

Lemma steady_display_from (entries : list (string * M value)) :
  Forall (fun e => steady D but (snd e)) entries ->
  forall acc, steady D but (dict_display_from acc entries).
Proof.
  induction 1 as [| [k e] es He _ IH]; intros acc; cbn [dict_display_from].
  - apply steady_ret.
  - apply steady_bind; [exact He |]. intros v. apply IH.
Qed.

Lemma steady_display (entries : list (string * M value)) :
  Forall (fun e => steady D but (snd e)) entries -> steady D but (dict_display entries).
Proof. intros H. now apply steady_display_from. Qed.

Lemma agree_steady_entry (m : M value) (P : Prop) :
  steady D but m -> agree D but m m (fun v1 v2 => P \/ v1 = v2).
Proof. intros H. eapply agree_weaken; [exact H |]. auto. Qed.

(** ** Writing a record *)

Lemma agree_read_fields (d1 d2 : dict) (fields : list string) :
  same_fields but d1 d2 ->
  agree D but (Phase2.read_fields d1 fields) (Phase2.read_fields d2 fields) eq.
Proof.
  intros H. induction fields as [| k rest IH]; cbn [Phase2.read_fields].
  - now apply agree_ret.
  - eapply agree_bind; [now apply agree_getitem |]. intros _ _ _. exact IH.
Qed.

Lemma steady_gt_zero (v : value) : steady D but (gt_zero v).
Proof. destruct v; first [apply steady_ret | apply steady_raise]. Qed.

(** The template chooses the abatement paragraph by the free-rent months,
    which the two records have in common. *)
Lemma agree_build_lease_pdf (data1 data2 : dict) (filename : string) :
  ~ In "free_rent_months" but ->
  same_fields but data1 data2 ->
  agree D but (Phase2.build_lease_pdf data1 filename)
        (Phase2.build_lease_pdf data2 filename) eq.
Proof.
  intros Hb H. unfold Phase2.build_lease_pdf.
  apply agree_bind_steady; [apply steady_OUTPUT_DIR |]. intros dir. cbv zeta.
  eapply agree_bind; [now apply agree_read_fields |]. intros _ _ _.
  eapply agree_bind.
  { apply agree_same_run; [| apply steady_getitem].
    intros w. unfold getitem.
    now rewrite (same_fields_get but _ _ _ H Hb). }
  intros months ? <-.
  apply agree_bind_steady; [apply steady_gt_zero |]. intros abated.
  eapply agree_bind.
  { destruct abated; [now apply agree_read_fields | now apply agree_ret]. }
  intros _ _ _.
  eapply agree_bind; [now apply agree_read_fields |]. intros _ _ _.
  eapply agree_bind; [now apply agree_doc_build |]. intros _ _ _.
  now apply agree_ret.
Qed.

End Rules.

(** One statement that does not read the clock. *)
Ltac steady_stmt :=
  lazymatch goal with
  | |- steady _ _ (ret _) => apply steady_ret
  | |- steady _ _ (str _) => apply steady_ret
  | |- steady _ _ (int_ _) => apply steady_ret
  | |- steady _ _ (flt _) => apply steady_ret
  | |- steady _ _ (raise _) => apply steady_raise
  | |- steady _ _ (lift _) => apply steady_lift
  | |- steady _ _ (randint _ _) => apply steady_randint
  | |- steady _ _ (choice _) => apply steady_choice
  | |- steady _ _ (uniform _ _) => apply steady_uniform
  | |- steady _ _ (getitem _ _) => apply steady_getitem
  | |- steady _ _ (mul_float _ _) => apply steady_mul_float
  | |- steady _ _ (div_float _ _) => apply steady_div_float
  | |- steady _ _ (print _) => apply steady_print
  | |- steady _ _ OUTPUT_DIR => apply steady_OUTPUT_DIR
  | |- steady _ _ (random_seed _) => apply steady_random_seed
  end.

(** A block of statements, a dict display last or not. *)
Ltac steady_block :=
  cbv beta iota zeta;
  lazymatch goal with
  | |- steady _ _ (bind _ _) =>
      apply steady_bind;
      [ steady_block
      | let x := fresh "x" in
        intros x;
        repeat match goal with
               | p : (_ * _)%type |- _ => destruct p
               end;
        steady_block ]
  | |- steady _ _ (fmap _ _) => apply steady_fmap; steady_block
  | |- steady _ _ (dict_display _) =>
      apply steady_display;
      repeat (apply Forall_cons; [cbn [snd]; steady_block |]);
      apply Forall_nil
  | |- steady _ _ (Phase2.rand_dollar _ _) =>
      unfold Phase2.rand_dollar; steady_block
  | |- steady _ _ (Phase2.rand_pct _ _) =>
      unfold Phase2.rand_pct; steady_block
  | |- steady _ _ Phase2.generate_lease_id =>
      unfold Phase2.generate_lease_id; steady_block
  | |- _ => steady_stmt
  end.

Section SteadySections.

Context {RS : RandomSource}.

Variable D : datetime -> datetime -> Prop.
Variable but : list string.

Lemma steady_gen_financial (core : dict) :
  steady D but (Phase2.gen_financial core).
Proof. unfold Phase2.gen_financial. steady_block. Qed.

Lemma steady_gen_operating_expenses (core : dict) :
  steady D but (Phase2.gen_operating_expenses core).
Proof. unfold Phase2.gen_operating_expenses. steady_block. Qed.

Lemma steady_gen_options (core : dict) :
  steady D but (Phase2.gen_options core).
Proof. unfold Phase2.gen_options. steady_block. Qed.

Lemma steady_gen_insurance_liability :
  steady D but Phase2.gen_insurance_liability.
Proof. unfold Phase2.gen_insurance_liability. steady_block. Qed.

Lemma steady_gen_construction_alterations (core : dict) :
  steady D but (Phase2.gen_construction_alterations core).
Proof. unfold Phase2.gen_construction_alterations. steady_block. Qed.

Lemma steady_gen_default_remedies : steady D but Phase2.gen_default_remedies.
Proof. unfold Phase2.gen_default_remedies. steady_block. Qed.

Lemma steady_gen_miscellaneous (core : dict) :
  steady D but (Phase2.gen_miscellaneous core).
Proof. unfold Phase2.gen_miscellaneous. steady_block. Qed.

End SteadySections.

(** ** One document and the batch, given the two sections with dates *)

Ltac consumed := cbv [consumed_fields In]; auto 10.

Lemma same_documents_refl (but : list string) (l : list (string * dict)) :
  Forall2 (fun a1 a2 => fst a1 = fst a2 /\ same_fields but (snd a1) (snd a2))
          l l.
Proof.
  induction l as [| a l IH]; constructor;
    [split; [reflexivity | apply same_fields_refl] | exact IH].
Qed.

Section Composition.

Context {RS : RandomSource}.

Variable D : datetime -> datetime -> Prop.

(** The entries two core or environmental sections may differ in, and the
    fields two records may differ in. *)
Variable section_but record_but : list string.

Hypothesis public_but :
  forall k, In k section_but -> is_public k = true -> In k record_but.

Hypothesis consumed_same :
  forall k, In k consumed_fields -> ~ In k section_but.

Hypothesis abatement_same : ~ In "free_rent_months" record_but.

Hypothesis core_agree :
  agree D record_but Phase2.gen_core_terms Phase2.gen_core_terms
        (same_fields section_but).

Hypothesis environmental_agree :
  agree D record_but Phase2.gen_environmental_compliance
        Phase2.gen_environmental_compliance (same_fields section_but).

Lemma getitem_same_fields (k : string) (core1 core2 : dict) :
  same_fields section_but core1 core2 -> In k consumed_fields ->
  core1.[k] = core2.[k].
Proof.
  intros H Hk. unfold getitem.
  now rewrite (same_fields_get _ k _ _ H (consumed_same k Hk)).
Qed.

Lemma gen_financial_agree (core1 core2 : dict) :
  same_fields section_but core1 core2 ->
  agree D record_but (Phase2.gen_financial core1) (Phase2.gen_financial core2)
        eq.
Proof.
  intros H. apply agree_same_run; [| apply steady_gen_financial].
  intros w. unfold Phase2.gen_financial.
  now rewrite (getitem_same_fields "_sqft" _ _ H) by consumed.
Qed.

Lemma gen_operating_expenses_agree (core1 core2 : dict) :
  same_fields section_but core1 core2 ->
  agree D record_but (Phase2.gen_operating_expenses core1)
        (Phase2.gen_operating_expenses core2) eq.
Proof.
  intros H. apply agree_same_run; [| apply steady_gen_operating_expenses].
  intros w. unfold Phase2.gen_operating_expenses.
  now rewrite (getitem_same_fields "_sqft" _ _ H) by consumed.
Qed.

Lemma gen_options_agree (core1 core2 : dict) :
  same_fields section_but core1 core2 ->
  agree D record_but (Phase2.gen_options core1) (Phase2.gen_options core2) eq.
Proof.
  intros H. apply agree_same_run; [| apply steady_gen_options].
  intros w. unfold Phase2.gen_options.
  now rewrite (getitem_same_fields "lease_term_months" _ _ H) by consumed.
Qed.

Lemma gen_construction_alterations_agree (core1 core2 : dict) :
  same_fields section_but core1 core2 ->
  agree D record_but (Phase2.gen_construction_alterations core1)
        (Phase2.gen_construction_alterations core2) eq.
Proof.
  intros H.
  apply agree_same_run; [| apply steady_gen_construction_alterations].
  intros w. unfold Phase2.gen_construction_alterations.
  now rewrite (getitem_same_fields "_sqft" _ _ H) by consumed.
Qed.

Lemma gen_miscellaneous_agree (core1 core2 : dict) :
  same_fields section_but core1 core2 ->
  agree D record_but (Phase2.gen_miscellaneous core1)
        (Phase2.gen_miscellaneous core2) eq.
Proof.
  intros H. apply agree_same_run; [| apply steady_gen_miscellaneous].
  intros w. unfold Phase2.gen_miscellaneous.
  rewrite (getitem_same_fields "property_state" _ _ H) by consumed.
  rewrite (getitem_same_fields "property_county" _ _ H) by consumed.
  rewrite (getitem_same_fields "auto_parking_spaces" _ _ H) by consumed.
  now rewrite (getitem_same_fields "trailer_parking_spaces" _ _ H)
    by consumed.
Qed.

Lemma steady_generate_complex_lease (num : Z) :
  steady D record_but (Phase2.generate_complex_lease num).
Proof.
  unfold Phase2.generate_complex_lease.
  eapply agree_bind; [apply core_agree |]. intros core1 core2 Hcore.
  eapply agree_bind; [now apply gen_financial_agree |]. intros fin ? <-.
  eapply agree_bind; [now apply gen_operating_expenses_agree |].
  intros opex ? <-.
  eapply agree_bind; [now apply gen_options_agree |]. intros opts ? <-.
  eapply agree_bind; [apply steady_gen_insurance_liability |].
  intros ins ? <-.
  eapply agree_bind; [now apply gen_construction_alterations_agree |].
  intros cons ? <-.
  eapply agree_bind; [apply steady_gen_default_remedies |]. intros dflt ? <-.
  eapply agree_bind; [apply environmental_agree |]. intros env1 env2 Henv.
  eapply agree_bind; [now apply gen_miscellaneous_agree |]. intros misc ? <-.
  cbv zeta.
  assert (Hdata : same_fields record_but
                    (Phase2.merge_sections
                       [core1; fin; opex; opts; ins; cons; dflt; env1; misc])
                    (Phase2.merge_sections
                       [core2; fin; opex; opts; ins; cons; dflt; env2; misc])).
  { apply (same_fields_merge_sections section_but); [exact public_but |].
    repeat (constructor; [first [assumption | apply same_fields_refl] |]).
    constructor. }
  eapply agree_bind;
    [apply agree_build_lease_pdf; [exact abatement_same | exact Hdata] |].
  intros path ? <-. apply agree_ret.
  now rewrite (same_fields_len _ _ _ Hdata).
Qed.

Lemma steady_main : steady D record_but Phase2.main.
Proof.
  unfold Phase2.main.
  do 4 (apply steady_bind; [steady_stmt | intros _]).
  apply steady_bind.
  - apply steady_for_each. intros i total_fields.
    apply steady_bind; [apply steady_generate_complex_lease |].
    intros [filename field_count].
    apply steady_bind; [steady_stmt | intros _; apply steady_ret].
  - intros total_fields.
    apply steady_bind; [steady_stmt | intros dir].
    do 4 (apply steady_bind; [steady_stmt | intros _]).
    steady_stmt.
Qed.

(** The batch seeds the generator itself: the two runs may start from any
    random states. *)
Lemma main_alike (w1 w2 w1' w2' : world) :
  script_dir w1 = script_dir w2 ->
  artifacts w1 = artifacts w2 ->
  stdout w1 = stdout w2 ->
  (forall i, D (clock w1 (clock_reads w1 + i)%nat)
               (clock w2 (clock_reads w2 + i)%nat)) ->
  Phase2.main w1 = Ok tt w1' -> Phase2.main w2 = Ok tt w2' ->
  alike D record_but w1' w2'.
Proof.
  intros Hd Ha Ho Hc E1 E2.
  assert (Hw : alike D record_but (set_rng (rng w2) w1) w2).
  { unfold alike. cbn [set_rng rng script_dir artifacts stdout clock
                       clock_reads].
    split; [reflexivity |]. split; [exact Hd |].
    split; [| split; [exact Ho | exact Hc]].
    rewrite Ha. apply same_documents_refl. }
  assert (E : Phase2.main (set_rng (rng w2) w1) = Phase2.main w1)
    by (unfold Phase2.main; apply seeded_after_prints).
  pose proof (steady_main _ _ Hw) as H.
  rewrite E, E1, E2 in H. apply H.
Qed.

End Composition.

(* ================================================================== *)
(** * The record: the order of the dates                               *)
(* ================================================================== *)

Lemma div_step (y k : Z) :
  0 < k -> y / k = (y - 1) / k + (if y mod k =? 0 then 1 else 0).
Proof.
  intros Hk. pose proof (Z.div_mod y k ltac:(lia)) as E.
  pose proof (Z.mod_pos_bound y k Hk) as B.
  destruct (Z.eqb_spec (y mod k) 0) as [E0 | E0].
  - assert (H : y / k - 1 = (y - 1) / k)
      by (apply (Z.div_unique (y - 1) k (y / k - 1) (k - 1)); lia).
    lia.
  - assert (H : y / k = (y - 1) / k)
      by (apply (Z.div_unique (y - 1) k (y / k) (y mod k - 1)); lia).
    lia.
Qed.

Lemma days_before_year_step (y : Z) :
  Calendar.days_before_year (y + 1)
  = Calendar.days_before_year y + 365
    + (if Calendar.is_leap y then 1 else 0).
Proof.
  unfold Calendar.days_before_year, Calendar.is_leap. cbv zeta.
  replace (y + 1 - 1) with y by lia.
  rewrite (div_step y 4), (div_step y 100), (div_step y 400) by lia.
  assert (H100 : y mod 100 = 0 -> y mod 4 = 0).
  { intros H. rewrite (Z.div_mod y 100) by lia. rewrite H, Z.add_0_r.
    replace (100 * (y / 100)) with (25 * (y / 100) * 4) by lia.
    apply Z.mod_mul. lia. }
  assert (H400 : y mod 400 = 0 -> y mod 100 = 0).
  { intros H. rewrite (Z.div_mod y 400) by lia. rewrite H, Z.add_0_r.
    replace (400 * (y / 400)) with (4 * (y / 400) * 100) by lia.
    apply Z.mod_mul. lia. }
  destruct (Z.eqb_spec (y mod 4) 0), (Z.eqb_spec (y mod 100) 0),
    (Z.eqb_spec (y mod 400) 0); cbn [andb orb negb]; lia.
Qed.

Lemma days_before_year_mono (y1 y2 : Z) :
  y1 <= y2 -> Calendar.days_before_year y1 <= Calendar.days_before_year y2.
Proof.
  intros H. replace y2 with (y1 + Z.of_nat (Z.to_nat (y2 - y1))) by lia.
  induction (Z.to_nat (y2 - y1)) as [| k IH]; [now rewrite Z.add_0_r |].
  replace (y1 + Z.of_nat (S k)) with (y1 + Z.of_nat k + 1) by lia.
  rewrite days_before_year_step.
  destruct (Calendar.is_leap _); lia.
Qed.

Ltac month_cases m :=
  let H := fresh in
  assert (H : m = 1 \/ m = 2 \/ m = 3 \/ m = 4 \/ m = 5 \/ m = 6 \/ m = 7
              \/ m = 8 \/ m = 9 \/ m = 10 \/ m = 11 \/ m = 12) by lia;
  destruct H as [-> | [-> | [-> | [-> | [-> | [-> | [-> | [-> | [-> | [->
                  | [-> | ->]]]]]]]]]]].

(** The days of the year that a month ends on, and that the following
    month comes after. *)
Lemma month_end_before_later_month (y m1 m2 : Z) :
  1 <= m1 -> m1 < m2 -> m2 <= 12 ->
  Calendar.days_before_month y m1 + Calendar.days_in_month y m1
  <= Calendar.days_before_month y m2.
Proof.
  intros H1 H12 H2.
  unfold Calendar.days_before_month, Calendar.days_in_month.
  destruct (Calendar.is_leap y);
    month_cases m1; month_cases m2; try lia; vm_compute; discriminate.
Qed.

Lemma month_end_within_year (y m : Z) :
  1 <= m <= 12 ->
  Calendar.days_before_month y m + Calendar.days_in_month y m
  <= 365 + (if Calendar.is_leap y then 1 else 0).
Proof.
  intros H. unfold Calendar.days_before_month, Calendar.days_in_month.
  destruct (Calendar.is_leap y); month_cases m; vm_compute; discriminate.
Qed.

Lemma days_in_month_bounds (y m : Z) :
  28 <= Calendar.days_in_month y m <= 31.
Proof.
  unfold Calendar.days_in_month.
  repeat match goal with |- context [if ?b then _ else _] => destruct b end;
    lia.
Qed.

(** Of two dates of the calendar the one in the earlier month has the
    smaller day number. *)
Lemma ymd2ord_lt (y1 m1 d1 y2 m2 d2 : Z) :
  1 <= m1 <= 12 -> d1 <= Calendar.days_in_month y1 m1 ->
  1 <= m2 <= 12 -> 1 <= d2 ->
  12 * y1 + m1 < 12 * y2 + m2 ->
  Calendar.ymd2ord y1 m1 d1 < Calendar.ymd2ord y2 m2 d2.
Proof.
  intros Hm1 Hd1 Hm2 Hd2 Hlt. unfold Calendar.ymd2ord.
  pose proof (days_before_month_bounds y2 m2 Hm2) as Hb2.
  destruct (Z.eq_dec y1 y2) as [<- | Hy].
  - pose proof (month_end_before_later_month y1 m1 m2). lia.
  - pose proof (month_end_within_year y1 m1 Hm1) as He.
    pose proof (days_before_year_step y1) as Hs.
    pose proof (days_before_year_mono (y1 + 1) y2 ltac:(lia)). lia.
Qed.

(** [relativedelta(months=n)] moves a date of the calendar by [n] months to
    a date of the calendar. *)
Lemma add_months_shape (d : datetime) (n : Z) :
  1 <= dt_month d <= 12 -> 1 <= dt_day d -> 0 <= n ->
  let e := Calendar.add_months d n in
  12 * dt_year e + dt_month e = 12 * dt_year d + dt_month d + n
  /\ 1 <= dt_month e <= 12
  /\ 1 <= dt_day e <= Calendar.days_in_month (dt_year e) (dt_month e).
Proof.
  intros Hm Hd Hn. cbv zeta. unfold Calendar.add_months.
  pose proof (Z.div_mod n 12 ltac:(lia)) as E.
  pose proof (Z.mod_pos_bound n 12 ltac:(lia)) as B.
  destruct (Z.ltb_spec 12 (dt_month d + n mod 12));
    cbn [dt_year dt_month dt_day];
    match goal with
    | |- context [Calendar.days_in_month ?y ?m] =>
        pose proof (days_in_month_bounds y m)
    end; lia.
Qed.

Lemma add_months_later (d : datetime) (a b : Z) :
  1 <= dt_month d <= 12 -> 1 <= dt_day d -> 0 <= a < b ->
  ordinal (Calendar.add_months d a) < ordinal (Calendar.add_months d b).
Proof.
  intros Hm Hd Hab.
  destruct (add_months_shape d a Hm Hd ltac:(lia)) as (Ia & Ma & Da).
  destruct (add_months_shape d b Hm Hd ltac:(lia)) as (Ib & Mb & Db).
  unfold ordinal. apply ymd2ord_lt; lia.
Qed.

Lemma add_months_none (d : datetime) :
  1 <= dt_month d <= 12 ->
  dt_day d <= Calendar.days_in_month (dt_year d) (dt_month d) ->
  ordinal (Calendar.add_months d 0) = ordinal d.
Proof.
  intros Hm Hd. unfold ordinal, Calendar.add_months.
  change (0 / 12) with 0. change (0 mod 12) with 0. rewrite !Z.add_0_r.
  destruct (Z.ltb_spec 12 (dt_month d)); [lia |].
  cbn [dt_year dt_month dt_day]. now rewrite Z.min_r by lia.
Qed.

Section Order.

Context {RS : RandomSource}.

(** With a clock that shows calendar dates, the four dates of a record
    come in order: the lease is executed before it starts, it starts
    after the day of the run, rent commences on the start date or later,
    and the lease ends after rent has commenced. *)
Theorem lease_dates_are_in_order (num : Z) (w : world) :
  (forall i : nat, calendar_date (clock w (clock_reads w + i))) ->
  exists (data : dict) (w' : world)
         (executed start commence finish : datetime),
    Phase2.generate_complex_lease num w
    = Ok (artifact_name "complex_lease" num, 351) w'
    /\ wrote w w' (artifact_name "complex_lease" num) data
    /\ dict_get "execution_date" data
       = Some (VStr (Calendar.strftime_B_d_Y executed))
    /\ dict_get "lease_start_date" data
       = Some (VStr (Calendar.strftime_B_d_Y start))
    /\ dict_get "rent_commencement_date" data
       = Some (VStr (Calendar.strftime_B_d_Y commence))
    /\ dict_get "lease_end_date" data
       = Some (VStr (Calendar.strftime_B_d_Y finish))
    /\ ordinal (clock w (clock_reads w)) < ordinal start
    /\ ordinal executed < ordinal start
    /\ ordinal start <= ordinal commence
    /\ ordinal commence < ordinal finish.
Proof.
  intros Hclock.
  assert (Hcal : calendar_date (clock w (clock_reads w)))
    by (rewrite <- (Nat.add_0_r (clock_reads w)); apply Hclock).
  pose proof (calendar_date_ordinal _ Hcal) as Ho.
  destruct (generate_complex_lease_sections num w)
    as (s & w9 & w' & G & _ & E & W & _ & T).
  destruct (generated_core_shape _ _ _ G)
    as (tenant & tstate & tbus & address & city & state & zipcode & county
        & market & days & term & back & delay & trailers & cars & p1 & p2 & p3
        & Ht & Hp & Hm & Hd & Hterm & Hback & Hdelay & Htr & Hc & H1 & H2 & H3
        & Hcore).
  set (today := clock w (clock_reads w)) in *.
  set (start := Calendar.add_days today days) in *.
  exists (Phase2.merge_sections (section_list s)), w',
    (Calendar.add_days start (- back)), start,
    (Calendar.add_months start delay), (Calendar.add_months start term).
  destruct (add_days_valid today days ltac:(lia)) as [Hvm Hvd].
  fold start in Hvm, Hvd.
  assert (Hs : ordinal start = ordinal today + days)
    by (apply ordinal_add_days; lia).
  assert (He : ordinal (Calendar.add_days start (- back))
               = ordinal start - back)
    by (rewrite ordinal_add_days; lia).
  assert (Hlong : 60 <= term).
  { cbn [In] in Hterm.
    destruct Hterm as [<- | [<- | [<- | [<- | [<- | []]]]]]; lia. }
  split; [exact E |]. split; [exact W |].
  split; [pinned_field T Hcore |]. split; [pinned_field T Hcore |].
  split; [pinned_field T Hcore |]. split; [pinned_field T Hcore |].
  split; [lia |]. split; [lia |]. split.
  - destruct (Z.eq_dec delay 0) as [-> | Hpos].
    + rewrite add_months_none; [lia | exact Hvm | apply Hvd].
    + rewrite <- (add_months_none start Hvm (proj2 Hvd)).
      apply Z.lt_le_incl. apply add_months_later; lia.
  - apply add_months_later; lia.
Qed.

End Order.

(** The four dates of a document generated on 4 November 2026. *)
Lemma lease_dates_are_in_order_witness :
  let num := 1 in
  let w := Lcg.world_on 2026 11 4 in
  (forall i : nat, calendar_date (clock w (clock_reads w + i)))
  /\ (exists (data : dict) w'
           (executed start commence finish : datetime),
      Phase2.generate_complex_lease num w
      = Ok (artifact_name "complex_lease" num, 351) w'
      /\ wrote w w' (artifact_name "complex_lease" num) data
      /\ dict_get "execution_date" data
         = Some (VStr (Calendar.strftime_B_d_Y executed))
      /\ dict_get "lease_start_date" data
         = Some (VStr (Calendar.strftime_B_d_Y start))
      /\ dict_get "rent_commencement_date" data
         = Some (VStr (Calendar.strftime_B_d_Y commence))
      /\ dict_get "lease_end_date" data
         = Some (VStr (Calendar.strftime_B_d_Y finish))
      /\ ordinal (clock w (clock_reads w)) < ordinal start
      /\ ordinal executed < ordinal start
      /\ ordinal start <= ordinal commence
      /\ ordinal commence < ordinal finish).
Proof.
  cbv zeta.
  split; [intros i; unfold calendar_date; cbn; lia |].
  apply (lease_dates_are_in_order (RS := Lcg.source)
           1 (Lcg.world_on 2026 11 4));
    intros i; unfold calendar_date; cbn; lia.
Defined.

(** ** The same days, and any days *)

Lemma same_day_add_days (d1 d2 : datetime) (k : Z) :
  same_day d1 d2 -> same_day (Calendar.add_days d1 k) (Calendar.add_days d2 k).
Proof.
  intros (Hy & Hm & Hd). unfold Calendar.add_days. rewrite Hy, Hm, Hd.
  destruct (Calendar.ord2ymd _) as [[y m] d]. repeat split.
Qed.

Lemma same_day_add_months (d1 d2 : datetime) (n : Z) :
  same_day d1 d2 ->
  same_day (Calendar.add_months d1 n) (Calendar.add_months d2 n).
Proof.
  intros (Hy & Hm & Hd). unfold Calendar.add_months. rewrite Hy, Hm, Hd.
  destruct (12 <? _); repeat split.
Qed.

Lemma same_day_strftime (d1 d2 : datetime) :
  same_day d1 d2 -> Calendar.strftime_B_d_Y d1 = Calendar.strftime_B_d_Y d2.
Proof.
  intros (Hy & Hm & Hd). unfold Calendar.strftime_B_d_Y.
  now rewrite Hy, Hm, Hd.
Qed.

Lemma Forall2_app_inv_length {A B} (R : A -> B -> Prop)
    (a1 l1 : list A) (a2 l2 : list B) :
  List.length a1 = List.length a2 ->
  Forall2 R (a1 ++ l1) (a2 ++ l2) -> Forall2 R l1 l2.
Proof.
  revert a2. induction a1 as [| x a1 IH]; intros [| y a2] Hlen H;
    cbn in Hlen; try discriminate Hlen; [exact H |].
  cbn in H. inversion H; subst. apply (IH a2); [lia | assumption].
Qed.

Section DateRules.

Context {RS : RandomSource}.

Lemma rand_date_future_same_day (but : list string) (a b : Z) :
  agree same_day but (Phase2.rand_date_future a b)
        (Phase2.rand_date_future a b) same_day.
Proof.
  unfold Phase2.rand_date_future.
  eapply agree_bind; [apply agree_now |]. intros t1 t2 Ht.
  eapply agree_bind; [apply steady_randint |]. intros days ? <-.
  apply agree_ret. now apply same_day_add_days.
Qed.

Lemma rand_date_future_any_day (but : list string) (a b : Z) :
  agree (fun _ _ => True) but (Phase2.rand_date_future a b)
        (Phase2.rand_date_future a b) (fun _ _ => True).
Proof.
  unfold Phase2.rand_date_future.
  eapply agree_bind; [apply agree_now |]. intros t1 t2 Ht.
  eapply agree_bind; [apply steady_randint |]. intros days ? <-.
  now apply agree_ret.
Qed.

End DateRules.

(** A statement that does not read the clock: both runs draw the same. *)
Ltac same_draw :=
  apply agree_bind_steady;
  [ steady_block
  | let x := fresh "x" in
    intros x;
    repeat match goal with
           | p : (_ * _)%type |- _ => destruct p
           end;
    cbv beta iota zeta ].

(** An entry of a section with dates: the same statements on both sides,
    or a date, computed or drawn, that [relate] shows to be printed the
    same or to be allowed to differ. *)
Ltac dated_item relate :=
  cbn [fst snd]; split; [reflexivity |];
  first
    [ apply agree_steady_entry; steady_block
    | apply agree_ret; relate
    | eapply agree_bind;
      [ first [ apply rand_date_future_same_day
              | apply rand_date_future_any_day ]
      | let d1 := fresh "d" in
        let d2 := fresh "d" in
        let Hd := fresh "Hd" in
        intros d1 d2 Hd; apply agree_ret; relate ] ].

Ltac dated_display relate :=
  apply agree_display;
  repeat (apply Forall2_cons; [dated_item relate |]); apply Forall2_nil.

Ltac printed_the_same :=
  first
    [ right; f_equal; apply same_day_strftime;
      solve [ auto using same_day_add_days, same_day_add_months ]
    | left; cbv [helper_dates In]; solve [ auto ] ].

Ltac may_differ :=
  left; cbv [helper_dates date_fields app In]; solve [ auto 10 ].

Section Instances.

Context {RS : RandomSource}.

Lemma gen_core_terms_same_day :
  agree same_day [] Phase2.gen_core_terms Phase2.gen_core_terms
        (same_fields helper_dates).
Proof.
  unfold Phase2.gen_core_terms.
  do 3 same_draw.
  eapply agree_bind; [apply rand_date_future_same_day |].
  intros start1 start2 Hstart. cbv beta iota zeta.
  do 16 same_draw.
  dated_display printed_the_same.
Qed.

Lemma gen_environmental_compliance_same_day :
  agree same_day [] Phase2.gen_environmental_compliance
        Phase2.gen_environmental_compliance (same_fields helper_dates).
Proof.
  unfold Phase2.gen_environmental_compliance.
  dated_display printed_the_same.
Qed.

Lemma gen_core_terms_any_day :
  agree (fun _ _ => True) date_fields Phase2.gen_core_terms
        Phase2.gen_core_terms (same_fields (helper_dates ++ date_fields)).
Proof.
  unfold Phase2.gen_core_terms.
  do 3 same_draw.
  eapply agree_bind; [apply rand_date_future_any_day |].
  intros start1 start2 _. cbv beta iota zeta.
  do 16 same_draw.
  dated_display may_differ.
Qed.

Lemma gen_environmental_compliance_any_day :
  agree (fun _ _ => True) date_fields Phase2.gen_environmental_compliance
        Phase2.gen_environmental_compliance
        (same_fields (helper_dates ++ date_fields)).
Proof.
  unfold Phase2.gen_environmental_compliance.
  dated_display may_differ.
Qed.

Lemma helper_dates_not_public (but : list string) (k : string) :
  In k (helper_dates ++ but) -> is_public k = true -> In k but.
Proof.
  cbn [helper_dates app In].
  intros [<- | [<- | H]] Hp; [discriminate Hp | discriminate Hp | exact H].
Qed.

Lemma helper_dates_alone_not_public (k : string) :
  In k helper_dates -> is_public k = true -> In k [].
Proof.
  intros H. apply helper_dates_not_public. now rewrite app_nil_r.
Qed.

Lemma consumed_are_not_dates (k : string) :
  In k consumed_fields -> ~ In k (helper_dates ++ date_fields).
Proof.
  cbv [consumed_fields helper_dates date_fields app In].
  intros Hk Hd.
  repeat (destruct Hk as [<- | Hk];
          [ repeat (destruct Hd as [E | Hd]; [discriminate E |]);
            contradiction |]).
  contradiction.
Qed.

Lemma free_rent_months_is_no_date : ~ In "free_rent_months" date_fields.
Proof.
  cbv [date_fields In]. intros H.
  repeat (destruct H as [E | H]; [discriminate E |]). contradiction.
Qed.

Lemma consumed_are_not_helper_dates (k : string) :
  In k consumed_fields -> ~ In k helper_dates.
Proof.
  intros Hk Hd. apply (consumed_are_not_dates k Hk).
  apply in_or_app. now left.
Qed.

(** Two runs of the batch in the same directory whose clocks show the same
    calendar dates, reading for reading, whatever the times of day and
    whatever the random states they start from: both complete, and they
    write the same records under the same paths, print the same lines and
    leave the same random state. *)
Theorem runs_on_the_same_days_write_the_same_records (w1 w2 : world) :
  (forall i : nat, calendar_date (clock w1 (clock_reads w1 + i))) ->
  (forall i : nat, calendar_date (clock w2 (clock_reads w2 + i))) ->
  (forall i : nat, same_day (clock w1 (clock_reads w1 + i))
                            (clock w2 (clock_reads w2 + i))) ->
  script_dir w1 = script_dir w2 ->
  artifacts w1 = artifacts w2 ->
  stdout w1 = stdout w2 ->
  exists w1' w2',
    Phase2.main w1 = Ok tt w1' /\ Phase2.main w2 = Ok tt w2'
    /\ artifacts w1' = artifacts w2'
    /\ stdout w1' = stdout w2'
    /\ rng w1' = rng w2'.
Proof.
  intros _ _ Hc Hd Ha Ho.
  destruct (main_spec w1) as (_ & _ & _ & w1' & E1 & _).
  destruct (main_spec w2) as (_ & _ & _ & w2' & E2 & _).
  exists w1', w2'. split; [exact E1 |]. split; [exact E2 |].
  destruct (main_alike same_day helper_dates []
              helper_dates_alone_not_public
              consumed_are_not_helper_dates (fun H => H)
              gen_core_terms_same_day gen_environmental_compliance_same_day
              w1 w2 w1' w2' Hd Ha Ho Hc E1 E2)
    as (Hr & _ & HA & HO & _).
  split; [| auto].
  induction HA as [| [p1 r1] [p2 r2] l1 l2 [Hp Hs] _ IH]; [reflexivity |].
  cbn [fst snd] in Hp, Hs. apply same_fields_nil in Hs. now subst.
Qed.

(** Two runs of the batch from the same directory, on any days of the
    calendar and at any times, from any random states: both complete; the
    three records of the one and of the other have the same fields in the
    same order and the same value in every field but the five dates
    (execution, start, end and rent commencement of the lease, Phase I
    assessment); the lines printed and the random state left are the
    same. *)
Theorem runs_differ_in_the_date_fields_only (w1 w2 : world) :
  (forall i : nat, calendar_date (clock w1 (clock_reads w1 + i))) ->
  (forall i : nat, calendar_date (clock w2 (clock_reads w2 + i))) ->
  script_dir w1 = script_dir w2 ->
  artifacts w1 = artifacts w2 ->
  stdout w1 = stdout w2 ->
  exists d1 d2 d3 e1 e2 e3 w1' w2',
    Phase2.main w1 = Ok tt w1' /\ Phase2.main w2 = Ok tt w2'
    /\ artifacts w1'
       = artifacts w1
         ++ [(complex_lease_path (script_dir w1) 1, d1);
             (complex_lease_path (script_dir w1) 2, d2);
             (complex_lease_path (script_dir w1) 3, d3)]
    /\ artifacts w2'
       = artifacts w1
         ++ [(complex_lease_path (script_dir w1) 1, e1);
             (complex_lease_path (script_dir w1) 2, e2);
             (complex_lease_path (script_dir w1) 3, e3)]
    /\ same_but date_fields d1 e1
    /\ same_but date_fields d2 e2
    /\ same_but date_fields d3 e3
    /\ stdout w1' = stdout w2'
    /\ rng w1' = rng w2'.
Proof.
  intros _ _ Hd Ha Ho.
  destruct (main_spec w1) as (d1 & d2 & d3 & w1' & E1 & A1 & _).
  destruct (main_spec w2) as (e1 & e2 & e3 & w2' & E2 & A2 & _).
  exists d1, d2, d3, e1, e2, e3, w1', w2'.
  rewrite <- Ha, <- Hd in A2.
  destruct (main_alike (fun _ _ => True) (helper_dates ++ date_fields)
              date_fields (helper_dates_not_public date_fields)
              consumed_are_not_dates free_rent_months_is_no_date
              gen_core_terms_any_day gen_environmental_compliance_any_day
              w1 w2 w1' w2' Hd Ha Ho (fun _ => I) E1 E2)
    as (Hr & _ & HA & HO & _).
  rewrite A1, A2 in HA.
  apply Forall2_app_inv_length in HA; [| reflexivity].
  inversion HA as [| ? ? ? ? [_ H1] HA1]; subst.
  inversion HA1 as [| ? ? ? ? [_ H2] HA2]; subst.
  inversion HA2 as [| ? ? ? ? [_ H3] _]; subst.
  cbn [snd] in H1, H2, H3.
  split; [exact E1 |]. split; [exact E2 |].
  split; [exact A1 |]. split; [exact A2 |].
  split; [now apply same_fields_same_but |].
  split; [now apply same_fields_same_but |].
  split; [now apply same_fields_same_but |].
  split; [exact HO | exact Hr].
Qed.

End Instances.

(** A run at noon and a run through the small hours of 4 November 2026,
    from different random states. *)
Lemma runs_on_the_same_days_witness :
  let w1 := Lcg.world_on 2026 11 4 in
  let w2 := mk_world (RS := Lcg.source) 7
              (fun i => mk_datetime 2026 11 4 (Z.of_nat i)) 3 "/srv/demo"
              [] [] in
  (forall i : nat, calendar_date (clock w1 (clock_reads w1 + i)))
  /\ (forall i : nat, calendar_date (clock w2 (clock_reads w2 + i)))
  /\ (forall i : nat, same_day (clock w1 (clock_reads w1 + i))
                               (clock w2 (clock_reads w2 + i)))
  /\ script_dir w1 = script_dir w2
  /\ artifacts w1 = artifacts w2
  /\ stdout w1 = stdout w2
  /\ exists w1' w2',
       Phase2.main w1 = Ok tt w1' /\ Phase2.main w2 = Ok tt w2'
       /\ artifacts w1' = artifacts w2'
       /\ stdout w1' = stdout w2'
       /\ rng w1' = rng w2'.
Proof.
  cbv zeta.
  split; [intros i; unfold calendar_date; cbn; lia |].
  split; [intros i; unfold calendar_date; cbn; lia |].
  split; [intros i; repeat split |].
  do 3 (split; [reflexivity |]).
  apply (runs_on_the_same_days_write_the_same_records
           (RS := Lcg.source) (Lcg.world_on 2026 11 4)
           (mk_world (RS := Lcg.source) 7
              (fun i => mk_datetime 2026 11 4 (Z.of_nat i)) 3 "/srv/demo"
              [] []));
    first [ reflexivity
          | intros i; unfold calendar_date; cbn; lia
          | intros i; repeat split ].
Defined.

(** A run on 4 November 2026 and a run on 28 February 2027. *)
Lemma runs_differ_in_the_date_fields_only_witness :
  let w1 := Lcg.world_on 2026 11 4 in
  let w2 := mk_world (RS := Lcg.source) 7
              (fun i => mk_datetime 2027 2 28 (Z.of_nat i)) 3 "/srv/demo"
              [] [] in
  (forall i : nat, calendar_date (clock w1 (clock_reads w1 + i)))
  /\ (forall i : nat, calendar_date (clock w2 (clock_reads w2 + i)))
  /\ script_dir w1 = script_dir w2
  /\ artifacts w1 = artifacts w2
  /\ stdout w1 = stdout w2
  /\ exists d1 d2 d3 e1 e2 e3 w1' w2',
       Phase2.main w1 = Ok tt w1' /\ Phase2.main w2 = Ok tt w2'
       /\ artifacts w1'
          = artifacts w1
            ++ [(complex_lease_path (script_dir w1) 1, d1);
                (complex_lease_path (script_dir w1) 2, d2);
                (complex_lease_path (script_dir w1) 3, d3)]
       /\ artifacts w2'
          = artifacts w1
            ++ [(complex_lease_path (script_dir w1) 1, e1);
                (complex_lease_path (script_dir w1) 2, e2);
                (complex_lease_path (script_dir w1) 3, e3)]
       /\ same_but date_fields d1 e1
       /\ same_but date_fields d2 e2
       /\ same_but date_fields d3 e3
       /\ stdout w1' = stdout w2'
       /\ rng w1' = rng w2'.
Proof.
  cbv zeta.
  split; [intros i; unfold calendar_date; cbn; lia |].
  split; [intros i; unfold calendar_date; cbn; lia |].
  do 3 (split; [reflexivity |]).
  apply (runs_differ_in_the_date_fields_only
           (RS := Lcg.source) (Lcg.world_on 2026 11 4)
           (mk_world (RS := Lcg.source) 7
              (fun i => mk_datetime 2027 2 28 (Z.of_nat i)) 3 "/srv/demo"
              [] []));
    first [ reflexivity | intros i; unfold calendar_date; cbn; lia ].
Defined.
